(** * Document OCR pipeline and upload router: a shallow embedding

    The development follows two programs of the repository:

    - [VietOcrServer]: [backend/vietocr-server.py], the detect-then-recognise
      HTTP service ([preprocess_image], [preprocess_for_detection], [ocr]);
    - [TriggerUpload]: [lambdas/trigger-upload/index.py], the per-document
      router ([process_legal_document], [process_with_existing_bedrock],
      [lambda_handler]).

    Python numbers are modelled as they are in the interpreter: [int] is
    [Z], [float] is IEEE-754 binary64 with round-to-nearest-even, taken from
    the executable specification [SpecFloat] of the Standard Library.
    Exceptions are an explicit outcome, and mutable objects (PIL images,
    the remote services) live in an explicit state that every call threads. *)

From Stdlib Require Import ZArith List String Ascii Bool Lia.
From Stdlib Require Import Floats.SpecFloat.
From stdpp Require Import base tactics option list.

Import ListNotations.
#[local] Open Scope Z_scope.

(** ** Python exceptions and the state-and-exception monad *)

Inductive exn : Type :=
| ZeroDivisionError
| ValueError
| OverflowError
| IndexError
| TypeError
| KeyError
| AttributeError
| JSONDecodeError
| UnboundLocalError
| ClientError            (* boto3: a remote call failed *)
| ParamValidationError   (* botocore: a parameter of the wrong type *)
| LibraryError           (* cv2 / PIL / model internals *)
| PlainException (msg : string).   (* raise Exception(msg) *)

Inductive outcome (A : Type) : Type :=
| Returns (a : A)
| Raises (e : exn).
Arguments Returns {A} a.
Arguments Raises {A} e.

Definition M (St A : Type) : Type := St -> outcome A * St.

Definition ret {St A} (a : A) : M St A := fun s => (Returns a, s).
Definition raise {St A} (e : exn) : M St A := fun s => (Raises e, s).
Definition bind {St A B} (m : M St A) (k : A -> M St B) : M St B :=
  fun s => match m s with
           | (Returns a, s') => k a s'
           | (Raises e, s') => (Raises e, s')
           end.
(** [try: m except Exception as e: h e]; the state reached when the
    exception was raised is kept, as in Python. *)
Definition try_except {St A} (m : M St A) (h : exn -> M St A) : M St A :=
  fun s => match m s with
           | (Returns a, s') => (Returns a, s')
           | (Raises e, s') => h e s'
           end.
Definition lift {St A} (o : outcome A) : M St A := fun s => (o, s).

Declare Scope py_scope.
Delimit Scope py_scope with py.
Notation "'let*' x := m 'in' k" := (bind m (fun x => k))
  (at level 10, x pattern, m at level 100, k at level 200) : py_scope.
Notation "m ;; k" := (bind m (fun _ => k))
  (at level 100, k at level 200, right associativity) : py_scope.
#[local] Open Scope py_scope.

(** For a pure computation that can raise. *)
Definition obind {A B} (o : outcome A) (k : A -> outcome B) : outcome B :=
  match o with
  | Returns a => k a
  | Raises e => Raises e
  end.

(** ** Python numbers *)

Module Py.

Definition float : Type := spec_float.
Definition prec : Z := 53.
Definition emax : Z := 1024.

(** [float(z)] for an [int]: the nearest binary64, [OverflowError] past
    the largest one. *)
Definition float_of_int (z : Z) : outcome float :=
  match binary_normalize prec emax z 0 false with
  | S754_infinity _ => Raises OverflowError
  | f => Returns f
  end.

Definition fmul (x y : float) : float := SFmul prec emax x y.

(** [x / y] on floats. *)
Definition fdiv (x y : float) : outcome float :=
  match y with
  | S754_zero _ => Raises ZeroDivisionError
  | _ => Returns (SFdiv prec emax x y)
  end.

(** [int(f)]: truncation toward zero; [int(nan)] is a [ValueError],
    [int(inf)] an [OverflowError]. *)
Definition int_of_float (f : float) : outcome Z :=
  match f with
  | S754_nan => Raises ValueError
  | S754_infinity _ => Raises OverflowError
  | S754_zero _ => Returns 0
  | S754_finite s m e =>
      let a := match e with
               | Zneg p => Zpos m / 2 ^ Zpos p
               | _ => Zpos m * 2 ^ e
               end in
      Returns (if s then - a else a)
  end.

(** [a / b] on ints (true division), for operands below [2^53] as image
    sides are: both convert exactly and the quotient is rounded once. *)
Definition int_truediv (a b : Z) : outcome float :=
  obind (float_of_int a) (fun x => obind (float_of_int b) (fun y => fdiv x y)).

(** [c / b] with a float literal [c] given by its integer value, as in
    [2400.0 / max_side]. *)
Definition lit_div_int (c b : Z) : outcome float := int_truediv c b.

(** [int(n * s)] for an int [n] and a float [s]. *)
Definition int_mul_float (n : Z) (s : float) : outcome Z :=
  obind (float_of_int n) (fun x => int_of_float (fmul x s)).

End Py.

(** ** The OCR service, [backend/vietocr-server.py] *)

Module VietOcrServer.

(** Python [str] as a sequence of Unicode code points. *)
Definition text : Type := list N.

(** [str.isspace] on one code point (the set [str.strip()] removes). *)
Definition is_space (c : N) : bool :=
  ((9 <=? c) && (c <=? 13) || (28 <=? c) && (c <=? 32) || (c =? 133) || (c =? 160)
   || (c =? 5760) || (8192 <=? c) && (c <=? 8202) || (c =? 8232) || (c =? 8233)
   || (c =? 8239) || (c =? 8287) || (c =? 12288))%N.

Fixpoint lstrip (t : text) : text :=
  match t with
  | c :: t' => if is_space c then lstrip t' else t
  | [] => []
  end.
Definition rstrip (t : text) : text := rev (lstrip (rev t)).
Definition strip (t : text) : text := rstrip (lstrip t).

(** ["\n".join(lines) if lines else ""] *)
Fixpoint join_lines (lines : list text) : text :=
  match lines with
  | [] => []
  | [l] => l
  | l :: rest => l ++ 10%N :: join_lines rest
  end.

(** A detector item: a polygon is a list of points, a point a list of
    coordinates ([[x1,y1],[x2,y2],[x3,y3],[x4,y4]] when well formed). *)
Definition point : Type := list Z.
Definition polygon : Type := list point.

Definition loc : Type := nat.
Definition box : Type := (Z * Z * Z * Z)%type.

(** Calls that leave the process's own data: the crop of a region, its
    upscaling and the two recognition sites. *)
Inductive event : Type :=
| EvCrop (idx : nat) (b : box)
| EvUpscale (idx : nat) (new_size : Z * Z)
| EvRecognizeRegion (idx : nat) (size : Z * Z)
| EvRecognizeWhole.

Inductive filter : Type := LANCZOS | BICUBIC.

(** A PIL image: its size and its pixel buffer. *)
Record Img (Pix : Type) : Type := mkImg { width : Z; height : Z; pixels : Pix }.
Arguments mkImg {Pix}.
Arguments width {Pix}.
Arguments height {Pix}.
Arguments pixels {Pix}.

(** The libraries the service calls (PIL, cv2, PaddleOCR, VietOCR): pixel
    buffers and the functions that compute them are theirs. *)
Class Vision : Type := {
  Pix : Type;
  (** arrays handed to the detector *)
  Arr : Type;
  (** pixel content of an image resampled to a size *)
  resample : filter -> Img Pix -> Z * Z -> Pix;
  (** pixel content of a sub-rectangle *)
  crop_pixels : Img Pix -> box -> Pix;
  (** the size [Image.thumbnail] gives an image of size [(w,h)] that does
      not fit the requested box *)
  thumbnail_size : Z * Z -> Z * Z -> Z * Z;
  (** step 2 of [preprocess_image] (cvtColor, split, equalizeHist,
      adaptiveThreshold, merge, cvtColor), shape-preserving; [None] when
      one of the calls raises *)
  enhance : Img Pix -> option Pix;
  (** the [try] body of [preprocess_for_detection]; [None] when it raises *)
  threshold_bgr : Img Pix -> option Arr;
  (** [cv2.cvtColor(np.array(img), cv2.COLOR_RGB2BGR)] *)
  plain_bgr : Img Pix -> option Arr;
  (** [det.ocr(arr, det=True, rec=False, cls=True)]: a list of pages, each
      a list of items (a [None] result is the empty list and a [None] page
      the empty page: only their truth value is read); [None] when the call
      raises *)
  det_ocr : Arr -> option (list (list polygon));
  (** [rec.predict(img)]; [None] when the call raises *)
  predict : Img Pix -> option text;
  (** [base64.b64decode], [Image.open] and the conversion to RGB; [None]
      when one of them raises *)
  decode_image : string -> option (Img Pix);
  (** the text of the exception they raise on data that do not decode *)
  decode_error : string -> string
}.

Abbreviation image := (Img Pix).

Section Pipeline.

Context `{Vision}.

Record state : Type := mkState { heap : list image; trace : list event }.

Definition deref (l : loc) : M state image :=
  fun s => match heap s !! l with
           | Some im => (Returns im, s)
           | None => (Raises LibraryError, s)
           end.
Definition alloc (im : image) : M state loc :=
  fun s => (Returns (length (heap s)),
            mkState (heap s ++ [im]) (trace s)).
Definition store (l : loc) (im : image) : M state unit :=
  fun s => (Returns tt, mkState (<[l := im]> (heap s)) (trace s)).
Definition emit (e : event) : M state unit :=
  fun s => (Returns tt, mkState (heap s) (trace s ++ [e])).

Definition size (im : image) : Z * Z := (width im, height im).
Definition max_side (im : image) : Z := Z.max (width im) (height im).

(** [Image.resize(size, resample)]: a new image; sides below 1 are
    refused. *)
Definition pil_resize (f : filter) (im : image) (sz : Z * Z) : outcome image :=
  if (sz.1 <? 1) || (sz.2 <? 1) then Raises ValueError
  else Returns (mkImg sz.1 sz.2 (resample f im sz)).

(** [img.thumbnail(size, resample)]: resizes the object itself; an
    image that already fits is left alone. *)
Definition pil_thumbnail (l : loc) (bx : Z * Z) (f : filter) : M state unit :=
  let* im := deref l in
  if (width im <=? bx.1) && (height im <=? bx.2) then ret tt
  else
    let sz := thumbnail_size (size im) bx in
    store l (mkImg sz.1 sz.2 (resample f im sz)).

(** [scale = target / max_side;
     img.resize((int(img.width * scale), int(img.height * scale)))] *)
Definition upscale_to (target : Z) (im : image) : M state loc :=
  let* scale := lift (Py.lit_div_int target (max_side im)) in
  let* w := lift (Py.int_mul_float (width im) scale) in
  let* h := lift (Py.int_mul_float (height im) scale) in
  let* im' := lift (pil_resize LANCZOS im (w, h)) in
  alloc im'.

(** Step 1 of [preprocess_image]; the result is what the variable
    [img] is bound to afterwards. *)
Definition smart_scale (img : loc) (for_detection : bool) : M state loc :=
  let* im := deref img in
  let m := max_side im in
  if for_detection then
    if m >? 5000 then (pil_thumbnail img (3200, 3200) LANCZOS ;; ret img)
    else if m <? 2000 then upscale_to 2400 im
    else ret img
  else
    if m >? 4000 then (pil_thumbnail img (2400, 2400) LANCZOS ;; ret img)
    else if m <? 1200 then upscale_to 1600 im
    else ret img.

(** Step 2 of [preprocess_image], ending in [Image.fromarray]. *)
Definition contrast (img : loc) : M state loc :=
  let* im := deref img in
  match enhance im with
  | Some px => alloc (mkImg (width im) (height im) px)
  | None => raise LibraryError
  end.

(** [preprocess_image]: one [try] around both steps whose handler
    returns [img]. Step 1 raises only before it rebinds [img], so the
    handler returns the argument when step 1 raised and the scaled
    image when step 2 did. *)
Definition preprocess_image (img : loc) (for_detection : bool) : M state loc :=
  try_except
    (let* img' := smart_scale img for_detection in
     try_except (contrast img') (fun _ => ret img'))
    (fun _ => ret img).


(** [preprocess_for_detection] *)
Definition preprocess_for_detection (im : image) : outcome Arr :=
  match threshold_bgr im with
  | Some a => Returns a
  | None => match plain_bgr im with
            | Some a => Returns a
            | None => Raises LibraryError
            end
  end.

(** The item filter of step 3: a non-empty item whose first point has two
    coordinates. *)
Definition valid_item (item : polygon) : bool :=
  match item with
  | [] => false
  | p :: _ => (length p =? 2)%nat
  end.

(** Step 3. The result is [boxes_pages] without its one-page wrapper:
    [None] for Python's [None], [Some boxes] for [[boxes]]. *)
Definition detect_boxes (arr : Arr) : option (list polygon) :=
  match det_ocr arr with
  | None => None
  | Some [] => None
  | Some ([] :: _) => None
  | Some (page :: _) => Some (List.filter valid_item page)
  end.

(** [[int(float(p[k]) * s) for p in poly]] *)
Fixpoint scale_coords (k : nat) (s : Py.float) (poly : polygon) : outcome (list Z) :=
  match poly with
  | [] => Returns []
  | p :: rest =>
      match p !! k with
      | None => Raises IndexError
      | Some c =>
          obind (Py.int_mul_float c s) (fun v =>
          obind (scale_coords k s rest) (fun vs => Returns (v :: vs)))
      end
  end.

(** [min(xs)] and [max(xs)]; a [ValueError] on the empty list. *)
Definition py_min (xs : list Z) : outcome Z :=
  match xs with
  | [] => Raises ValueError
  | x :: rest => Returns (foldr Z.min x rest)
  end.
Definition py_max (xs : list Z) : outcome Z :=
  match xs with
  | [] => Raises ValueError
  | x :: rest => Returns (foldr Z.max x rest)
  end.

Definition pad : Z := 5.

(** Lines 342-346: the padded box, bounded by the recognition image. *)
Definition region_box (W H : Z) (xs ys : list Z) : outcome box :=
  obind (py_min xs) (fun xmin =>
  obind (py_min ys) (fun ymin =>
  obind (py_max xs) (fun xmax =>
  obind (py_max ys) (fun ymax =>
    Returns (Z.max 0 (xmin - pad), Z.max 0 (ymin - pad),
             Z.min W (xmax + pad), Z.min H (ymax + pad)))))).

(** Lines 354-366: the crop and its upscaling to 48 rows. *)
Definition extract_region (rec_im : image) (idx : nat) (b : box) : M state image :=
  let '(x1, y1, x2, y2) := b in
  emit (EvCrop idx b) ;;
  let crop := mkImg (x2 - x1) (y2 - y1) (crop_pixels rec_im b) in
  if height crop <? 48 then
    let* scale := lift (Py.lit_div_int 48 (height crop)) in
    let* new_width := lift (Py.int_mul_float (width crop) scale) in
    emit (EvUpscale idx (new_width, 48)) ;;
    lift (pil_resize BICUBIC crop (new_width, 48))
  else ret crop.

Definition is_empty (t : text) : bool :=
  match t with [] => true | _ => false end.

(** [if t and t.strip(): lines.append(t.strip())] *)
Definition keep_line (lines : list text) (t : text) : list text :=
  if negb (is_empty t) && negb (is_empty (strip t)) then lines ++ [strip t]
  else lines.

Definition run_predict (im : image) : M state text :=
  match predict im with
  | Some t => ret t
  | None => raise LibraryError
  end.

(** The body of the loop of step 4 for one [(idx, poly)]. *)
Definition process_region (rec_im : image) (sx sy : Py.float)
    (lines : list text) (idx : nat) (poly : polygon) : M state (list text) :=
  match poly with
  | [] => ret lines
  | _ =>
      if (4 <=? length poly)%nat then
        match obind (scale_coords 0 sx poly) (fun xs =>
              obind (scale_coords 1 sy poly) (fun ys => Returns (xs, ys))) with
        | Raises IndexError | Raises TypeError | Raises ValueError => ret lines
        | Raises e => raise e
        | Returns (xs, ys) =>
            let* b := lift (region_box (width rec_im) (height rec_im) xs ys) in
            let '(x1, y1, x2, y2) := b in
            if (x2 >? x1) && (y2 >? y1) then
              let* crop := extract_region rec_im idx b in
              emit (EvRecognizeRegion idx (size crop)) ;;
              let* t := run_predict crop in
              ret (keep_line lines t)
            else ret lines
        end
      else ret lines
  end.

(** [for idx, poly in enumerate(boxes_pages[0])] *)
Fixpoint region_loop (rec_im : image) (sx sy : Py.float) (idx : nat)
    (polys : list polygon) (lines : list text) : M state (list text) :=
  match polys with
  | [] => ret lines
  | poly :: rest =>
      let* lines' := process_region rec_im sx sy lines idx poly in
      region_loop rec_im sx sy (S idx) rest lines'
  end.

(** The [else] branch of step 4: recognition of the whole image. *)
Definition whole_image (processed_img : loc) : M state (list text) :=
  let* rec_im := deref processed_img in
  emit EvRecognizeWhole ;;
  let* t := run_predict rec_im in
  ret (keep_line [] t).

(** Step 4, lines 298-408. *)
Definition extract_lines (detection_img processed_img : loc)
    (boxes_pages : option (list polygon)) : M state (list text) :=
  match boxes_pages with
  | Some (poly :: polys) =>
      let* det_im := deref detection_img in
      let* rec_im := deref processed_img in
      let* scale_x := lift (Py.int_truediv (width rec_im) (width det_im)) in
      let* scale_y := lift (Py.int_truediv (height rec_im) (height det_im)) in
      region_loop rec_im scale_x scale_y 0 (poly :: polys) []
  | _ => whole_image processed_img
  end.

Record ocr_result : Type := mkResult {
  text_field : text;
  regions_detected : nat;
  boxes_detected : nat;
  regions_processed : nat;
  kept_lines : list text
}.

Inductive response : Type :=
| Resp200 (r : ocr_result)
| Resp400 (error : string)
| Resp500 (e : exn).

(** The request body as [ocr] reads it: no JSON or a falsy value, a
    truthy value that is not an object (a list, a string, a number,
    [true]), an object with the value of its [dataBase64] field when that
    is a string ([None] when it is missing or falsy), or an object whose
    [dataBase64] is truthy and not a string, with the text of the
    [TypeError] that [base64.b64decode] raises on it. *)
Inductive request : Type :=
| NoJson
| NotAnObject
| Json (dataBase64 : option string)
| FieldNotAString (detail : string).

(** Step 1: the two views of the decoded image. *)
Definition views (image : loc) : M state (loc * loc) :=
  let* detection_img := preprocess_image image true in
  let* processed_img := preprocess_image image false in
  ret (detection_img, processed_img).

(** Step 3: the two arrays and the detector. The [try] around the
    detector has a handler of its own; the flag tells whether that
    handler ran, that is whether [det.ocr] raised. *)
Definition detect (detection_img processed_img : loc)
  : M state (option (list polygon) * bool) :=
  let* det_im := deref detection_img in
  let* bgr_preprocessed := lift (preprocess_for_detection det_im) in
  let* rec_im := deref processed_img in
  let* bgr := lift (match plain_bgr rec_im with
                    | Some a => Returns a
                    | None => Raises LibraryError
                    end) in
  ret (detect_boxes bgr_preprocessed,
       match det_ocr bgr_preprocessed with None => true | Some _ => false end).

(** Steps 4 and 5: the lines and the body of the answer. *)
Definition recognise (detection_img processed_img : loc)
    (boxes_pages : option (list polygon)) : M state ocr_result :=
  let* lines := extract_lines detection_img processed_img boxes_pages in
  ret (mkResult (join_lines lines) (length lines)
         (match boxes_pages with Some bs => length bs | None => 0%nat end)
         (length lines) lines).

(** The handler of the outer [try], lines 447-450. It calls
    [traceback.print_exc()], and [traceback] is a local name of [ocr]:
    the handler of the detection step imports it (line 284). The name is
    bound only when that handler ran; otherwise reading it raises
    [UnboundLocalError], which leaves [ocr]. *)
Definition on_error {St} (traceback_bound : bool) (e : exn) : M St response :=
  if traceback_bound then ret (Resp500 e) else raise UnboundLocalError.

(** [ocr]: the route handler, for a process whose models are loaded, so
    that step 2 returns the two globals and does nothing else (the route
    with step 2 is [VietOcrApp.ocr]). The one [try] of the source is
    written as two, split where [traceback] gets bound: what raises up to
    step 3 finds it unbound. *)
Definition ocr (req : request) : M state response :=
  match req with
  | NoJson => ret (Resp400 "No JSON data provided")
  | NotAnObject => on_error false AttributeError          (* data.get *)
  | Json None | Json (Some EmptyString) => ret (Resp400 "dataBase64 field is required")
  | FieldNotAString detail => ret (Resp400 (String.append "Invalid image data: " detail))
  | Json (Some data_base64) =>
      match decode_image data_base64 with
      | None =>
          ret (Resp400 (String.append "Invalid image data: " (decode_error data_base64)))
      | Some im =>
          try_except
            (let* image := alloc im in
             let* (detection_img, processed_img) := views image in
             let* (boxes_pages, traceback_bound) := detect detection_img processed_img in
             try_except
               (let* r := recognise detection_img processed_img boxes_pages in
                ret (Resp200 r))
               (on_error traceback_bound))
            (on_error false)
      end
  end.

(** What the documentation of [Image.thumbnail] promises of the new size:
    no larger than the box, at least one pixel, same aspect up to the
    rounding of one side. *)
Definition thumbnail_contract : Prop :=
  forall w h bw bh, 1 <= w -> 1 <= h -> 1 <= bw -> 1 <= bh ->
    (bw < w \/ bh < h) ->
    let sz := thumbnail_size (w, h) (bw, bh) in
    1 <= sz.1 <= bw /\ 1 <= sz.2 <= bh /\
    Z.abs (sz.1 * h - sz.2 * w) <= Z.max w h.

End Pipeline.


End VietOcrServer.

(** ** The upload router, [lambdas/trigger-upload/index.py] *)

Module TriggerUpload.

#[local] Open Scope string_scope.
#[local] Open Scope list_scope.
#[local] Set Warnings "-register-all".

(** Values of the [json] module. *)
Inductive json : Type :=
| JNull
| JBool (b : bool)
| JNum (z : Z)
| JStr (s : string)
| JArr (l : list json)
| JObj (kv : list (string * json)).

(** Python truth value. *)
Definition truthy (j : json) : bool :=
  match j with
  | JNull => false
  | JBool b => b
  | JNum z => negb (z =? 0)%Z
  | JStr s => negb (String.eqb s "")
  | JArr l => match l with [] => false | _ => true end
  | JObj kv => match kv with [] => false | _ => true end
  end.

Fixpoint assoc (k : string) (kv : list (string * json)) : option json :=
  match kv with
  | [] => None
  | (k', v) :: rest => if String.eqb k k' then Some v else assoc k rest
  end.

(** [d.get(k, default)] *)
Definition dict_get (d : json) (k : string) (default : json) : outcome json :=
  match d with
  | JObj kv => Returns (match assoc k kv with Some v => v | None => default end)
  | _ => Raises AttributeError
  end.

(** [d[k]] with a string key. *)
Definition subscript (d : json) (k : string) : outcome json :=
  match d with
  | JObj kv => match assoc k kv with Some v => Returns v | None => Raises KeyError end
  | _ => Raises TypeError
  end.

(** [for x in j] *)
Definition py_iter (j : json) : outcome (list json) :=
  match j with
  | JArr l => Returns l
  | JObj kv => Returns (map (fun p => JStr p.1) kv)
  | JStr s => Returns (map (fun c => JStr (String c EmptyString)) (list_ascii_of_string s))
  | _ => Raises TypeError
  end.

(** [str.lower] on the ASCII letters. No other character lowers to a
    letter of ['legal registration'], so equality with that literal is
    decided as in Python. *)
Definition lower_ascii (c : ascii) : ascii :=
  let n := nat_of_ascii c in
  if ((65 <=? n) && (n <=? 90))%nat then ascii_of_nat (n + 32) else c.
Fixpoint lower (s : string) : string :=
  match s with
  | EmptyString => EmptyString
  | String c s' => String (lower_ascii c) (lower s')
  end.

(** [key.replace('+', ' ')] *)
Fixpoint replace_plus (s : string) : string :=
  match s with
  | EmptyString => EmptyString
  | String c s' => String (if Ascii.eqb c "+" then " "%char else c) (replace_plus s')
  end.

Inductive invocation_type : Type := RequestResponse | Event.

(** Calls to the remote collaborators, in the order they are made. *)
Inductive event : Type :=
| EvHeadObject (bucket key : string)
| EvInvoke (function_name : string) (ty : invocation_type) (payload : json)
| EvExistingBedrock (bucket key : string).

Inductive response_body : Type :=
| ProcessingCompleted              (* json.dumps('Processing completed') *)
| ErrorOf (e : exn).               (* json.dumps(f'Error: {str(e)}') *)

Record response : Type := mkResponse { statusCode : Z; body : response_body }.

(** The services behind boto3 and the runtime of the function. *)
Class Services : Type := {
  (** the remote state the calls read and change *)
  World : Type;
  (** [s3.head_object(Bucket=bucket, Key=key)] *)
  head_object : string -> string -> World -> outcome json * World;
  (** [lambda_client.invoke(FunctionName, InvocationType, Payload)]
      followed, for a [RequestResponse] call, by
      [json.loads(response['Payload'].read())]; the payload sent is the
      value given to [json.dumps] *)
  invoke : string -> invocation_type -> json -> World -> outcome json * World;
  (** [os.environ] *)
  environ : string -> option string;
  (** [json.loads] on a string; [None] for a [JSONDecodeError] *)
  json_loads : string -> option json;
  (** [urllib.parse.unquote] *)
  unquote : string -> string
}.

Section Router.

Context `{Services}.

Record state : Type := mkState { world : World; trace : list event }.

Definition emit (e : event) : M state unit :=
  fun s => (Returns tt, mkState (world s) (trace s ++ [e])).

Definition call {A} (f : World -> outcome A * World) : M state A :=
  fun s => let '(r, w) := f (world s) in (r, mkState w (trace s)).

Definition getenv (name : string) : M state string :=
  match environ name with
  | Some v => ret v
  | None => raise KeyError
  end.

Definition loads (s : string) : outcome json :=
  match json_loads s with
  | Some j => Returns j
  | None => Raises JSONDecodeError
  end.

(** [lambda_client.invoke(FunctionName=os.environ[name], ...)] *)
Definition invoke_fn (name : string) (ty : invocation_type) (payload : json)
  : M state json :=
  let* arn := getenv name in
  emit (EvInvoke arn ty payload) ;;
  call (invoke arn ty payload).

(** [json.loads(p.get('body', '{}')) if isinstance(p.get('body'), str) else p] *)
Definition unwrap_body (p : json) : outcome json :=
  obind (dict_get p "body" JNull) (fun b =>
    match b with
    | JStr s => loads s
    | _ => Returns p
    end).

Definition doc_ref (bucket key : string) : json :=
  JObj [("bucket", JStr bucket); ("key", JStr key)].

Definition save_payload (bucket key : string) (result : json) : json :=
  JObj [("bucket", JStr bucket); ("key", JStr key); ("result", result)].

(** The body of the [try] of [process_legal_document]; its handler logs
    and re-raises. *)
Definition process_legal_document (bucket key : string) : M state bool :=
  emit (EvHeadObject bucket key) ;;
  let* head := call (head_object bucket key) in
  let* metadata := lift (dict_get head "Metadata" (JObj [])) in
  let* tag := lift (dict_get metadata "document-type" (JStr "")) in
  let* doc_type := lift (match tag with
                         | JStr t => Returns (lower t)
                         | _ => Raises AttributeError
                         end) in
  if negb (String.eqb doc_type "legal registration") then ret false
  else
    let* qr_payload := invoke_fn "QR_DETECTOR_FN_ARN" RequestResponse (doc_ref bucket key) in
    let* qr_result := lift (unwrap_body qr_payload) in
    let* has_qr := lift (dict_get qr_result "hasQR" JNull) in
    let* decoded_text := lift (dict_get qr_result "decodedText" JNull) in
    if truthy has_qr && truthy decoded_text then
      let* decode_payload :=
        invoke_fn "QR_DECODER_FN_ARN" RequestResponse (JObj [("decodedText", decoded_text)]) in
      let* decoded_result := lift (unwrap_body decode_payload) in
      invoke_fn "RESULT_SAVER_FN_ARN" Event (save_payload bucket key decoded_result) ;;
      ret true
    else
      let* ocr_payload := invoke_fn "VIETOCR_FN_ARN" RequestResponse (doc_ref bucket key) in
      let* ocr_result := lift (unwrap_body ocr_payload) in
      let* txt := lift (dict_get ocr_result "text" JNull) in
      if negb (truthy txt) then raise (PlainException "VietOCR returned no text")
      else
        let* qa_payload :=
          invoke_fn "BEDROCK_QA_FN_ARN" RequestResponse (JObj [("text", txt)]) in
        let* qa_result := lift (unwrap_body qa_payload) in
        invoke_fn "RESULT_SAVER_FN_ARN" Event (save_payload bucket key qa_result) ;;
        ret true.

(** [process_with_existing_bedrock] *)
Definition process_with_existing_bedrock (bucket key : string) : M state bool :=
  emit (EvExistingBedrock bucket key) ;;
  ret true.

(** The body of [for s3_record in s3_records]. *)
Definition handle_s3_record (s3_record : json) : M state unit :=
  let* s3 := lift (subscript s3_record "s3") in
  let* b := lift (subscript s3 "bucket") in
  let* bucket := lift (subscript b "name") in
  let* o := lift (subscript s3 "object") in
  let* k := lift (subscript o "key") in
  let* key := lift (match k with
                    | JStr key => Returns (unquote (replace_plus key))
                    | _ => Raises AttributeError
                    end) in
  (* [s3.head_object(Bucket=bucket, ...)] checks the types of its
     parameters before it sends anything: a bucket that is not a string
     fails there, and [process_legal_document] re-raises *)
  let* bucket := lift (match bucket with
                       | JStr bucket => Returns bucket
                       | _ => Raises ParamValidationError
                       end) in
  let* processed_as_legal := process_legal_document bucket key in
  if processed_as_legal then ret tt
  else (process_with_existing_bedrock bucket key ;; ret tt).

Fixpoint for_each {A} (f : A -> M state unit) (l : list A) : M state unit :=
  match l with
  | [] => ret tt
  | x :: rest => f x ;; for_each f rest
  end.

(** ['body' in record]: a key of an object, a substring of a string, an
    element of a list; a [TypeError] on the values that are not
    containers. *)
Definition has_body (record : json) : outcome bool :=
  match record with
  | JObj kv => Returns (match assoc "body" kv with Some _ => true | None => false end)
  | JStr s => Returns (match index 0 "body" s with Some _ => true | None => false end)
  | JArr l => Returns (existsb (fun j => match j with
                                          | JStr t => String.eqb t "body"
                                          | _ => false
                                          end) l)
  | _ => Raises TypeError
  end.

(** The body of [for record in event.get('Records', [])]. First the S3
    event of the record: its parsed [body] when it has one
    ([json.loads(record['body'])], where the subscript is a [TypeError] on
    a string or a list and [json.loads] one on a value that is not a
    string), or the record itself. *)
Definition s3_event_of (record : json) : outcome json :=
  obind (has_body record) (fun found =>
    if found then
      match record with
      | JObj kv =>
          match assoc "body" kv with
          | Some (JStr s) => loads s
          | _ => Raises TypeError
          end
      | _ => Raises TypeError
      end
    else Returns record).

Definition handle_record (record : json) : M state unit :=
  let* s3_event := lift (s3_event_of record) in
  let* s3_records := lift (dict_get s3_event "Records" (JArr [])) in
  if negb (truthy s3_records) then ret tt
  else
    let* l := lift (py_iter s3_records) in
    for_each handle_s3_record l.

(** [lambda_handler] *)
Definition lambda_handler (event : json) : M state response :=
  try_except
    (let* records := lift (dict_get event "Records" (JArr [])) in
     let* l := lift (py_iter records) in
     for_each handle_record l ;;
     ret (mkResponse 200 ProcessingCompleted))
    (fun e => ret (mkResponse 500 (ErrorOf e))).

End Router.


End TriggerUpload.

(** * The rest of the service and the two document functions

    - [ServerModels]: the lazily loaded models of
      [backend/vietocr-server.py] ([init_detector], [init_predictor],
      [health]);
    - [VietOcrApp]: the route [ocr] of that file with the loading of the
      models between preprocessing and detection, over the steps of
      [VietOcrServer];
    - [DocumentLambdas]: [lambdas/qr-detector/app.py] and
      [lambdas/vietocr-processor/index.py], the two functions the router
      invokes on a stored document ([_download_s3_object],
      [_images_from_document], [_try_decode_qr], [_get_model] and the two
      [handler]s). *)

(** [try: m finally: f]: [f] runs on every path out of [m], a [return]
    included; when [f] raises, its exception is the one that leaves. *)
Definition try_finally {St A} (m : M St A) (f : M St unit) : M St A :=
  fun s => match m s with
           | (r, s') => match f s' with
                        | (Returns _, s'') => (r, s'')
                        | (Raises e, s'') => (Raises e, s'')
                        end
           end.

(** [str] values that are used as text: their code points. *)
Definition code_points (s : string) : VietOcrServer.text :=
  map (fun c => N.of_nat (nat_of_ascii c)) (list_ascii_of_string s).
Definition of_code_points (t : VietOcrServer.text) : string :=
  string_of_list_ascii (map (fun n => ascii_of_nat (N.to_nat n)) t).

(** [s.strip()] *)
Definition str_strip (s : string) : string :=
  of_code_points (VietOcrServer.strip (code_points s)).

(** [s.endswith(suffix)] *)
Definition endswith (s suffix : string) : bool :=
  let n := String.length s in
  let m := String.length suffix in
  if (m <=? n)%nat then String.eqb (substring (n - m) m s) suffix else false.

Module ServerModels.

#[local] Open Scope string_scope.
#[local] Open Scope list_scope.

(** The entries [init_predictor] writes into the loaded configuration:
    [cfg['device']] always, [cfg['weights']] when a path is configured. *)
Record settings : Type := mkSettings { device : string; weights : option string }.

(** The constructions of models, in the order they are attempted. *)
Inductive event : Type :=
| EvPaddleOCR
| EvLoadConfig (name : string)
| EvPredictor (cfg : settings).

(** The body of the answer of [/health]. *)
Record health_body : Type := mkHealth {
  status : string;
  service : string;
  detector_initialized : bool;
  predictor_initialized : bool
}.

(** PaddleOCR, VietOCR and the environment of the process. *)
Class ModelLib : Type := {
  (** what loading a model reads and changes: files, the network, memory *)
  World : Type;
  Det : Type;
  Rec : Type;
  Config : Type;
  (** [PaddleOCR(lang='vi', use_angle_cls=True, show_log=False,
      det_limit_side_len=2048, det_db_thresh=0.20, det_db_box_thresh=0.30,
      det_db_unclip_ratio=1.8)] *)
  PaddleOCR : World -> outcome Det * World;
  (** [Cfg.load_config_from_name(name)] *)
  load_config_from_name : string -> World -> outcome Config * World;
  (** [Predictor(cfg)] for the loaded configuration with the entries
      written into it *)
  Predictor : Config -> settings -> World -> outcome Rec * World;
  (** [os.environ] *)
  environ : string -> option string
}.

Section Models.

Context `{ModelLib}.

(** The globals [detector] and [predictor], and the world they are
    loaded from. *)
Record state : Type := mkState {
  world : World;
  detector : option Det;
  predictor : option Rec;
  trace : list event
}.

Definition emit (e : event) : M state unit :=
  fun s => (Returns tt, mkState (world s) (detector s) (predictor s) (trace s ++ [e])).

Definition call {A} (f : World -> outcome A * World) : M state A :=
  fun s => let '(r, w) := f (world s) in
           (r, mkState w (detector s) (predictor s) (trace s)).

Definition set_detector (d : Det) : M state unit :=
  fun s => (Returns tt, mkState (world s) (Some d) (predictor s) (trace s)).

Definition set_predictor (p : Rec) : M state unit :=
  fun s => (Returns tt, mkState (world s) (detector s) (Some p) (trace s)).

(** [init_detector] *)
Definition init_detector : M state Det :=
  fun s =>
    match detector s with
    | Some d => (Returns d, s)
    | None =>
        (emit EvPaddleOCR ;;
         let* d := call PaddleOCR in
         set_detector d ;;
         ret d) s
    end.

(** [os.environ.get(name, default)] *)
Definition environ_get (name default : string) : string :=
  match environ name with
  | Some v => v
  | None => default
  end.

(** The entries [init_predictor] computes from the environment. *)
Definition predictor_settings : settings :=
  let use_gpu := String.eqb (TriggerUpload.lower (environ_get "USE_GPU" "false")) "true" in
  let weights_path := str_strip (environ_get "VIETOCR_WEIGHTS" "") in
  mkSettings (if use_gpu then "cuda" else "cpu")
             (if String.eqb weights_path "" then None else Some weights_path).

(** [init_predictor] *)
Definition init_predictor : M state Rec :=
  fun s =>
    match predictor s with
    | Some p => (Returns p, s)
    | None =>
        (emit (EvLoadConfig "vgg_transformer") ;;
         let* cfg := call (load_config_from_name "vgg_transformer") in
         emit (EvPredictor predictor_settings) ;;
         let* p := call (Predictor cfg predictor_settings) in
         set_predictor p ;;
         ret p) s
    end.

(** [health] *)
Definition health : M state health_body :=
  fun s => (Returns (mkHealth "ok" "vietocr"
                       (match detector s with Some _ => true | None => false end)
                       (match predictor s with Some _ => true | None => false end)), s).

End Models.

End ServerModels.

Module VietOcrApp.

Import VietOcrServer.

Section App.

Context `{Vision} `{ServerModels.ModelLib}.

(** The process: its images and recognition calls, and its models. *)
Record state : Type := mkState {
  images : VietOcrServer.state;
  models : ServerModels.state
}.

Definition on_images {A} (m : M VietOcrServer.state A) : M state A :=
  fun s => let '(r, i) := m (images s) in (r, mkState i (models s)).

Definition on_models {A} (m : M ServerModels.state A) : M state A :=
  fun s => let '(r, g) := m (models s) in (r, mkState (images s) g).

(** [ocr]: the route, with step 2 (the models) where the source has it,
    between the views and the detector. *)
Definition ocr (req : request) : M state response :=
  match req with
  | NoJson => ret (Resp400 "No JSON data provided")
  | NotAnObject => on_error false AttributeError          (* data.get *)
  | Json None | Json (Some EmptyString) => ret (Resp400 "dataBase64 field is required")
  | FieldNotAString detail => ret (Resp400 (String.append "Invalid image data: " detail))
  | Json (Some data_base64) =>
      match decode_image data_base64 with
      | None =>
          ret (Resp400 (String.append "Invalid image data: " (decode_error data_base64)))
      | Some im =>
          try_except
            (let* image := on_images (alloc im) in
             let* (detection_img, processed_img) := on_images (views image) in
             let* det := on_models ServerModels.init_detector in
             let* rec := on_models ServerModels.init_predictor in
             let* (boxes_pages, traceback_bound) :=
               on_images (detect detection_img processed_img) in
             try_except
               (let* r := on_images (recognise detection_img processed_img boxes_pages) in
                ret (Resp200 r))
               (on_error traceback_bound))
            (on_error false)
      end
  end.

End App.

End VietOcrApp.

Module DocumentLambdas.

Import TriggerUpload.

#[local] Open Scope string_scope.
#[local] Open Scope list_scope.

(** What a function returns to its invoker. *)
Record response : Type := mkResponse { statusCode : Z; body : string }.

(** The entries [_get_model] writes into the loaded configuration. *)
Record settings : Type := mkSettings { device : string; beamsearch : bool }.

(** S3, the file system of the function, pdf2image, PIL, OpenCV and
    VietOCR. *)
Class Runtime : Type := {
  World : Type;
  (** PIL images *)
  Page : Type;
  Model : Type;
  Config : Type;
  (** [tempfile.mkstemp()] followed by [os.close(fd)]: the path of the
      new file *)
  mkstemp : World -> outcome string * World;
  (** [s3.download_file(bucket, key, path)] *)
  download_file : json -> json -> string -> World -> outcome unit * World;
  (** [os.unlink(path)] *)
  unlink : string -> World -> outcome unit * World;
  (** [Image.open(path)] *)
  image_open : string -> World -> outcome Page * World;
  (** [convert_from_path(path, first_page, last_page, fmt='png')] *)
  convert_from_path : string -> Z -> Z -> World -> outcome (list Page) * World;
  (** [np.array], [cv2.cvtColor] when the array has three channels,
      [cv2.QRCodeDetector().detectAndDecodeMulti]: [retval],
      [decoded_info] and [points] ([None], or for every code its corners) *)
  detect_and_decode_multi :
    Page -> outcome (bool * list string * option (list (list (Py.float * Py.float))));
  (** [Cfg.load_config_from_name(name)] *)
  load_config_from_name : string -> World -> outcome Config * World;
  (** [Predictor(config)] for the loaded configuration with the entries
      written into it *)
  Predictor : Config -> settings -> World -> outcome Model * World;
  (** [model.predict(img)] *)
  predict : Model -> Page -> outcome string;
  (** [json.dumps] *)
  json_dumps : json -> string
}.

Section Functions.

Context `{Runtime}.

(** The calls that leave the function, in the order they are made. *)
Inductive event : Type :=
| EvMkstemp (path : string)
| EvDownload (bucket key : json) (path : string)
| EvImageOpen (path : string)
| EvConvert (path : string) (first_page last_page : Z)
| EvDecode (img : Page)
| EvLoadModel (cfg : settings)
| EvPredict (img : Page)
| EvUnlink (path : string).

(** The process of a function: the world, the calls made and, in the text
    extractor, the global [_model]. *)
Record state : Type := mkState {
  world : World;
  trace : list event;
  _model : option Model
}.

Definition emit (e : event) : M state unit :=
  fun s => (Returns tt, mkState (world s) (trace s ++ [e]) (_model s)).

Definition call {A} (f : World -> outcome A * World) : M state A :=
  fun s => let '(r, w) := f (world s) in (r, mkState w (trace s) (_model s)).

(** [_download_s3_object], the same in both files. *)
Definition _download_s3_object (bucket key : json) : M state string :=
  let* path := call mkstemp in
  emit (EvMkstemp path) ;;
  emit (EvDownload bucket key path) ;;
  call (download_file bucket key path) ;;
  ret path.

(** [_images_from_document], the same in both files. *)
Definition _images_from_document (path : string) : M state (list Page) :=
  if endswith (lower path) ".pdf" then
    emit (EvConvert path 1 2) ;;
    call (convert_from_path path 1 2)
  else
    emit (EvImageOpen path) ;;
    let* img := call (image_open path) in
    ret [img].

(** [{'x': int(p[0]), 'y': int(p[1])}] *)
Definition corner (p : Py.float * Py.float) : outcome json :=
  obind (Py.int_of_float p.1) (fun x =>
  obind (Py.int_of_float p.2) (fun y =>
    Returns (JObj [("x", JNum x); ("y", JNum y)]))).

Fixpoint corners (ps : list (Py.float * Py.float)) : outcome (list json) :=
  match ps with
  | [] => Returns []
  | p :: rest =>
      obind (corner p) (fun c =>
      obind (corners rest) (fun cs => Returns (c :: cs)))
  end.

(** Lines 43-47: the [box] of the first code, [None] (here [JNull])
    when no corners came with it. *)
Definition box_of (points : option (list (list (Py.float * Py.float)))) : outcome json :=
  match points with
  | Some (first :: _) =>
      match first with
      | [] => Returns JNull
      | _ => obind (corners first) (fun pts => Returns (JObj [("points", JArr pts)]))
      end
  | _ => Returns JNull
  end.

(** [_try_decode_qr]: [None], or the [text] and the [box] of the
    first code of the page. *)
Definition _try_decode_qr (pil_img : Page) : M state (option (string * json)) :=
  emit (EvDecode pil_img) ;;
  let* found := lift (detect_and_decode_multi pil_img) in
  let '(retval, decoded_info, points) := found in
  match decoded_info with
  | text :: _ =>
      if retval then
        let* box := lift (box_of points) in
        ret (Some (text, box))
      else ret None
  | [] => ret None
  end.

(** [event.get(k) or event.get('s3', {}).get(k)] *)
Definition event_field (event : json) (k : string) : outcome json :=
  obind (dict_get event k JNull) (fun v =>
    if truthy v then Returns v
    else obind (dict_get event "s3" (JObj [])) (fun s3 => dict_get s3 k JNull)).

Definition missing_bucket_key : response :=
  mkResponse 400 (json_dumps (JObj [("error", JStr "Missing bucket/key")])).

(** [try: os.unlink(local_path) except Exception: pass] *)
Definition remove_quietly (local_path : string) : M state unit :=
  try_except (emit (EvUnlink local_path) ;; call (unlink local_path)) (fun _ => ret tt).

(** The loop of the code detector: the first page with a decoded text
    answers. *)
Fixpoint first_code (images : list Page) : M state response :=
  match images with
  | [] => ret (mkResponse 200 (json_dumps (JObj [("hasQR", JBool false)])))
  | img :: rest =>
      let* res := _try_decode_qr img in
      match res with
      | Some (text, box) =>
          if negb (String.eqb text "") then
            ret (mkResponse 200 (json_dumps (JObj [("hasQR", JBool true);
                                                  ("decodedText", JStr text);
                                                  ("box", box)])))
          else first_code rest
      | None => first_code rest
      end
  end.

(** [handler] of [qr-detector/app.py] *)
Definition qr_handler (event : json) : M state response :=
  let* bucket := lift (event_field event "bucket") in
  let* key := lift (event_field event "key") in
  if negb (truthy bucket) || negb (truthy key) then ret missing_bucket_key
  else
    let* local_path := _download_s3_object bucket key in
    try_finally
      (let* images := _images_from_document local_path in
       first_code images)
      (remove_quietly local_path).

(** [_get_model] *)
Definition get_model_settings : settings := mkSettings "cpu" false.

Definition _get_model : M state Model :=
  fun s =>
    match _model s with
    | Some m => (Returns m, s)
    | None =>
        (let* config := call (load_config_from_name "vgg_transformer") in
         emit (EvLoadModel get_model_settings) ;;
         let* m := call (Predictor config get_model_settings) in
         (fun s' => (Returns m, mkState (world s') (trace s') (Some m)))) s
    end.

(** The loop of the text extractor. *)
Fixpoint read_pages (model : Model) (images : list Page) (texts : list string)
  : M state (list string) :=
  match images with
  | [] => ret texts
  | img :: rest =>
      emit (EvPredict img) ;;
      let* text := lift (predict model img) in
      read_pages model rest (if String.eqb text "" then texts else texts ++ [text])
  end.

(** ['\n'.join(texts)] *)
Definition newline : string := String (ascii_of_nat 10) EmptyString.
Definition join_texts (texts : list string) : string := String.concat newline texts.

(** [handler] of [vietocr-processor/index.py] *)
Definition ocr_handler (event : json) : M state response :=
  let* bucket := lift (event_field event "bucket") in
  let* key := lift (event_field event "key") in
  if negb (truthy bucket) || negb (truthy key) then ret missing_bucket_key
  else
    let* local_path := _download_s3_object bucket key in
    try_finally
      (let* images := _images_from_document local_path in
       let* model := _get_model in
       let* texts := read_pages model images [] in
       ret (mkResponse 200 (json_dumps (JObj [("text", JStr (join_texts texts))]))))
      (remove_quietly local_path).

(** What the invoker reads: the parsed payload of the response. *)
Definition payload_of (r : response) : json :=
  JObj [("statusCode", JNum (statusCode r)); ("body", JStr (body r))].

End Functions.

End DocumentLambdas.

(** ** Vocabulary of the statements *)

Module Spec.

Import VietOcrServer.

(** A box with positive width and height. *)
Definition nondegenerate (b : box) : Prop :=
  let '(x1, y1, x2, y2) := b in x1 < x2 /\ y1 < y2.

(** A box inside an image of size [W x H]. *)
Definition inside (W H : Z) (b : box) : Prop :=
  let '(x1, y1, x2, y2) := b in 0 <= x1 /\ x2 <= W /\ 0 <= y1 /\ y2 <= H.

(** Number of whole-image recognitions in a trace. *)
Fixpoint whole_image_runs (evs : list event) : nat :=
  match evs with
  | [] => 0%nat
  | EvRecognizeWhole :: rest => S (whole_image_runs rest)
  | _ :: rest => whole_image_runs rest
  end.

(** The events of the region with index [idx]: nothing, or its crop
    followed by its upscaling and recognition. *)
Definition region_events (idx : nat) (b : box) (evs : list event) : Prop :=
  evs = [] \/
  exists rest, evs = EvCrop idx b :: rest /\ nondegenerate b /\
    Forall (fun e => exists sz, e = EvUpscale idx sz \/ e = EvRecognizeRegion idx sz) rest.

(** What one polygon of the detector turns into: the region with index
    [idx] was cropped at the box the mapper computes for it. *)
Definition mapped_from (rec_im_size : Z * Z) (sx sy : Py.float) (poly : polygon)
    (b : box) : Prop :=
  exists xs ys, (4 <= length poly)%nat /\
    scale_coords 0 sx poly = Returns xs /\
    scale_coords 1 sy poly = Returns ys /\
    region_box rec_im_size.1 rec_im_size.2 xs ys = Returns b.

(** The events of the loop over [polys], numbered from [idx]: every crop
    is the non-degenerate box mapped from its polygon, upscaling and
    recognition only follow a crop of the same region, and the whole
    image is not recognised. *)
Definition loop_events (rec_im_size : Z * Z) (sx sy : Py.float) (idx : nat)
    (polys : list polygon) (evs : list event) : Prop :=
  (forall i b, In (EvCrop i b) evs ->
     nondegenerate b /\
     exists poly, (idx <= i)%nat /\ polys !! (i - idx)%nat = Some poly /\
       mapped_from rec_im_size sx sy poly b) /\
  (forall i sz, In (EvUpscale i sz) evs \/ In (EvRecognizeRegion i sz) evs ->
     exists b, In (EvCrop i b) evs) /\
  whole_image_runs evs = 0%nat.

(** A computation that makes none of the logged calls. *)
Definition silent `{Vision} {A} (m : M state A) : Prop :=
  forall s, trace (m s).2 = trace s.

(** A recognised line as the aggregator keeps it: trimmed and non-empty. *)
Definition trimmed_line (t : text) : Prop := t <> [] /\ strip t = t.

(** The side lengths [1 .. n]. *)
Definition sides (n : nat) : list Z := map (fun k => Z.of_nat k + 1) (seq 0 n).

(** What the proofs use of the float [target / m] of a scaling step, for
    one side length [m]: it is a positive normal binary64 [ms * 2^es] that
    is at least 1, [m] times it has integer part [lo] at least, the exact
    product stays within a relative [2^-52] of [target + 1], and ints
    below [2^b] times it stay below [2^53]. *)
Definition scale_ok (target lo b m : Z) : bool :=
  match Py.lit_div_int target m with
  | Returns (S754_finite false ms es) =>
      (Zpos (digits2_pos ms) =? 53) && (-1000 <=? es) && (b + es <? 0)
      && (2 ^ (- es) <=? Zpos ms)
      && (lo <=? m * Zpos ms / 2 ^ (- es))
      && (m * Zpos ms * (2 ^ 52 + 1) <? (target + 1) * 2 ^ (- es) * 2 ^ 52)
  | _ => false
  end.

(** [round(a / b)] on positive integers, as the specification words the
    width of an upscaled crop. *)
Definition round_ratio (a b : Z) : Z := (2 * a + b) / (2 * b).

(** *** The lines of an answer *)

(** What the aggregator keeps of the texts the recogniser returned: each
    one trimmed, those that are empty after trimming left out. *)
Definition nonempty_trimmed (texts : list text) : list text :=
  List.filter (fun t => negb (is_empty t)) (map strip texts).

(** The texts of the regions that reached the recogniser, in order. *)
Fixpoint returned (readings : list (option text)) : list text :=
  match readings with
  | [] => []
  | Some t :: rest => t :: returned rest
  | None :: rest => returned rest
  end.

(** The exceptions that the handler around the coordinates catches. *)
Definition caught (e : exn) : Prop :=
  e = IndexError \/ e = TypeError \/ e = ValueError.

(** [len(boxes_pages[0]) if boxes_pages and boxes_pages[0] else 0] *)
Definition box_count (boxes : option (list polygon)) : nat :=
  match boxes with Some bs => length bs | None => 0%nat end.

Section Readings.

Context `{Vision}.

(** What the loop of step 4 reads from one polygon. [Some t]: the box
    mapped from the polygon is non-degenerate and the recogniser returns
    [t] on its crop. [None]: the polygon does not reach the recogniser,
    because it has fewer than four points, a coordinate of it cannot be
    read, or its box is degenerate. *)
Definition region_reading (rec_im : image) (sx sy : Py.float) (poly : polygon)
    (reading : option text) : Prop :=
  match reading with
  | Some t =>
      exists b crop,
        mapped_from (size rec_im) sx sy poly b /\ nondegenerate b /\
        (forall idx s, (extract_region rec_im idx b s).1 = Returns crop) /\
        predict crop = Some t
  | None =>
      (length poly < 4)%nat \/
      (exists e, caught e /\
         (scale_coords 0 sx poly = Raises e \/
          exists xs, scale_coords 0 sx poly = Returns xs /\
                     scale_coords 1 sy poly = Raises e)) \/
      (exists b, mapped_from (size rec_im) sx sy poly b /\ ~ nondegenerate b)
  end.

(** The texts the recogniser returns in step 4, given the two views and
    the boxes of step 3: one per region that reaches it when there is a
    box, the reading of the whole recognition view when there is none. *)
Definition recogniser_returned (det_im rec_im : image) (boxes : option (list polygon))
    (texts : list text) : Prop :=
  match boxes with
  | Some (poly :: polys) =>
      exists sx sy readings,
        Py.int_truediv (width rec_im) (width det_im) = Returns sx /\
        Py.int_truediv (height rec_im) (height det_im) = Returns sy /\
        Forall2 (region_reading rec_im sx sy) (poly :: polys) readings /\
        texts = returned readings
  | _ => exists t, predict rec_im = Some t /\ texts = [t]
  end.

(** Steps 1 to 3 of a request: its image decodes, [det_im] and [rec_im]
    are the two views of it and [boxes] is what the detector gave. *)
Definition detected (req : request) (s : state) (det_im rec_im : image)
    (boxes : option (list polygon)) : Prop :=
  exists data_base64 im detection_img processed_img s1 traceback_bound,
    req = Json (Some data_base64) /\ data_base64 <> EmptyString /\
    decode_image data_base64 = Some im /\
    views (length (heap s)) (mkState (heap s ++ [im]) (trace s))
      = (Returns (detection_img, processed_img), s1) /\
    heap s1 !! detection_img = Some det_im /\
    heap s1 !! processed_img = Some rec_im /\
    detect detection_img processed_img s1 = (Returns (boxes, traceback_bound), s1).

(** The body of the answer made of the kept lines [lines] when [boxes]
    were detected. *)
Definition answer_of_lines (boxes : option (list polygon)) (lines : list text)
  : ocr_result :=
  mkResult (join_lines lines) (length lines) (box_count boxes) (length lines) lines.

End Readings.

(** *** The router *)

Section RouterVocabulary.

Import TriggerUpload.
Context `{Services}.

#[local] Open Scope string_scope.

(** The stored document is tagged as a legal registration: [head_object]
    answers, and the lowered [document-type] is the literal. *)
Definition legal_registration (bucket key : string) (w w' : World) : Prop :=
  exists head metadata tag,
    head_object bucket key w = (Returns head, w') /\
    dict_get head "Metadata" (JObj []) = Returns metadata /\
    dict_get metadata "document-type" (JStr "") = Returns (JStr tag) /\
    lower tag = "legal registration".

(** The stored document carries any other tag, or none. *)
Definition other_document (bucket key : string) (w w' : World) : Prop :=
  exists head metadata tag,
    head_object bucket key w = (Returns head, w') /\
    dict_get head "Metadata" (JObj []) = Returns metadata /\
    dict_get metadata "document-type" (JStr "") = Returns (JStr tag) /\
    lower tag <> "legal registration".

(** The collaborator configured under the variable [name] answers
    [result] (after the unwrapping of [body]) to [payload]. *)
Definition answers (name : string) (payload : json) (w : World)
    (arn : string) (result : json) (w' : World) : Prop :=
  environ name = Some arn /\
  exists p, invoke arn RequestResponse payload w = (Returns p, w') /\
    unwrap_body p = Returns result.

(** The S3 record names the object [key0] of [bucket]. *)
Definition names_object (s3_record : json) (bucket key0 : string) : Prop :=
  exists s3 b o,
    subscript s3_record "s3" = Returns s3 /\
    subscript s3 "bucket" = Returns b /\
    subscript b "name" = Returns (JStr bucket) /\
    subscript s3 "object" = Returns o /\
    subscript o "key" = Returns (JStr key0).

End RouterVocabulary.

End Spec.

(** ** Concrete instances *)

Module Fixtures.

Import VietOcrServer.

(** A thumbnail size within the contract: the largest size of the same
    aspect that fits the box, rounded down, one pixel at least. *)
Definition fit_box (sz bx : Z * Z) : Z * Z :=
  let '(w, h) := sz in
  let '(bw, bh) := bx in
  if bh * w <=? bw * h then (Z.max 1 (bh * w / h), bh)
  else (bw, Z.max 1 (bw * h / w)).

(** ASCII text as code points. *)
Definition txt (s : string) : text :=
  map (fun c => N.of_nat (nat_of_ascii c)) (list_ascii_of_string s).

(** A stand-in for the libraries: pixel buffers carry no data, every
    request decodes to [decoded], the detector reports the one page [page],
    the recogniser answers [whole] on an image as wide as [decoded] and
    [part] on any other. *)
Definition vision (decoded : Img unit) (page : list polygon) (whole part : text)
  : Vision := {|
  Pix := unit;
  Arr := unit;
  resample := fun _ _ _ => tt;
  crop_pixels := fun _ _ => tt;
  thumbnail_size := fit_box;
  enhance := fun _ => Some tt;
  threshold_bgr := fun _ => Some tt;
  plain_bgr := fun _ => Some tt;
  det_ocr := fun _ => Some [page];
  predict := fun im => Some (if width im =? width decoded then whole else part);
  decode_image := fun _ => Some decoded;
  decode_error := fun _ => "cannot identify image file"%string
|}.

(** The same, with a contrast step that raises. *)
Definition vision_failing_contrast (decoded : Img unit) : Vision := {|
  Pix := unit;
  Arr := unit;
  resample := fun _ _ _ => tt;
  crop_pixels := fun _ _ => tt;
  thumbnail_size := fit_box;
  enhance := fun _ => None;
  threshold_bgr := fun _ => Some tt;
  plain_bgr := fun _ => Some tt;
  det_ocr := fun _ => Some [[]];
  predict := fun _ => Some [];
  decode_image := fun _ => Some decoded;
  decode_error := fun _ => "cannot identify image file"%string
|}.

Definition blank (w h : Z) : Img unit := mkImg w h tt.

(** The axis-aligned polygon of the box [(x1,y1)-(x2,y2)]. *)
Definition rect (x1 y1 x2 y2 : Z) : polygon :=
  [[x1; y1]; [x2; y1]; [x2; y2]; [x1; y2]].

(** [1.0] and [2.0] *)
Definition one : Py.float := S754_finite false 4503599627370496 (-52).
Definition two : Py.float := S754_finite false 4503599627370496 (-51).

(** A 2000 x 2000 page with one detected box whose crop reads as blanks,
    while the page as a whole would read as ["X"]. *)
Definition blank_region : Vision :=
  vision (blank 2000 2000) [rect 10 10 50 50] (txt "X") (txt "  ").

(** A 2000 x 2000 page on which nothing is detected. *)
Definition no_boxes : Vision :=
  vision (blank 2000 2000) [] (txt " Whole page ") (txt "part").

(** A 2000 x 2000 page with four detected boxes, 40, 60, 80 and 100
    columns wide, whose crops read as ["A"], the empty text, [" B "] and
    ["C"]. *)
Definition four_boxes : Vision := {|
  Pix := unit;
  Arr := unit;
  resample := fun _ _ _ => tt;
  crop_pixels := fun _ _ => tt;
  thumbnail_size := fit_box;
  enhance := fun _ => Some tt;
  threshold_bgr := fun _ => Some tt;
  plain_bgr := fun _ => Some tt;
  det_ocr := fun _ => Some [[rect 10 10 50 50; rect 10 100 70 150;
                             rect 10 200 90 250; rect 10 300 110 350]];
  predict := fun im => Some (if width im =? 50 then txt "A"
                             else if width im =? 70 then []
                             else if width im =? 90 then txt " B "
                             else if width im =? 110 then txt "C"
                             else txt "page");
  decode_image := fun _ => Some (blank 2000 2000);
  decode_error := fun _ => "cannot identify image file"%string
|}.

End Fixtures.

Module RouterFixtures.

Import TriggerUpload.

#[local] Open Scope string_scope.

Definition tagged (tag : string) : json :=
  JObj [("ContentLength", JNum 1024);
        ("Metadata", JObj [("document-type", JStr tag)])].

(** A small deployment. The remote state counts the calls made.
    [deed.pdf] and [blank.pdf] are legal registrations without a code,
    [blank.pdf] reads as no text, [invoice.pdf] is an invoice, [memo.pdf]
    has no tag, and [head_object] fails on [gone.pdf]. The bodies of the
    answers are abbreviated; [json_loads] gives their parsed content. *)
Definition deployment : Services := {|
  World := nat;
  head_object := fun bucket key n =>
    if String.eqb key "gone.pdf" then (Raises ClientError, S n)
    else if String.eqb key "invoice.pdf" then (Returns (tagged "Invoice"), S n)
    else if String.eqb key "memo.pdf" then (Returns (JObj [("Metadata", JObj [])]), S n)
    else (Returns (tagged "Legal Registration"), S n);
  invoke := fun arn ty payload n =>
    if String.eqb arn "arn:qr-detector" then
      (Returns (JObj [("statusCode", JNum 200); ("body", JStr "no-code")]), S n)
    else if String.eqb arn "arn:vietocr" then
      match assoc "key" (match payload with JObj kv => kv | _ => [] end) with
      | Some (JStr "blank.pdf") =>
          (Returns (JObj [("statusCode", JNum 200); ("body", JStr "no-text")]), S n)
      | _ => (Returns (JObj [("statusCode", JNum 200); ("body", JStr "deed-text")]), S n)
      end
    else if String.eqb arn "arn:bedrock-qa" then
      (Returns (JObj [("owner", JStr "Nguyen Van A")]), S n)
    else (Returns (JObj [("StatusCode", JNum 202)]), S n);
  environ := fun name =>
    if String.eqb name "QR_DETECTOR_FN_ARN" then Some "arn:qr-detector"
    else if String.eqb name "QR_DECODER_FN_ARN" then Some "arn:qr-decoder"
    else if String.eqb name "VIETOCR_FN_ARN" then Some "arn:vietocr"
    else if String.eqb name "BEDROCK_QA_FN_ARN" then Some "arn:bedrock-qa"
    else if String.eqb name "RESULT_SAVER_FN_ARN" then Some "arn:result-saver"
    else None;
  json_loads := fun s =>
    if String.eqb s "no-code" then Some (JObj [("hasQR", JBool false)])
    else if String.eqb s "no-text" then Some (JObj [("text", JStr "")])
    else if String.eqb s "deed-text" then Some (JObj [("text", JStr "GIAY CHUNG NHAN")])
    else if String.eqb s "upload gone.pdf" then
      Some (JObj [("Records", JArr [JObj [("s3", JObj
              [("bucket", JObj [("name", JStr "docs")]);
               ("object", JObj [("key", JStr "gone.pdf")])])]])])
    else if String.eqb s "upload invoice.pdf" then
      Some (JObj [("Records", JArr [JObj [("s3", JObj
              [("bucket", JObj [("name", JStr "docs")]);
               ("object", JObj [("key", JStr "invoice.pdf")])])]])])
    else None;
  unquote := fun s => s
|}.

Definition s3_record (bucket key : string) : json :=
  JObj [("eventName", JStr "ObjectCreated:Put");
        ("s3", JObj [("bucket", JObj [("name", JStr bucket)]);
                     ("object", JObj [("key", JStr key)])])].

(** An SQS record whose body is the notification of one upload. *)
Definition sqs_record (body : string) : json :=
  JObj [("messageId", JStr "1"); ("body", JStr body)].

(** A batch of two messages: the upload of [gone.pdf], then the upload of
    [invoice.pdf]. *)
Definition two_uploads : json :=
  JObj [("Records", JArr [sqs_record "upload gone.pdf"; sqs_record "upload invoice.pdf"])].

Definition start : @state deployment := @mkState deployment 0%nat [].

End RouterFixtures.

(** ** Vocabulary of the further properties *)

Module More.

Import TriggerUpload.

(** A synchronous invocation, and an asynchronous one. *)
Definition is_sync (e : event) : Prop :=
  exists arn payload, e = EvInvoke arn RequestResponse payload.
Definition is_async (e : event) : Prop :=
  exists arn payload, e = EvInvoke arn Event payload.

(** The calls one document costs on the generic path. *)
Definition generic_calls (bucket key : string) : list event :=
  [EvHeadObject bucket key; EvExistingBedrock bucket key].

Section RouterShapes.

Context `{Services}.

#[local] Open Scope string_scope.

(** What follows the synchronous calls of the router on one document:
    nothing, and then the router did not return [True]; or the one
    asynchronous invocation of the function configured for persistence, on
    this document, after which the router returns [True] unless that very
    invocation raised. *)
Definition handed_over (bucket key : string) (r : outcome bool) (tail : list event)
  : Prop :=
  (tail = [] /\ r <> Returns true) \/
  (exists arn result,
     tail = [EvInvoke arn Event (save_payload bucket key result)] /\
     environ "RESULT_SAVER_FN_ARN" = Some arn /\
     (r = Returns true \/ exists e, r = Raises e)).

(** A computation that only adds to the record of the calls. *)
Definition extends {A} (m : M state A) : Prop :=
  forall s, exists rest, trace (m s).2 = (trace s ++ rest)%list.

End RouterShapes.

End More.

Module MoreRouterFixtures.

Import TriggerUpload RouterFixtures.

#[local] Open Scope string_scope.

(** The deployment of the examples, with a detector that finds a code on
    every page and a decoder that reads the certificate out of it. *)
Definition deployment_with_code : Services := {|
  World := nat;
  head_object := @head_object deployment;
  invoke := fun arn ty payload n =>
    if String.eqb arn "arn:qr-detector" then
      (Returns (JObj [("statusCode", JNum 200); ("body", JStr "code")]), S n)
    else if String.eqb arn "arn:qr-decoder" then
      (Returns (JObj [("certificate", JStr "CT 123456")]), S n)
    else @invoke deployment arn ty payload n;
  environ := @environ deployment;
  json_loads := fun s =>
    if String.eqb s "code" then
      Some (JObj [("hasQR", JBool true); ("decodedText", JStr "CT-123456")])
    else @json_loads deployment s;
  unquote := @unquote deployment
|}.

Definition start_with_code : @state deployment_with_code :=
  @mkState deployment_with_code 0%nat [].

(** The notification S3 sends for two uploads, as S3 sends it: not wrapped
    in a message. *)
Definition direct_notification : json :=
  JObj [("Records", JArr [s3_record "docs" "deed.pdf"; s3_record "docs" "invoice.pdf"])].

(** One message with the uploads of an invoice and of a memo. *)
Definition invoice_and_memo : list json :=
  [s3_record "docs" "invoice.pdf"; s3_record "docs" "memo.pdf"].

End MoreRouterFixtures.

(** ** Vocabulary of the further properties of the recognition service *)

Module MoreSpec.

Import VietOcrServer.

(** A request the route refuses with 400: no body, an object without a
    usable [dataBase64] (missing, empty, not a string), or data that do
    not decode. *)
Definition refused `{Vision} (req : request) : Prop :=
  match req with
  | NoJson | Json None | Json (Some EmptyString) | FieldNotAString _ => True
  | NotAnObject => False
  | Json (Some data_base64) => decode_image data_base64 = None
  end.

(** A request from which an image is read. *)
Definition readable `{Vision} (req : request) : bool :=
  match req with
  | Json (Some (String c d)) =>
      match decode_image (String c d) with Some _ => true | None => false end
  | _ => false
  end.

(** A polygon as the detector documents it: every point is a pair, with
    coordinates from 0 and below [2^51]. *)
Definition well_formed (poly : polygon) : Prop :=
  Forall (fun p => exists x y, p = [x; y] /\ 0 <= x < 2 ^ 51 /\ 0 <= y < 2 ^ 51) poly.

Definition xs_of (poly : polygon) : list Z := map (fun p => default 0 (p !! 0%nat)) poly.
Definition ys_of (poly : polygon) : list Z := map (fun p => default 0 (p !! 1%nat)) poly.



(** [m / m] is the float 1.0. *)
Definition unit_ratio (m : Z) : bool :=
  match Py.int_truediv m m with
  | Returns (S754_finite false ms es) => (Zpos ms =? 4503599627370496) && (es =? -52)
  | _ => false
  end.

(** The patch given to the recogniser for a region is at least 48 rows
    high and one column wide. *)
Definition legible (e : event) : Prop :=
  match e with
  | EvRecognizeRegion _ sz => 1 <= sz.1 /\ 48 <= sz.2
  | _ => True
  end.

End MoreSpec.

(** ** Requests to the service, as far as its models go *)

Module ModelSpec.

Import ServerModels.

Section Serving.

Context `{ModelLib}.

(** What a request does to the models: [/ocr] asks for both (and fails as
    a whole when one does not load), [/health] reads them. *)
Inductive request : Type := NeedDetector | NeedPredictor | NeedBoth | Health.

(** One request; the route catches what loading raises. *)
Definition serve (r : request) : M state unit :=
  try_except
    (match r with
     | NeedDetector => init_detector ;; ret tt
     | NeedPredictor => init_predictor ;; ret tt
     | NeedBoth => init_detector ;; init_predictor ;; ret tt
     | Health => health ;; ret tt
     end)
    (fun _ => ret tt).

Fixpoint serve_all (rs : list request) : M state unit :=
  match rs with
  | [] => ret tt
  | r :: rest => serve r ;; serve_all rest
  end.

(** A value that [strip] empties: white space only. *)
Definition blank_value (v : string) : Prop :=
  Forall (fun c => VietOcrServer.is_space c = true) (code_points v).

Definition builds_detector (e : event) : Prop := e = EvPaddleOCR.
Definition builds_predictor (e : event) : Prop :=
  match e with
  | EvLoadConfig _ | EvPredictor _ => True
  | EvPaddleOCR => False
  end.

End Serving.

End ModelSpec.

(** ** Vocabulary of the document functions *)

Module LambdaSpec.

Import TriggerUpload DocumentLambdas.

#[local] Open Scope string_scope.
#[local] Open Scope list_scope.

Section LambdaVocabulary.

Context `{Runtime}.

(** What [_try_decode_qr] makes of a page. *)
Definition decodes_to (img : Page) (res : option (string * json)) : Prop :=
  forall s, _try_decode_qr img s
            = (Returns res, mkState (world s) (trace s ++ [EvDecode img]) (_model s)).

(** A page on which OpenCV finds no text: it reports nothing, or the
    first of the codes it reports reads as the empty string. *)
Definition blank_page (img : Page) : Prop :=
  exists retval decoded_info points,
    detect_and_decode_multi img = Returns (retval, decoded_info, points) /\
    (retval = false \/ decoded_info = [] \/
     exists others box, decoded_info = "" :: others /\ box_of points = Returns box).

(** A page on which the first code OpenCV reports reads as [text], and
    [box] is made of its corners. *)
Definition coded_page (img : Page) (text : string) (box : json) : Prop :=
  exists others points,
    detect_and_decode_multi img = Returns (true, text :: others, points) /\
    box_of points = Returns box.

(** A coordinate that is a number: no NaN, no infinity. *)
Definition is_number (f : Py.float) : Prop :=
  match f with
  | S754_nan | S754_infinity _ => False
  | _ => True
  end.

(** A page on which no text was decoded: no code, or a first code that
    reads as the empty string. *)
Definition no_text (res : option (string * json)) : Prop :=
  res = None \/ exists box, res = Some ("", box).

(** The calls between the download and the removal of the local copy. *)
Definition reads_only (e : event) : Prop :=
  match e with
  | EvImageOpen _ | EvConvert _ _ _ | EvDecode _ | EvLoadModel _ | EvPredict _ => True
  | EvMkstemp _ | EvDownload _ _ _ | EvUnlink _ => False
  end.

(** A computation whose calls all satisfy [P]. *)
Definition emits (P : event -> Prop) {A} (m : M state A) : Prop :=
  forall s, exists evs, trace (m s).2 = trace s ++ evs /\ Forall P evs.

(** The two answers of the code detector on a document it could fetch. *)
Definition no_code : response :=
  mkResponse 200 (json_dumps (JObj [("hasQR", JBool false)])).
Definition code (text : string) (box : json) : response :=
  mkResponse 200 (json_dumps (JObj [("hasQR", JBool true);
                                    ("decodedText", JStr text);
                                    ("box", box)])).

(** The answer of the text extractor. *)
Definition extracted (texts : list string) : response :=
  mkResponse 200 (json_dumps (JObj [("text", JStr (join_texts texts))])).

Definition nonempty (t : string) : bool := negb (String.eqb t "").

(** The answer of the detector on a document of one page. *)
Definition answer_of (res : option (string * json)) : response :=
  match res with
  | Some (text, box) => if nonempty text then code text box else no_code
  | None => no_code
  end.

Definition loads_model (e : event) : Prop :=
  match e with
  | EvLoadModel _ => True
  | _ => False
  end.

(** A computation that, started with the model [m] loaded, keeps it and
    loads none. *)
Definition warm (m : Model) {A} (c : M state A) : Prop :=
  forall s, _model s = Some m ->
    exists evs, trace (c s).2 = trace s ++ evs /\
      Forall (fun e => ~ loads_model e) evs /\ _model (c s).2 = Some m.

End LambdaVocabulary.

End LambdaSpec.

(** ** Stand-ins for the examples *)

Module MoreFixtures.

Import VietOcrServer Fixtures.

(** A 2000 x 2000 page and a recogniser that raises. The detector
    raises too when [detector_raises], and finds nothing otherwise. *)
Definition unreadable (detector_raises : bool) : Vision := {|
  Pix := unit;
  Arr := unit;
  resample := fun _ _ _ => tt;
  crop_pixels := fun _ _ => tt;
  thumbnail_size := fit_box;
  enhance := fun _ => Some tt;
  threshold_bgr := fun _ => Some tt;
  plain_bgr := fun _ => Some tt;
  det_ocr := fun _ => if detector_raises then None else Some [[]];
  predict := fun _ => None;
  decode_image := fun _ => Some (blank 2000 2000);
  decode_error := fun _ => "cannot identify image file"%string
|}.

End MoreFixtures.

Module ModelFixtures.

Import ServerModels.

(** Models that load: the world counts the constructions. *)
Definition models_ok : ModelLib := {|
  World := nat;
  Det := nat;
  Rec := nat;
  Config := unit;
  PaddleOCR := fun n => (Returns n, S n);
  load_config_from_name := fun _ n => (Returns tt, n);
  Predictor := fun _ _ n => (Returns n, S n);
  environ := fun name => if String.eqb name "USE_GPU" then Some "True"%string else None
|}.

(** A machine without the files of the detector. *)
Definition models_offline : ModelLib := {|
  World := nat;
  Det := nat;
  Rec := nat;
  Config := unit;
  PaddleOCR := fun n => (Raises LibraryError, S n);
  load_config_from_name := fun _ n => (Returns tt, n);
  Predictor := fun _ _ n => (Returns n, S n);
  environ := fun _ => None
|}.

(** Both models loaded, on a machine with a GPU. *)
Definition loaded : @ServerModels.state models_ok :=
  @ServerModels.mkState models_ok 2%nat (Some 0%nat) (Some 1%nat)
    [ServerModels.EvPaddleOCR; ServerModels.EvLoadConfig "vgg_transformer";
     ServerModels.EvPredictor (ServerModels.mkSettings "cuda" None)].

End ModelFixtures.

Module LambdaFixtures.

Import TriggerUpload DocumentLambdas.

#[local] Open Scope string_scope.
#[local] Open Scope list_scope.

(** A serialiser that tells the answers of the two functions apart: the
    three answers of the detector on a document with the code
    ["CT-123456"], and the text of the extractor after a tag. *)
Definition dumps (j : json) : string :=
  match j with
  | JObj [(k, JStr v)] =>
      if String.eqb k "error" && String.eqb v "Missing bucket/key" then "missing"
      else if String.eqb k "text" then "text=" ++ v
      else "other"
  | JObj [(k, JBool false)] => if String.eqb k "hasQR" then "no-code" else "other"
  | JObj [(k1, JBool true); (k2, JStr t); (k3, JNull)] =>
      if String.eqb k1 "hasQR" && String.eqb k2 "decodedText" && String.eqb k3 "box"
         && String.eqb t "CT-123456"
      then "code" else "other"
  | _ => "other"
  end.

(** The matching parser. *)
Definition parse (s : string) : option json :=
  if String.eqb s "missing" then Some (JObj [("error", JStr "Missing bucket/key")])
  else if String.eqb s "no-code" then Some (JObj [("hasQR", JBool false)])
  else if String.eqb s "code" then
    Some (JObj [("hasQR", JBool true); ("decodedText", JStr "CT-123456"); ("box", JNull)])
  else if String.prefix "text=" s then
    Some (JObj [("text", JStr (substring 5 (String.length s - 5) s))])
  else None.

(** The float of a small integer. *)
Definition flt (z : Z) : Py.float :=
  match Py.float_of_int z with
  | Returns f => f
  | Raises _ => S754_zero false
  end.

(** The corners of a square code, as OpenCV lists them. *)
Definition square (x y side : Z) : list (Py.float * Py.float) :=
  [(flt x, flt y); (flt (x + side), flt y);
   (flt (x + side), flt (y + side)); (flt x, flt (y + side))].

Definition pt (x y : Z) : json := JObj [("x", JNum x); ("y", JNum y)].

(** A function whose pages are numbered: page 1 carries the code
    ["CT-123456"] and reads as a title, page 2 carries a code that does
    not decode before one that does and reads as a number, page 4
    carries the code ["CT-2024"], the other pages carry nothing.
    Documents are images of one page, page 1. The bucket [vault] cannot
    be read. *)
Definition runtime : Runtime := {|
  World := nat;
  Page := nat;
  Model := unit;
  Config := unit;
  mkstemp := fun n => (Returns "/tmp/tmpk3x9", S n);
  download_file := fun bucket key path n =>
    match bucket with
    | JStr "vault" => (Raises ClientError, S n)
    | _ => (Returns tt, S n)
    end;
  unlink := fun path n => (Returns tt, S n);
  image_open := fun path n => (Returns 1%nat, S n);
  convert_from_path := fun path first last n => (Returns [0%nat; 1%nat], S n);
  detect_and_decode_multi := fun page =>
    match page with
    | 1%nat => Returns (true, ["CT-123456"], None)
    | 2%nat => Returns (true, [""; "CT-999"], Some [square 40 40 120; square 300 40 120])
    | 4%nat => Returns (true, ["CT-2024"], Some [square 40 40 120])
    | _ => Returns (false, [], None)
    end;
  load_config_from_name := fun _ n => (Returns tt, n);
  Predictor := fun _ _ n => (Returns tt, S n);
  predict := fun _ page =>
    match page with
    | 1%nat => Returns "GIAY CHUNG NHAN"
    | 2%nat => Returns "So 123"
    | _ => Returns ""
    end;
  json_dumps := dumps
|}.

(** The router's side, as far as the answers go. *)
Definition reader : Services := {|
  TriggerUpload.World := nat;
  head_object := fun _ _ n => (Raises ClientError, n);
  invoke := fun _ _ _ n => (Raises ClientError, n);
  TriggerUpload.environ := fun _ => None;
  json_loads := parse;
  unquote := fun s => s
|}.

Definition deed : json := JObj [("bucket", JStr "docs"); ("key", JStr "deed.png")].
Definition sealed : json := JObj [("s3", JObj [("bucket", JStr "vault"); ("key", JStr "deed.png")])].

Definition deed_pdf : json := JObj [("bucket", JStr "docs"); ("key", JStr "deed.pdf")].

Definition cold : @state runtime := @mkState runtime 0%nat [] None.
Definition warmed : @state runtime := @mkState runtime 7%nat [] (Some tt).

End LambdaFixtures.

(** * Properties *)

(** ** Python floats: multiplication by an integer, then [int()] *)

Section FloatFacts.

#[local] Open Scope Z_scope.

Lemma digits2_pos_size p : digits2_pos p = Pos.size p.
Proof. induction p as [p IH|p IH|]; cbn; [rewrite IH| rewrite IH|]; reflexivity. Qed.

(** A positive number of [d] binary digits lies in [[2^(d-1), 2^d)]. *)
Lemma digits2_bounds p :
  2 ^ (Zpos (digits2_pos p) - 1) <= Zpos p < 2 ^ Zpos (digits2_pos p).
Proof.
  rewrite digits2_pos_size. split.
  - pose proof (Pos.size_le p) as Hle.
    assert (H2 : 2 ^ Zpos (Pos.size p) <= 2 * Zpos p).
    { rewrite <- Pos2Z.inj_pow. change (2 * Zpos p) with (Zpos p~0). exact Hle. }
    replace (Zpos (Pos.size p)) with (Zpos (Pos.size p) - 1 + 1) in H2 by lia.
    rewrite Z.pow_add_r in H2 by lia. lia.
  - rewrite <- Pos2Z.inj_pow. exact (Pos.size_gt p).
Qed.

Lemma digits2_unique p d :
  2 ^ (d - 1) <= Zpos p < 2 ^ d -> Zpos (digits2_pos p) = d.
Proof.
  intros [Hlo Hhi]. pose proof (digits2_bounds p) as [Hlo' Hhi'].
  assert (Hd : 0 < d).
  { destruct d as [|d|d]; [cbn in Hhi; lia|lia|].
    rewrite Z.pow_neg_r in Hhi by lia. lia. }
  destruct (Z.lt_trichotomy (Zpos (digits2_pos p)) d) as [Hlt|[Heq|Hgt]]; [|exact Heq|].
  - assert (2 ^ Zpos (digits2_pos p) <= 2 ^ (d - 1)) by (apply Z.pow_le_mono_r; lia). lia.
  - assert (2 ^ d <= 2 ^ (Zpos (digits2_pos p) - 1)) by (apply Z.pow_le_mono_r; lia). lia.
Qed.

(** Shifting a record right drops one bit of its mantissa. *)
Lemma shr_1_m mrs : 0 <= shr_m mrs -> shr_m (shr_1 mrs) = shr_m mrs / 2.
Proof.
  destruct mrs as [m r s]. cbn [shr_m]. intros Hm.
  rewrite <- Z.div2_div.
  destruct m as [|[p|p|]|p]; try reflexivity; lia.
Qed.

Lemma iter_shr_1_m n : forall mrs, 0 <= shr_m mrs ->
  shr_m (SpecFloat.iter_pos shr_1 n mrs) = shr_m mrs / 2 ^ Zpos n.
Proof.
  assert (Hnn : forall k mrs, 0 <= shr_m mrs -> 0 <= shr_m mrs / 2 ^ Zpos k).
  { intros. apply Z.div_pos; lia. }
  induction n as [n IH|n IH|]; intros mrs Hm; cbn [SpecFloat.iter_pos].
  - assert (H1 : 0 <= shr_m (shr_1 mrs)) by (rewrite shr_1_m by assumption; apply Z.div_pos; lia).
    rewrite IH by (rewrite IH by assumption; apply Hnn; assumption).
    rewrite IH by assumption. rewrite shr_1_m by assumption.
    rewrite !Z.div_div by lia. f_equal.
    rewrite Pos2Z.inj_xI. rewrite <- !Z.pow_add_r, <- Z.pow_succ_r by lia. f_equal. lia.
  - rewrite IH by (rewrite IH by assumption; apply Hnn; assumption).
    rewrite IH by assumption.
    rewrite !Z.div_div by lia. f_equal.
    rewrite Pos2Z.inj_xO. rewrite <- !Z.pow_add_r by lia. f_equal. lia.
  - rewrite shr_1_m by assumption. reflexivity.
Qed.

Lemma round_nearest_even_cases m l :
  round_nearest_even m l = m \/ round_nearest_even m l = m + 1.
Proof. destruct l as [|[]]; cbn; auto. destruct (Z.even m); auto. Qed.

Lemma fexp_normal e : -1074 <= e - 53 -> fexp Py.prec Py.emax e = e - 53.
Proof. intros He. unfold fexp, emin, Py.prec, Py.emax. lia. Qed.

Lemma shr_record_of_loc_m m l : shr_m (shr_record_of_loc m l) = m.
Proof. destruct l as [|[]]; reflexivity. Qed.

Lemma shr_spec mrs e n : 0 <= shr_m mrs ->
  shr_m (shr mrs e n).1 = shr_m mrs / 2 ^ Z.max 0 n /\ (shr mrs e n).2 = e + Z.max 0 n.
Proof.
  intros Hm. destruct n as [|p|p]; cbn [shr fst snd].
  - cbn. rewrite Z.div_1_r. split; [reflexivity|lia].
  - rewrite iter_shr_1_m by assumption. rewrite Z.max_r by lia. split; reflexivity.
  - rewrite Z.max_l by lia. cbn. rewrite Z.div_1_r. split; [reflexivity|lia].
Qed.

Lemma shr_fexp_spec m e l : 0 < m ->
  let n := Z.max 0 (fexp Py.prec Py.emax (Zdigits2 m + e) - e) in
  shr_m (shr_fexp Py.prec Py.emax m e l).1 = m / 2 ^ n /\
  (shr_fexp Py.prec Py.emax m e l).2 = e + n.
Proof.
  intros Hm n. unfold shr_fexp.
  pose proof (shr_spec (shr_record_of_loc m l) e
                (fexp Py.prec Py.emax (Zdigits2 m + e) - e)) as Hs.
  rewrite shr_record_of_loc_m in Hs. apply Hs. lia.
Qed.

Lemma int_of_float_neg m e : e < 0 ->
  Py.int_of_float (S754_finite false m e) = Returns (Zpos m / 2 ^ (- e)).
Proof. intros He. destruct e as [|p|p]; try lia. reflexivity. Qed.

Lemma int_of_float_zero m :
  Py.int_of_float (S754_finite false m 0) = Returns (Zpos m).
Proof. cbn. f_equal. lia. Qed.

(** Rounding a product of [d >= 54] digits to binary64 and truncating it:
    the mantissa keeps its 53 leading digits, plus one unit or not. *)
Lemma round_aux_int (M : positive) (e : Z) :
  let d := Zpos (digits2_pos M) in
  54 <= d -> -1074 <= d + e - 53 -> d + e - 53 < 0 ->
  exists q', (q' = Zpos M / 2 ^ (d - 53) \/ q' = Zpos M / 2 ^ (d - 53) + 1) /\
    Py.int_of_float (binary_round_aux Py.prec Py.emax false (Zpos M) e loc_Exact)
    = Returns (q' / 2 ^ (53 - d - e)).
Proof.
  intros d Hd Hlo Hhi.
  pose proof (digits2_bounds M) as [HMlo HMhi]. fold d in HMlo, HMhi.
  unfold binary_round_aux.
  destruct (shr_fexp_spec (Zpos M) e loc_Exact ltac:(lia)) as [Hm1 He1].
  destruct (shr_fexp Py.prec Py.emax (Zpos M) e loc_Exact) as [mrs' e'] eqn:E1.
  cbn [fst snd] in Hm1, He1. cbn [Zdigits2] in Hm1, He1. fold d in Hm1, He1.
  rewrite fexp_normal in Hm1, He1 by lia.
  replace (Z.max 0 (d + e - 53 - e)) with (d - 53) in Hm1, He1 by lia.
  set (q := Zpos M / 2 ^ (d - 53)) in *.
  assert (Hq : 2 ^ 52 <= q < 2 ^ 53).
  { unfold q. split.
    - apply Z.div_le_lower_bound; [lia|].
      rewrite <- Z.pow_add_r by lia. replace (d - 53 + 52) with (d - 1) by lia. exact HMlo.
    - apply Z.div_lt_upper_bound; [lia|].
      rewrite <- Z.pow_add_r by lia. replace (d - 53 + 53) with d by lia. exact HMhi. }
  set (q' := round_nearest_even (shr_m mrs') (loc_of_shr_record mrs')).
  assert (Hq' : q' = q \/ q' = q + 1).
  { unfold q'. rewrite Hm1. apply round_nearest_even_cases. }
  exists q'. split; [exact Hq'|].
  assert (Hq'pos : 0 < q') by lia.
  destruct (shr_fexp_spec q' e' loc_Exact Hq'pos) as [Hm2 He2].
  destruct (shr_fexp Py.prec Py.emax q' e' loc_Exact) as [mrs'' e''] eqn:E2.
  cbn [fst snd] in Hm2, He2.
  destruct q' as [|qp|qp] eqn:Eqp; try lia. cbn [Zdigits2] in Hm2, He2.
  destruct (Z.ltb_spec (Zpos qp) (2 ^ 53)) as [Hlt|Hge].
  - assert (Hdig : Zpos (digits2_pos qp) = 53) by (apply digits2_unique; lia).
    rewrite Hdig, fexp_normal in Hm2, He2 by lia.
    replace (Z.max 0 (53 + e' - 53 - e')) with 0 in Hm2, He2 by lia.
    rewrite Z.pow_0_r, Z.div_1_r in Hm2. rewrite Hm2.
    replace (e'' <=? Py.emax - Py.prec) with true
      by (symmetry; apply Z.leb_le; unfold Py.emax, Py.prec; lia).
    rewrite int_of_float_neg by lia. do 2 f_equal. f_equal. lia.
  - assert (Eq53 : Zpos qp = 2 ^ 53) by lia.
    assert (Hdig : Zpos (digits2_pos qp) = 54)
      by (apply digits2_unique; rewrite Eq53; split; [apply Z.pow_le_mono_r|apply Z.pow_lt_mono_r]; lia).
    rewrite Hdig, fexp_normal in Hm2, He2 by lia.
    replace (Z.max 0 (54 + e' - 53 - e')) with 1 in Hm2, He2 by lia.
    rewrite Eq53 in Hm2. change (2 ^ 53 / 2 ^ 1) with (Zpos 4503599627370496) in Hm2.
    rewrite Hm2.
    replace (e'' <=? Py.emax - Py.prec) with true
      by (symmetry; apply Z.leb_le; unfold Py.emax, Py.prec; lia).
    rewrite Eq53.
    destruct (Z.eq_dec e'' 0) as [E0|E0].
    + rewrite E0, int_of_float_zero. f_equal.
      replace (53 - d - e) with 1 by lia. reflexivity.
    + rewrite int_of_float_neg by lia. f_equal.
      replace (53 - d - e) with (1 + (- e'')) by lia.
      rewrite Z.pow_add_r by lia. rewrite <- Z.div_div by lia. reflexivity.
Qed.

Lemma iter_xO_pow2 m d : Zpos (Pos.iter xO m d) = Zpos m * 2 ^ Zpos d.
Proof.
  rewrite (Pos.iter_swap_gen _ _ Zpos xO (Z.mul 2)) by reflexivity.
  change (Pos.iter (Z.mul 2) (Zpos m) d) with (Z.shiftl (Zpos m) (Zpos d)).
  apply Z.shiftl_mul_pow2. lia.
Qed.

(** A mantissa of 53 digits with an exponent in range is left as it is. *)
Lemma round_aux_canonical m e :
  Zpos (digits2_pos m) = 53 -> -1074 <= e <= 971 ->
  binary_round_aux Py.prec Py.emax false (Zpos m) e loc_Exact = S754_finite false m e.
Proof.
  intros Hd He. unfold binary_round_aux, shr_fexp. cbn [Zdigits2 shr_record_of_loc].
  rewrite Hd, fexp_normal by lia.
  replace (53 + e - 53 - e) with 0 by lia. cbn [shr shr_m loc_of_shr_record round_nearest_even].
  cbn [Zdigits2 shr_record_of_loc]. rewrite Hd, fexp_normal by lia.
  replace (53 + e - 53 - e) with 0 by lia. cbn [shr shr_m].
  replace (e <=? Py.emax - Py.prec) with true
    by (symmetry; apply Z.leb_le; unfold Py.emax, Py.prec; lia).
  reflexivity.
Qed.

(** [float(w)] is exact for a positive [w] of at most 53 digits. *)
Lemma float_of_int_exact (w : positive) :
  let dw := Zpos (digits2_pos w) in
  dw <= 53 ->
  exists mw, Py.float_of_int (Zpos w) = Returns (S754_finite false mw (dw - 53)) /\
    Zpos mw = Zpos w * 2 ^ (53 - dw) /\ Zpos (digits2_pos mw) = 53.
Proof.
  intros dw Hdw. pose proof (digits2_bounds w) as [Hlo Hhi].
  assert (Edw : Zpos (digits2_pos w) = dw) by reflexivity. clearbody dw.
  rewrite Edw in Hlo, Hhi.
  assert (Hdw1 : 1 <= dw) by lia.
  unfold Py.float_of_int, binary_normalize, binary_round.
  rewrite Edw, fexp_normal by lia. unfold shl_align.
  replace (dw + 0 - 53 - 0) with (dw - 53) by lia.
  destruct (dw - 53) as [|n|n] eqn:En; try lia.
  - exists w. assert (H53 : dw = 53) by lia. rewrite H53 in *.
    rewrite round_aux_canonical by (try exact Edw; lia).
    split; [reflexivity|]. split; [cbn; lia|exact Edw].
  - assert (Hmz : Zpos (Pos.iter xO w n) = Zpos w * 2 ^ (53 - dw)).
    { rewrite iter_xO_pow2. f_equal. f_equal. lia. }
    assert (Hdz : Zpos (digits2_pos (Pos.iter xO w n)) = 53).
    { apply digits2_unique. rewrite Hmz. split.
      - replace (53 - 1) with (dw - 1 + (53 - dw)) by lia. rewrite Z.pow_add_r by lia.
        apply Z.mul_le_mono_nonneg_r; lia.
      - replace 53 with (dw + (53 - dw)) at 2 by lia. rewrite Z.pow_add_r by lia.
        apply Z.mul_lt_mono_pos_r; lia. }
    exists (Pos.iter xO w n).
    replace (dw + 0 - 53) with (Zneg n) by lia.
    rewrite round_aux_canonical by (try exact Hdz; lia).
    split; [reflexivity|]. split; [exact Hmz|exact Hdz].
Qed.

(** [int(w * s)] for a positive int [w] below [2^b] and a positive normal
    float [s = ms * 2^es] below [2^(-b)] in exponent: the truncation of the
    rounded product is at least the integer part of the exact product, and
    stays below any bound the exact product misses by a relative [2^-52]. *)
Lemma int_mul_float_bounds (w ms : positive) (es b : Z) :
  Zpos w < 2 ^ b -> b <= 53 ->
  Zpos (digits2_pos ms) = 53 -> -1000 <= es -> b + es < 0 ->
  exists k, Py.int_mul_float (Zpos w) (S754_finite false ms es) = Returns k /\
    Zpos w * Zpos ms / 2 ^ (- es) <= k /\
    forall B, Zpos w * Zpos ms * (2 ^ 52 + 1) < (B + 1) * 2 ^ (- es) * 2 ^ 52 -> k <= B.
Proof.
  intros Hw Hb Hds Hes Hbes.
  pose proof (digits2_bounds w) as [Hwlo Hwhi].
  set (dw := Zpos (digits2_pos w)) in *.
  assert (Hdw1 : 1 <= dw) by (unfold dw; lia).
  assert (Hdwb : dw <= b).
  { destruct (Z.le_gt_cases dw b) as [|Hgt]; [assumption|].
    assert (2 ^ b <= 2 ^ (dw - 1)) by (apply Z.pow_le_mono_r; lia). lia. }
  destruct (float_of_int_exact w ltac:(fold dw; lia)) as (mw & Hf & Hmw & Hdmw).
  fold dw in Hf, Hmw.
  unfold Py.int_mul_float. rewrite Hf. cbn [obind]. unfold Py.fmul, SFmul. cbn [xorb].
  set (M := (mw * ms)%positive).
  set (e := dw - 53 + es).
  pose proof (digits2_bounds mw) as [Hmwlo Hmwhi]. rewrite Hdmw in Hmwlo, Hmwhi.
  pose proof (digits2_bounds ms) as [Hmslo Hmshi]. rewrite Hds in Hmslo, Hmshi.
  pose proof (digits2_bounds M) as [HMlo HMhi].
  set (d := Zpos (digits2_pos M)) in *.
  assert (HM : Zpos M = Zpos mw * Zpos ms) by reflexivity.
  assert (Hd : 105 <= d <= 106).
  { change (53 - 1) with 52 in *.
    assert (H104 : 2 ^ 104 <= Zpos M).
    { rewrite HM. change (2 ^ 104) with (2 ^ 52 * 2 ^ 52). apply Z.mul_le_mono_nonneg; lia. }
    assert (H106 : Zpos M < 2 ^ 106).
    { rewrite HM. change (2 ^ 106) with (2 ^ 53 * 2 ^ 53). apply Z.mul_lt_mono_nonneg; lia. }
    split.
    - destruct (Z.le_gt_cases 105 d) as [|Hlt]; [assumption|].
      assert (2 ^ d <= 2 ^ 104) by (apply Z.pow_le_mono_r; lia). lia.
    - destruct (Z.le_gt_cases d 106) as [|Hgt]; [assumption|].
      assert (2 ^ 106 <= 2 ^ (d - 1)) by (apply Z.pow_le_mono_r; lia). lia. }
  destruct (round_aux_int M e) as (q' & Hq' & Hint);
    [fold d; lia|fold d; unfold e; lia|fold d; unfold e; lia|].
  fold d in Hq', Hint.
  exists (q' / 2 ^ (53 - d - e)). split; [exact Hint|].
  set (P := 2 ^ (d - 53)) in *.
  set (J := 2 ^ (53 - d - e)) in *.
  set (S := 2 ^ (53 - dw)) in *.
  set (Es := 2 ^ (- es)) in *.
  assert (HP : 0 < P) by (unfold P; apply Z.pow_pos_nonneg; lia).
  assert (HJ : 0 < J) by (unfold J; apply Z.pow_pos_nonneg; unfold e; lia).
  assert (HS : 0 < S) by (unfold S; apply Z.pow_pos_nonneg; lia).
  assert (HEs : 0 < Es) by (unfold Es; apply Z.pow_pos_nonneg; lia).
  assert (HPJ : P * J = S * Es).
  { unfold P, J, S, Es. rewrite <- !Z.pow_add_r by (unfold e; lia). f_equal. unfold e. lia. }
  assert (HP52 : 2 ^ 52 * P <= Zpos M).
  { unfold P. rewrite <- Z.pow_add_r by lia. replace (52 + (d - 53)) with (d - 1) by lia.
    exact HMlo. }
  assert (HMw : Zpos M = Zpos w * Zpos ms * S) by (rewrite HM, Hmw; fold S; ring).
  set (q := Zpos M / P) in *.
  assert (Hqlo : q * P <= Zpos M) by (unfold q; rewrite Z.mul_comm; apply Z.mul_div_le; lia).
  assert (Hq'q : q <= q') by lia.
  split.
  - transitivity (q / J).
    + unfold q. rewrite Z.div_div by lia. rewrite HPJ, HMw.
      rewrite (Z.mul_comm S Es). rewrite Z.div_mul_cancel_r by lia. reflexivity.
    + apply Z.div_le_mono; lia.
  - intros B HB.
    assert (Hlt : q' / J < B + 1); [|lia].
    apply Z.div_lt_upper_bound; [lia|].
    assert (H1 : 2 ^ 52 * ((q + 1) * P) <= Zpos M * (2 ^ 52 + 1)) by nia.
    assert (H2 : Zpos M * (2 ^ 52 + 1) < (B + 1) * (P * J) * 2 ^ 52).
    { rewrite HPJ, HMw.
      replace (Zpos w * Zpos ms * S * (2 ^ 52 + 1))
        with (Zpos w * Zpos ms * (2 ^ 52 + 1) * S) by ring.
      replace ((B + 1) * (S * Es) * 2 ^ 52) with ((B + 1) * Es * 2 ^ 52 * S) by ring.
      apply Z.mul_lt_mono_pos_r; assumption. }
    assert (H3 : (q + 1) * (2 ^ 52 * P) < J * (B + 1) * (2 ^ 52 * P)) by lia.
    apply Z.mul_lt_mono_pos_r in H3; lia.
Qed.

(** *** The scale factors of the service *)

Import Spec.

Lemma sides_spec n m : 1 <= m <= Z.of_nat n -> In m (sides n).
Proof.
  intros Hm. unfold sides. apply in_map_iff. exists (Z.to_nat (m - 1)).
  split; [lia|]. apply in_seq. lia.
Qed.

Lemma scale_ok_all target lo b n :
  forallb (scale_ok target lo b) (sides n) = true ->
  forall m, 1 <= m <= Z.of_nat n -> scale_ok target lo b m = true.
Proof.
  intros Hall m Hm. rewrite forallb_forall in Hall. apply Hall, sides_spec, Hm.
Qed.

(** [2400.0 / max_side] for every [max_side] below 2000. *)
Lemma scale_2400_ok m : 1 <= m <= 1999 -> scale_ok 2400 2399 11 m = true.
Proof.
  apply (scale_ok_all 2400 2399 11 1999). vm_compute. reflexivity.
Qed.

(** [48.0 / crop.height] for every height below 48. *)
Lemma scale_48_ok h : 1 <= h <= 47 -> scale_ok 48 47 40 h = true.
Proof.
  apply (scale_ok_all 48 47 40 47). vm_compute. reflexivity.
Qed.

(** What [scale_ok] gives for a side [w <= m]: [int(w * (target / m))]
    is computed, is at least [w] and at most [target]; on [m] itself it is
    at least [lo]. *)
Lemma scaled_side target lo b m w :
  scale_ok target lo b m = true -> b <= 53 -> 1 <= w <= m -> w < 2 ^ b ->
  exists sc k, Py.lit_div_int target m = Returns sc /\
    Py.int_mul_float w sc = Returns k /\
    w <= k <= target /\ (w = m -> lo <= k).
Proof.
  unfold scale_ok. intros Hok Hb Hw Hwb.
  destruct (Py.lit_div_int target m) as [[| | |[] ms es]|]; try discriminate.
  repeat (apply andb_true_iff in Hok as [Hok ?]).
  apply Z.eqb_eq in Hok.
  repeat match goal with
         | H : (_ <=? _) = true |- _ => apply Z.leb_le in H
         | H : (_ <? _) = true |- _ => apply Z.ltb_lt in H
         end.
  destruct w as [|w|w]; try lia.
  assert (Hb0 : 0 < b).
  { destruct b as [|b|b]; [cbn in Hwb; lia|lia|rewrite Z.pow_neg_r in Hwb; lia]. }
  destruct (int_mul_float_bounds w ms es b) as (k & Hk & Hlo & Hhi); try assumption.
  exists (S754_finite false ms es), k. split; [reflexivity|]. split; [exact Hk|].
  assert (HEs : 0 < 2 ^ (- es)) by (apply Z.pow_pos_nonneg; lia).
  split; [split|].
  - transitivity (Zpos w * Zpos ms / 2 ^ (- es)); [|exact Hlo].
    apply Z.div_le_lower_bound; [lia|]. nia.
  - apply Hhi.
    apply Z.le_lt_trans with (m * Zpos ms * (2 ^ 52 + 1)); [|assumption].
    apply Z.mul_le_mono_nonneg_r; [lia|]. apply Z.mul_le_mono_nonneg_r; lia.
  - intros Ewm. rewrite Ewm in Hlo. lia.
Qed.

(** A factor of at least 1 never shrinks a side. *)
Lemma scaled_up target lo b m w :
  scale_ok target lo b m = true -> b <= 53 -> 1 <= w < 2 ^ b ->
  exists sc k, Py.lit_div_int target m = Returns sc /\
    Py.int_mul_float w sc = Returns k /\ w <= k.
Proof.
  unfold scale_ok. intros Hok Hb Hw.
  destruct (Py.lit_div_int target m) as [[| | |[] ms es]|]; try discriminate.
  repeat (apply andb_true_iff in Hok as [Hok ?]).
  apply Z.eqb_eq in Hok.
  repeat match goal with
         | H : (_ <=? _) = true |- _ => apply Z.leb_le in H
         | H : (_ <? _) = true |- _ => apply Z.ltb_lt in H
         end.
  destruct w as [|w|w]; try lia.
  assert (Hb0 : 0 < b).
  { destruct b as [|b|b]; [cbn in Hw; lia|lia|rewrite Z.pow_neg_r in Hw; lia]. }
  destruct (int_mul_float_bounds w ms es b) as (k & Hk & Hlo & _); try assumption; try lia.
  exists (S754_finite false ms es), k. split; [reflexivity|]. split; [exact Hk|].
  assert (HEs : 0 < 2 ^ (- es)) by (apply Z.pow_pos_nonneg; lia).
  transitivity (Zpos w * Zpos ms / 2 ^ (- es)); [|exact Hlo].
  apply Z.div_le_lower_bound; [lia|]. nia.
Qed.

End FloatFacts.



(** ** The state-and-exception monad *)

Lemma bind_returns {St A B} (m : M St A) (k : A -> M St B) s a s' :
  m s = (Returns a, s') -> bind m k s = k a s'.
Proof. intros E. unfold bind. rewrite E. reflexivity. Qed.

Lemma obind_returns_inv {A B} (o : outcome A) (k : A -> outcome B) b :
  obind o k = Returns b -> exists a, o = Returns a /\ k a = Returns b.
Proof. destruct o as [a|e]; simpl; intros E; [eauto | discriminate]. Qed.

(** ** The OCR service *)

Section PipelineFacts.

Import VietOcrServer Spec.
Context `{Vision}.

Implicit Types (s : state) (im : image) (b : box) (evs : list event) (fd : bool).

(** Decides a comparison of the goal [_ = true] or [_ = false] by [lia]. *)
Ltac zcmp :=
  first [ apply Z.ltb_lt; lia | apply Z.ltb_ge; lia
        | rewrite Z.gtb_ltb; apply Z.ltb_lt; lia | rewrite Z.gtb_ltb; apply Z.ltb_ge; lia
        | apply Z.leb_le; lia | apply Z.leb_gt; lia ].

(** *** The region loop *)

Lemma emit_run (e : event) s :
  emit e s = (Returns tt, mkState (heap s) (trace s ++ [e])).
Proof. reflexivity. Qed.

Lemma state_eta s : mkState (heap s) (trace s ++ []) = s.
Proof. destruct s. cbn. rewrite app_nil_r. reflexivity. Qed.

(** The crop of a region leaves the heap alone and logs the crop first. *)
Lemma extract_region_run rec_im idx b s :
  exists r rest,
    extract_region rec_im idx b s = (r, mkState (heap s) (trace s ++ EvCrop idx b :: rest)) /\
    Forall (fun e => exists sz, e = EvUpscale idx sz \/ e = EvRecognizeRegion idx sz) rest.
Proof.
  destruct b as [[[x1 y1] x2] y2]. unfold extract_region.
  rewrite (bind_returns _ _ _ _ _ (emit_run _ s)). cbn [height width].
  destruct (y2 - y1 <? 48).
  - unfold bind, lift.
    destruct (Py.lit_div_int 48 (y2 - y1)) as [sc|e]; [|eexists _, []; split; [reflexivity|constructor]].
    destruct (Py.int_mul_float (x2 - x1) sc) as [nw|e]; [|eexists _, []; split; [reflexivity|constructor]].
    rewrite emit_run. cbn [heap trace]. rewrite <- app_assoc.
    exists (pil_resize BICUBIC (mkImg (x2 - x1) (y2 - y1) (crop_pixels rec_im (x1, y1, x2, y2))) (nw, 48)),
      [EvUpscale idx (nw, 48)].
    split; [reflexivity|].
    repeat constructor; eauto.
  - eexists _, []. split; [reflexivity|constructor].
Qed.

Lemma process_region_run rec_im sx sy lines idx poly s :
  exists r evs b,
    process_region rec_im sx sy lines idx poly s = (r, mkState (heap s) (trace s ++ evs)) /\
    (evs = [] \/ (mapped_from (size rec_im) sx sy poly b /\ region_events idx b evs /\ evs <> [])).
Proof.
  assert (Hskip : forall r : outcome (list text), exists r' evs b,
    (r, s) = (r', mkState (heap s) (trace s ++ evs)) /\
    (evs = [] \/ (mapped_from (size rec_im) sx sy poly b /\ region_events idx b evs /\ evs <> []))).
  { intros r. exists r, [], (0, 0, 0, 0). rewrite state_eta. auto. }
  unfold process_region.
  destruct poly as [|p poly']; [apply Hskip|].
  set (poly := p :: poly') in *.
  destruct (4 <=? length poly)%nat eqn:Hlen; [|apply Hskip].
  apply Nat.leb_le in Hlen.
  destruct (scale_coords 0 sx poly) as [xs|e] eqn:Hxs; cbn [obind].
  2:{ destruct e; apply Hskip. }
  destruct (scale_coords 1 sy poly) as [ys|e] eqn:Hys; cbn [obind].
  2:{ destruct e; apply Hskip. }
  unfold bind at 1, lift at 1.
  destruct (region_box (width rec_im) (height rec_im) xs ys) as [b|e] eqn:Hb;
    [|apply Hskip].
  destruct b as [[[x1 y1] x2] y2].
  destruct ((x2 >? x1) && (y2 >? y1)) eqn:Hnd; [|apply Hskip].
  apply andb_true_iff in Hnd as [Hx Hy].
  apply Z.gtb_lt in Hx. apply Z.gtb_lt in Hy.
  destruct (extract_region_run rec_im idx (x1, y1, x2, y2) s) as (r1 & rest & Hex & Hrest).
  assert (Hmap : mapped_from (size rec_im) sx sy poly (x1, y1, x2, y2))
    by (exists xs, ys; auto).
  unfold bind at 1. rewrite Hex.
  destruct r1 as [crop|e].
  - rewrite (bind_returns _ _ _ _ _ (emit_run _ _)).
    cbn [heap trace]. rewrite <- app_assoc. cbn [app].
    exists (match predict crop with
            | Some t => Returns (keep_line lines t)
            | None => Raises LibraryError
            end),
      (EvCrop idx (x1, y1, x2, y2) :: rest ++ [EvRecognizeRegion idx (size crop)]),
      (x1, y1, x2, y2).
    split.
    + unfold bind, run_predict. destruct (predict crop); reflexivity.
    + right. split; [exact Hmap|split; [|discriminate]].
      right. exists (rest ++ [EvRecognizeRegion idx (size crop)]).
      split; [reflexivity|split; [split; assumption|]].
      apply Forall_app; split; [assumption|]. repeat constructor; eauto.
  - eexists _, _, (x1, y1, x2, y2). split; [reflexivity|].
    right. split; [exact Hmap|split; [|discriminate]].
    right. exists rest. repeat split; assumption.
Qed.

Lemma whole_image_runs_app evs1 evs2 :
  whole_image_runs (evs1 ++ evs2) = (whole_image_runs evs1 + whole_image_runs evs2)%nat.
Proof.
  induction evs1 as [|e evs1 IH]; [reflexivity|].
  destruct e; cbn; rewrite IH; reflexivity.
Qed.

Lemma region_events_no_whole idx b evs :
  region_events idx b evs -> whole_image_runs evs = 0%nat.
Proof.
  intros [->|(rest & -> & _ & Hrest)]; [reflexivity|]. cbn.
  induction Hrest as [|e rest (sz & [->| ->]) _ IH]; cbn; auto.
Qed.

Lemma loop_events_nil sz sx sy idx polys : loop_events sz sx sy idx polys [].
Proof. repeat split; intros; cbn in *; tauto. Qed.

Lemma loop_events_cons sz sx sy idx poly polys b evs1 evs2 :
  evs1 = [] \/ (mapped_from sz sx sy poly b /\ region_events idx b evs1 /\ evs1 <> []) ->
  loop_events sz sx sy (S idx) polys evs2 ->
  loop_events sz sx sy idx (poly :: polys) (evs1 ++ evs2).
Proof.
  intros H1 (Hc2 & Hu2 & Hw2).
  assert (Hfirst : evs1 = [] \/ exists rest1, evs1 = EvCrop idx b :: rest1 /\ nondegenerate b /\
            mapped_from sz sx sy poly b /\
            forall e, In e rest1 -> exists sz', e = EvUpscale idx sz' \/ e = EvRecognizeRegion idx sz').
  { destruct H1 as [->|(Hmap & [->|(rest1 & -> & Hnd & Hrest)] & _)]; auto.
    right. exists rest1. rewrite List.Forall_forall in Hrest. auto. }
  assert (Hw1 : whole_image_runs evs1 = 0%nat).
  { destruct H1 as [->|(_ & Hev & _)]; [reflexivity|].
    exact (region_events_no_whole _ _ _ Hev). }
  split; [|split; [|rewrite whole_image_runs_app, Hw1, Hw2; reflexivity]].
  - intros i b' Hin. apply in_app_or in Hin as [Hin|Hin].
    + destruct Hfirst as [->|(rest1 & -> & Hnd & Hmap & Hrest)]; [destruct Hin|].
      destruct Hin as [Eq|Hin].
      * injection Eq as <- <-. split; [exact Hnd|].
        exists poly. rewrite Nat.sub_diag. auto.
      * destruct (Hrest _ Hin) as (sz' & [?|?]); discriminate.
    + destruct (Hc2 i b' Hin) as (Hnd & poly' & Hle & Hlk & Hmap).
      split; [exact Hnd|]. exists poly'. split; [lia|split; [|exact Hmap]].
      replace (i - idx)%nat with (S (i - S idx)) by lia. exact Hlk.
  - intros i sz' Hin.
    assert (Hin' : (In (EvUpscale i sz') evs1 \/ In (EvRecognizeRegion i sz') evs1) \/
                   (In (EvUpscale i sz') evs2 \/ In (EvRecognizeRegion i sz') evs2)).
    { destruct Hin as [Hin|Hin]; apply in_app_or in Hin; tauto. }
    destruct Hin' as [Hin'|Hin'].
    2:{ destruct (Hu2 i sz' Hin') as (b' & Hb). exists b'. apply in_or_app. auto. }
    destruct Hfirst as [->|(rest1 & -> & Hnd & Hmap & Hrest)]; [destruct Hin' as [[]|[]]|].
    exists b. left.
    destruct Hin' as [[Eq|Hin']|[Eq|Hin']]; try discriminate;
      destruct (Hrest _ Hin') as (sz'' & [Eq|Eq]); inversion Eq; subst; reflexivity.
Qed.

Lemma region_loop_run rec_im sx sy polys :
  forall idx lines s, exists r evs,
    region_loop rec_im sx sy idx polys lines s = (r, mkState (heap s) (trace s ++ evs)) /\
    loop_events (size rec_im) sx sy idx polys evs.
Proof.
  induction polys as [|poly rest IH]; intros idx lines s.
  - exists (Returns lines), []. cbn [region_loop]. unfold ret. rewrite state_eta.
    split; [reflexivity|apply loop_events_nil].
  - cbn [region_loop].
    destruct (process_region_run rec_im sx sy lines idx poly s) as (r1 & evs1 & b1 & E1 & H1).
    unfold bind. rewrite E1. destruct r1 as [lines'|e].
    + destruct (IH (S idx) lines' (mkState (heap s) (trace s ++ evs1))) as (r2 & evs2 & E2 & H2).
      cbn [heap trace] in E2. rewrite <- app_assoc in E2.
      exists r2, (evs1 ++ evs2). split; [exact E2|].
      exact (loop_events_cons _ _ _ _ _ _ _ _ _ H1 H2).
    + exists (Raises e), evs1. split; [reflexivity|].
      rewrite <- (app_nil_r evs1).
      exact (loop_events_cons _ _ _ _ _ _ _ _ _ H1 (loop_events_nil _ _ _ _ _)).
Qed.

(** C7. A scaled region whose clamped box has [x2 <= x1] or [y2 <= y1] is
    dropped without an error and without reaching the crop or the
    recogniser: the loop body returns the lines it was given and leaves the
    state as it was. Over a whole run of the loop, every crop is the
    non-degenerate box mapped from its polygon, and upscaling and
    recognition of a region only happen after its crop. *)
Theorem degenerate_regions_never_extracted :
  (forall rec_im sx sy lines idx poly xs ys x1 y1 x2 y2 s,
     (4 <= length poly)%nat ->
     scale_coords 0 sx poly = Returns xs ->
     scale_coords 1 sy poly = Returns ys ->
     region_box (width rec_im) (height rec_im) xs ys = Returns (x1, y1, x2, y2) ->
     x2 <= x1 \/ y2 <= y1 ->
     process_region rec_im sx sy lines idx poly s = (Returns lines, s)) /\
  (forall rec_im sx sy polys lines s, exists r evs,
     region_loop rec_im sx sy 0 polys lines s = (r, mkState (heap s) (trace s ++ evs)) /\
     loop_events (size rec_im) sx sy 0 polys evs).
Proof.
  split.
  - intros rec_im sx sy lines idx poly xs ys x1 y1 x2 y2 s Hlen Hxs Hys Hb Hdeg.
    unfold process_region.
    destruct poly as [|p poly']; [reflexivity|].
    apply Nat.leb_le in Hlen. rewrite Hlen, Hxs, Hys. cbn [obind].
    unfold bind, lift. rewrite Hb.
    replace ((x2 >? x1) && (y2 >? y1)) with false; [reflexivity|].
    symmetry. apply andb_false_iff.
    destruct Hdeg; [left|right]; rewrite Z.gtb_ltb; apply Z.ltb_ge; assumption.
  - intros. apply region_loop_run.
Qed.

(** *** The coordinate mapper *)

Lemma py_min_spec xs m :
  py_min xs = Returns m -> In m xs /\ forall x, In x xs -> m <= x.
Proof.
  destruct xs as [|x0 rest]; [discriminate|]. cbn [py_min]. intros Eq. injection Eq as <-.
  induction rest as [|y rest [IHin IHle]]; cbn [foldr].
  - split; [left; reflexivity|]. intros x [->|[]]. lia.
  - split.
    + destruct (Z.min_spec y (foldr Z.min x0 rest)) as [[_ ->]|[_ ->]].
      * right. left. reflexivity.
      * destruct IHin as [E|Hin]; [left; exact E|right; right; exact Hin].
    + intros x [<-|[<-|Hin]].
      * specialize (IHle x0 (or_introl eq_refl)). lia.
      * lia.
      * specialize (IHle x (or_intror Hin)). lia.
Qed.

Lemma py_max_spec xs m :
  py_max xs = Returns m -> In m xs /\ forall x, In x xs -> x <= m.
Proof.
  destruct xs as [|x0 rest]; [discriminate|]. cbn [py_max]. intros Eq. injection Eq as <-.
  induction rest as [|y rest [IHin IHle]]; cbn [foldr].
  - split; [left; reflexivity|]. intros x [->|[]]. lia.
  - split.
    + destruct (Z.max_spec y (foldr Z.max x0 rest)) as [[_ ->]|[_ ->]].
      * destruct IHin as [E|Hin]; [left; exact E|right; right; exact Hin].
      * right. left. reflexivity.
    + intros x [<-|[<-|Hin]].
      * specialize (IHle x0 (or_introl eq_refl)). lia.
      * lia.
      * specialize (IHle x (or_intror Hin)). lia.
Qed.

Lemma scale_coords_spec k sc poly : forall vs,
  scale_coords k sc poly = Returns vs ->
  Forall2 (fun p v => exists c, p !! k = Some c /\ Py.int_mul_float c sc = Returns v) poly vs.
Proof.
  induction poly as [|p rest IH]; intros vs; cbn [scale_coords].
  - intros Eq. injection Eq as <-. constructor.
  - destruct (p !! k) as [c|] eqn:Hc; [|discriminate].
    intros Eq. apply obind_returns_inv in Eq as (v & Hv & Eq).
    apply obind_returns_inv in Eq as (vs' & Hvs & Eq). injection Eq as <-.
    constructor; [exists c; auto|apply IH; exact Hvs].
Qed.

(** C8, as the code has it. A crop lower than 48 rows is resized to
    exactly 48 rows, and its new width is the float product
    [width * (48.0 / height)] cut to an integer by [int()], not rounded; it
    is never below the old width. A crop of 48 rows or more is handed on as
    it was cut. *)
Theorem crop_upscaled_by_truncation :
  forall rec_im idx x1 y1 x2 y2 s,
    let b : box := (x1, y1, x2, y2) in
    let crop := mkImg (x2 - x1) (y2 - y1) (crop_pixels rec_im b) in
    (1 <= y2 - y1 < 48 -> 1 <= x2 - x1 < 2 ^ 40 ->
     exists sc new_width,
       Py.lit_div_int 48 (y2 - y1) = Returns sc /\
       Py.int_mul_float (x2 - x1) sc = Returns new_width /\
       x2 - x1 <= new_width /\
       extract_region rec_im idx b s =
         (Returns (mkImg new_width 48 (resample BICUBIC crop (new_width, 48))),
          mkState (heap s) (trace s ++ [EvCrop idx b; EvUpscale idx (new_width, 48)]))) /\
    (48 <= y2 - y1 ->
     extract_region rec_im idx b s =
       (Returns crop, mkState (heap s) (trace s ++ [EvCrop idx b]))).
Proof.
  intros rec_im idx x1 y1 x2 y2 s b crop. split.
  - intros Hh Hw.
    destruct (scaled_up 48 47 40 (y2 - y1) (x2 - x1)) as (sc & nw & Hsc & Hnw & Hle);
      [apply scale_48_ok; lia|lia|lia|].
    exists sc, nw. split; [exact Hsc|split; [exact Hnw|split; [exact Hle|]]].
    unfold extract_region, b. rewrite (bind_returns _ _ _ _ _ (emit_run _ s)).
    cbn [height width].
    replace (y2 - y1 <? 48) with true by (symmetry; zcmp).
    unfold bind, lift. rewrite Hsc, Hnw, emit_run. cbn [heap trace].
    unfold pil_resize. cbn [fst snd].
    replace ((nw <? 1) || (48 <? 1)) with false
      by (symmetry; apply orb_false_iff; split; zcmp).
    rewrite <- app_assoc. reflexivity.
  - intros Hh. unfold extract_region, b.
    rewrite (bind_returns _ _ _ _ _ (emit_run _ s)). cbn [height width].
    replace (y2 - y1 <? 48) with false by (symmetry; zcmp).
    reflexivity.
Qed.

(** With boxes, step 4 maps every polygon by the ratios of the two views. *)
Lemma extract_lines_mapped detection_img processed_img poly polys s det_im rec_im sx sy :
  heap s !! detection_img = Some det_im ->
  heap s !! processed_img = Some rec_im ->
  Py.int_truediv (width rec_im) (width det_im) = Returns sx ->
  Py.int_truediv (height rec_im) (height det_im) = Returns sy ->
  exists r evs,
    extract_lines detection_img processed_img (Some (poly :: polys)) s
      = (r, mkState (heap s) (trace s ++ evs)) /\
    loop_events (size rec_im) sx sy 0 (poly :: polys) evs.
Proof.
  intros Hd Hp Hsx Hsy. cbn [extract_lines]. unfold bind, deref, lift. cbv beta.
  rewrite Hd, Hp, Hsx, Hsy. apply region_loop_run.
Qed.

(** *** Kept lines *)

Lemma lstrip_suffix t : exists pre, t = pre ++ lstrip t.
Proof.
  induction t as [|c t (pre & IH)]; [exists []; reflexivity|].
  cbn. destruct (is_space c); [|exists []; reflexivity].
  exists (c :: pre). cbn. rewrite <- IH. reflexivity.
Qed.

Lemma lstrip_head t c t' : lstrip t = c :: t' -> is_space c = false.
Proof.
  induction t as [|d t IH]; [discriminate|].
  cbn. destruct (is_space d) eqn:E; [exact IH|].
  intros Eq. injection Eq as <- _. exact E.
Qed.

Lemma lstrip_fixed c t : is_space c = false -> lstrip (c :: t) = c :: t.
Proof. intros E. cbn. rewrite E. reflexivity. Qed.

Lemma lstrip_idem t : lstrip (lstrip t) = lstrip t.
Proof.
  destruct (lstrip t) as [|c t'] eqn:E; [reflexivity|].
  apply lstrip_fixed. exact (lstrip_head _ _ _ E).
Qed.

Lemma strip_idem t : strip (strip t) = strip t.
Proof.
  unfold strip, rstrip.
  set (v := lstrip t).
  assert (Hv : lstrip (rev (lstrip (rev v))) = rev (lstrip (rev v))).
  { destruct (lstrip_suffix (rev v)) as (pre & Hpre).
    assert (Ev : v = rev (lstrip (rev v)) ++ rev pre).
    { rewrite <- rev_app_distr, <- Hpre, rev_involutive. reflexivity. }
    destruct (rev (lstrip (rev v))) as [|c u] eqn:Eu; [reflexivity|].
    apply lstrip_fixed. subst v.
    cbn in Ev. exact (lstrip_head _ _ _ Ev). }
  rewrite Hv, rev_involutive, lstrip_idem. reflexivity.
Qed.

Lemma keep_line_spec lines t :
  keep_line lines t = lines \/
  (keep_line lines t = lines ++ [strip t] /\ trimmed_line (strip t)).
Proof.
  unfold keep_line.
  destruct (negb (is_empty t) && negb (is_empty (strip t))) eqn:E; [right|left; reflexivity].
  split; [reflexivity|]. split; [|apply strip_idem].
  apply andb_true_iff in E as [_ E]. destruct (strip t); [discriminate|discriminate].
Qed.

(** Lines are only ever appended, one at most per region, each trimmed
    and non-empty. *)
Lemma process_region_lines rec_im sx sy lines idx poly s out s' :
  process_region rec_im sx sy lines idx poly s = (Returns out, s') ->
  exists kept, out = lines ++ kept /\ Forall trimmed_line kept /\ (length kept <= 1)%nat.
Proof.
  assert (Hsame : exists kept, lines = lines ++ kept /\ Forall trimmed_line kept /\ (length kept <= 1)%nat).
  { exists []. rewrite app_nil_r. repeat split; [constructor|cbn; lia]. }
  unfold process_region, bind, lift, ret, raise, run_predict.
  repeat case_match; intros Eq; simplify_eq; try exact Hsame.
  match goal with
  | |- context [keep_line lines ?t] =>
      destruct (keep_line_spec lines t) as [->|[-> Ht]]; [exact Hsame|]
  end.
  eexists; repeat split; [repeat constructor; apply Ht|cbn; lia].
Qed.

Lemma region_loop_lines rec_im sx sy polys :
  forall idx lines s out s',
    region_loop rec_im sx sy idx polys lines s = (Returns out, s') ->
    exists kept, out = lines ++ kept /\ Forall trimmed_line kept /\
      (length kept <= length polys)%nat.
Proof.
  induction polys as [|poly rest IH]; intros idx lines s out s'; cbn [region_loop].
  - unfold ret. intros Eq. simplify_eq. exists []. rewrite app_nil_r.
    repeat split; [constructor|cbn; lia].
  - unfold bind.
    destruct (process_region rec_im sx sy lines idx poly s) as [[lines'|e] s1] eqn:E1;
      [|discriminate].
    intros E2.
    destruct (process_region_lines _ _ _ _ _ _ _ _ _ E1) as (k1 & -> & Hk1 & Hl1).
    destruct (IH _ _ _ _ _ E2) as (k2 & -> & Hk2 & Hl2).
    exists (k1 ++ k2). rewrite <- app_assoc. split; [reflexivity|].
    split; [apply Forall_app; auto|]. rewrite length_app. cbn [length]. lia.
Qed.

(** *** The aggregator *)

Lemma silent_ret {A} (a : A) : silent (ret a).
Proof. intros s. reflexivity. Qed.

Lemma silent_raise {A} e : silent (raise e : M state A).
Proof. intros s. reflexivity. Qed.

Lemma silent_lift {A} (o : outcome A) : silent (lift o).
Proof. intros s. reflexivity. Qed.

Lemma silent_bind {A B} (m : M state A) (k : A -> M state B) :
  silent m -> (forall a, silent (k a)) -> silent (bind m k).
Proof.
  intros Hm Hk s. unfold bind. specialize (Hm s).
  destruct (m s) as [[a|e] s1]; cbn [snd] in *; [|exact Hm].
  rewrite (Hk a s1). exact Hm.
Qed.

Lemma silent_try {A} (m : M state A) (h : exn -> M state A) :
  silent m -> (forall e, silent (h e)) -> silent (try_except m h).
Proof.
  intros Hm Hh s. unfold try_except. specialize (Hm s).
  destruct (m s) as [[a|e] s1]; cbn [snd] in *; [exact Hm|].
  rewrite (Hh e s1). exact Hm.
Qed.

Lemma silent_deref l : silent (deref l).
Proof. intros s. unfold deref. destruct (heap s !! l); reflexivity. Qed.

Lemma silent_alloc im : silent (alloc im).
Proof. intros s. reflexivity. Qed.

Lemma silent_store l im : silent (store l im).
Proof. intros s. reflexivity. Qed.

Create HintDb silent.
#[local] Hint Resolve silent_ret silent_raise silent_lift silent_deref
  silent_alloc silent_store : silent.

Ltac silent_steps :=
  repeat first
    [ apply silent_bind; [|intros ?]
    | apply silent_try; [|intros ?]
    | solve [auto with silent]
    | match goal with |- silent (if ?c then _ else _) => destruct c end
    | match goal with |- silent (match ?c with _ => _ end) => destruct c end ].

Lemma smart_scale_silent img fd : silent (smart_scale img fd).
Proof.
  unfold smart_scale, pil_thumbnail, upscale_to. silent_steps.
Qed.

Lemma contrast_silent img : silent (contrast img).
Proof. unfold contrast. silent_steps. Qed.

Lemma preprocess_image_silent img fd : silent (preprocess_image img fd).
Proof.
  unfold preprocess_image.
  apply silent_try; [|auto with silent].
  apply silent_bind; [apply smart_scale_silent|intros img'].
  apply silent_try; [apply contrast_silent|auto with silent].
Qed.

(** [preprocess_image] never raises: its handler returns [img]. *)
Lemma preprocess_image_returns img fd s :
  exists out, (preprocess_image img fd s).1 = Returns out.
Proof.
  unfold preprocess_image, try_except, bind, ret.
  destruct (smart_scale img fd s) as [[img'|e] s1]; [|eauto].
  destruct (contrast img' s1) as [[out|e] s2]; eauto.
Qed.

Lemma whole_image_run processed_img s rec_im :
  heap s !! processed_img = Some rec_im ->
  whole_image processed_img s =
    (match predict rec_im with
     | Some t => Returns (keep_line [] t)
     | None => Raises LibraryError
     end, mkState (heap s) (trace s ++ [EvRecognizeWhole])).
Proof.
  intros Hl. unfold whole_image, bind, deref, run_predict. cbv beta. rewrite Hl.
  rewrite emit_run. destruct (predict rec_im); reflexivity.
Qed.

Lemma whole_image_any processed_img s :
  exists r evs,
    whole_image processed_img s = (r, mkState (heap s) (trace s ++ evs)) /\
    (whole_image_runs evs <= 1)%nat /\
    forall out, r = Returns out -> Forall trimmed_line out /\ (length out <= 1)%nat /\
      whole_image_runs evs = 1%nat.
Proof.
  destruct (heap s !! processed_img) as [rec_im|] eqn:Hl.
  - rewrite (whole_image_run _ _ _ Hl). eexists _, _. split; [reflexivity|].
    split; [cbn; lia|]. intros out Eq.
    destruct (predict rec_im) as [t|]; [|discriminate]. injection Eq as <-.
    destruct (keep_line_spec [] t) as [->|[-> Ht]]; cbn;
      repeat split; try lia; repeat constructor; apply Ht.
  - exists (Raises LibraryError), []. unfold whole_image, bind, deref. cbv beta. rewrite Hl.
    rewrite state_eta. split; [reflexivity|]. split; [cbn; lia|]. discriminate.
Qed.

(** Step 4 as a whole: which branch runs is decided by the boxes alone. *)
Lemma extract_lines_run detection_img processed_img boxes s :
  exists r evs,
    extract_lines detection_img processed_img boxes s
      = (r, mkState (heap s) (trace s ++ evs)) /\
    (whole_image_runs evs <= 1)%nat /\
    (forall p ps, boxes = Some (p :: ps) -> whole_image_runs evs = 0%nat) /\
    forall out, r = Returns out ->
      Forall trimmed_line out /\
      match boxes with
      | Some (p :: ps) => (length out <= length (p :: ps))%nat
      | _ => (length out <= 1)%nat /\ whole_image_runs evs = 1%nat
      end.
Proof.
  assert (Hfb : (boxes = None \/ boxes = Some []) -> exists r evs,
    whole_image processed_img s = (r, mkState (heap s) (trace s ++ evs)) /\
    (whole_image_runs evs <= 1)%nat /\
    (forall p ps, boxes = Some (p :: ps) -> whole_image_runs evs = 0%nat) /\
    forall out, r = Returns out ->
      Forall trimmed_line out /\
      match boxes with
      | Some (p :: ps) => (length out <= length (p :: ps))%nat
      | _ => (length out <= 1)%nat /\ whole_image_runs evs = 1%nat
      end).
  { intros Hb. destruct (whole_image_any processed_img s) as (r & evs & E & Hle & Hout).
    exists r, evs. split; [exact E|split; [exact Hle|split]].
    - intros p ps ->. destruct Hb; discriminate.
    - intros out Eq. destruct (Hout out Eq) as (? & ? & ?).
      destruct Hb as [-> | ->]; auto. }
  destruct boxes as [[|p ps]|]; cbn [extract_lines]; [apply Hfb; auto| |apply Hfb; auto].
  assert (Hraise : forall e, exists (r : outcome (list text)) evs,
    (Raises e, s) = (r, mkState (heap s) (trace s ++ evs)) /\
    (whole_image_runs evs <= 1)%nat /\
    (forall p0 ps0, Some (p :: ps) = Some (p0 :: ps0) -> whole_image_runs evs = 0%nat) /\
    forall out, r = Returns out ->
      Forall trimmed_line out /\ (length out <= length (p :: ps))%nat).
  { intros e. exists (Raises e), []. rewrite state_eta.
    split; [reflexivity|split; [cbn; lia|split; [reflexivity|discriminate]]]. }
  unfold bind, deref, lift. cbv beta.
  destruct (heap s !! detection_img) as [det_im|]; [|apply Hraise].
  destruct (heap s !! processed_img) as [rec_im|]; [|apply Hraise].
  destruct (Py.int_truediv (width rec_im) (width det_im)) as [sx|e]; [|apply Hraise].
  destruct (Py.int_truediv (height rec_im) (height det_im)) as [sy|e]; [|apply Hraise].
  destruct (region_loop_run rec_im sx sy (p :: ps) 0%nat [] s) as (r & evs & E & _ & _ & Hw).
  exists r, evs. split; [exact E|]. split; [lia|]. split; [intros; exact Hw|].
  intros out ->.
  destruct (region_loop_lines _ _ _ _ _ _ _ _ _ E) as (kept & -> & Hk & Hl).
  split; assumption.
Qed.

Lemma silent_run {A} (m : M state A) s r s' :
  silent m -> m s = (r, s') -> trace s' = trace s.
Proof. intros Hm E. specialize (Hm s). rewrite E in Hm. exact Hm. Qed.

Lemma views_silent img : silent (views img).
Proof.
  unfold views. apply silent_bind; [apply preprocess_image_silent|intros d].
  apply silent_bind; [apply preprocess_image_silent|intros p]. apply silent_ret.
Qed.

Lemma detect_silent d p : silent (detect d p).
Proof.
  unfold detect. repeat (apply silent_bind; [auto with silent|intros ?]).
  apply silent_ret.
Qed.

(** The two views are always there: [preprocess_image] has a handler. *)
Lemma views_returns img s : exists d p, (views img s).1 = Returns (d, p).
Proof.
  unfold views, bind.
  destruct (preprocess_image_returns img true s) as (d & Ed).
  destruct (preprocess_image img true s) as [r1 s1]. cbn in Ed. subst r1.
  destruct (preprocess_image_returns img false s1) as (p & Ep).
  destruct (preprocess_image img false s1) as [r2 s2]. cbn in Ep. subst r2.
  exists d, p. reflexivity.
Qed.

(** What a run of steps 4 and 5 logs and returns. *)
Lemma recognise_run d p boxes s r s' :
  recognise d p boxes s = (r, s') ->
  exists evs, s' = mkState (heap s) (trace s ++ evs) /\ (whole_image_runs evs <= 1)%nat /\
    forall res, r = Returns res ->
      regions_detected res = length (kept_lines res) /\
      text_field res = join_lines (kept_lines res) /\
      Forall trimmed_line (kept_lines res) /\
      (whole_image_runs evs = 0%nat -> (regions_detected res <= boxes_detected res)%nat) /\
      (whole_image_runs evs = 1%nat -> (regions_detected res <= 1)%nat).
Proof.
  unfold recognise, bind.
  destruct (extract_lines_run d p boxes s) as (r4 & evs & E5 & Hle & Hno & Hout).
  rewrite E5. destruct r4 as [lines|e]; unfold ret; intros Eq; simplify_eq.
  2:{ exists evs. split; [reflexivity|split; [exact Hle|discriminate]]. }
  exists evs. split; [reflexivity|split; [exact Hle|]].
  intros res Eq. simplify_eq. cbn.
  destruct (Hout lines eq_refl) as (Htrim & Hlen).
  repeat split; try assumption.
  - intros Hz. destruct boxes as [[|q qs]|]; lia.
  - intros Ho. destruct boxes as [[|q qs]|]; [lia| |lia].
    rewrite (Hno q qs eq_refl) in Ho. discriminate.
Qed.

(** The route on a request whose image decodes, step by step. *)
Lemma ocr_decoded data im s :
  data <> EmptyString -> decode_image data = Some im ->
  ocr (Json (Some data)) s =
    match views (length (heap s)) (mkState (heap s ++ [im]) (trace s)) with
    | (Returns (d, p), s1) =>
        match detect d p s1 with
        | (Returns (boxes, traceback_bound), s2) =>
            match recognise d p boxes s2 with
            | (Returns res, s3) => (Returns (Resp200 res), s3)
            | (Raises e, s3) => on_error traceback_bound e s3
            end
        | (Raises e, s2) => (Raises UnboundLocalError, s2)
        end
    | (Raises e, s1) => (Raises UnboundLocalError, s1)
    end.
Proof.
  intros Hd Hi. destruct data as [|c data]; [congruence|].
  cbn [ocr]. rewrite Hi.
  unfold try_except at 1, bind at 1, alloc at 1. unfold bind at 1.
  destruct (views _ _) as [[[d p]|e] s1]; [|reflexivity].
  unfold bind at 1.
  destruct (detect d p s1) as [[[boxes tb]|e] s2]; [|reflexivity].
  unfold try_except, bind, ret.
  destruct (recognise d p boxes s2) as [[res|e] s3]; [reflexivity|].
  unfold on_error, ret, raise. destruct tb; reflexivity.
Qed.

Lemma ocr_run req s r s' :
  ocr req s = (r, s') ->
  exists evs, trace s' = trace s ++ evs /\ (whole_image_runs evs <= 1)%nat /\
    forall res, r = Returns (Resp200 res) ->
      regions_detected res = length (kept_lines res) /\
      text_field res = join_lines (kept_lines res) /\
      Forall trimmed_line (kept_lines res) /\
      (whole_image_runs evs = 0%nat -> (regions_detected res <= boxes_detected res)%nat) /\
      (whole_image_runs evs = 1%nat -> (regions_detected res <= 1)%nat).
Proof.
  assert (Hquiet : forall (o : outcome response) s1, trace s1 = trace s ->
    (forall res, o <> Returns (Resp200 res)) ->
    exists evs, trace s1 = trace s ++ evs /\ (whole_image_runs evs <= 1)%nat /\
    forall res, o = Returns (Resp200 res) ->
      regions_detected res = length (kept_lines res) /\
      text_field res = join_lines (kept_lines res) /\
      Forall trimmed_line (kept_lines res) /\
      (whole_image_runs evs = 0%nat -> (regions_detected res <= boxes_detected res)%nat) /\
      (whole_image_runs evs = 1%nat -> (regions_detected res <= 1)%nat)).
  { intros o s1 Ht Ho. exists []. rewrite app_nil_r.
    split; [exact Ht|split; [cbn; lia|]]. intros res Eq. destruct (Ho res Eq). }
  destruct req as [| |[d|]|detail];
    try (cbn [ocr]; unfold on_error, ret, raise; intros Eq; simplify_eq;
         apply Hquiet; [reflexivity|discriminate]).
  destruct (string_dec d EmptyString) as [->|Hd];
    [cbn [ocr]; unfold ret; intros Eq; simplify_eq; apply Hquiet; [reflexivity|discriminate]|].
  destruct (decode_image d) as [im|] eqn:Hi.
  2:{ destruct d as [|c d]; [congruence|]. cbn [ocr]. rewrite Hi.
      unfold ret; intros Eq; simplify_eq; apply Hquiet; [reflexivity|discriminate]. }
  rewrite (ocr_decoded _ _ _ Hd Hi).
  destruct (views _ _) as [[[dl pl]|e] s1] eqn:E1;
    pose proof (silent_run _ _ _ _ (views_silent _) E1) as T1; cbn [trace] in T1.
  2:{ intros Eq; simplify_eq. apply Hquiet; [exact T1|discriminate]. }
  destruct (detect dl pl s1) as [[[boxes tb]|e] s2] eqn:E2;
    pose proof (silent_run _ _ _ _ (detect_silent _ _) E2) as T2.
  2:{ intros Eq; simplify_eq. apply Hquiet; [congruence|discriminate]. }
  destruct (recognise dl pl boxes s2) as [[res|e] s3] eqn:E3;
    destruct (recognise_run _ _ _ _ _ _ E3) as (evs & -> & Hle & Hres); cbn [trace].
  - intros Eq; simplify_eq. exists evs.
    split; [cbn [trace]; rewrite T2, T1; reflexivity|split; [exact Hle|]].
    intros res' Eq. simplify_eq. apply Hres. reflexivity.
  - unfold on_error, ret, raise. destruct tb; intros Eq; simplify_eq; exists evs;
      (split; [cbn [trace]; rewrite T2, T1; reflexivity|split; [exact Hle|discriminate]]).
Qed.

(** *** The kept lines and the texts of the recogniser *)

Lemma keep_line_trimmed lines t : keep_line lines t = lines ++ nonempty_trimmed [t].
Proof.
  unfold keep_line, nonempty_trimmed. cbn [map List.filter].
  destruct t as [|c t]; [cbn; rewrite app_nil_r; reflexivity|].
  cbn [is_empty negb andb].
  destruct (is_empty (strip (c :: t))); cbn [negb]; [rewrite app_nil_r|]; reflexivity.
Qed.

Lemma nonempty_trimmed_app (l1 l2 : list text) :
  nonempty_trimmed (l1 ++ l2) = nonempty_trimmed l1 ++ nonempty_trimmed l2.
Proof. unfold nonempty_trimmed. rewrite map_app, List.filter_app. reflexivity. Qed.

Lemma returned_cons r rs : returned (r :: rs) = returned [r] ++ returned rs.
Proof. destruct r; reflexivity. Qed.

(** The crop of a box does not depend on the index or on the state. *)
Lemma extract_region_result rec_im b idx s idx' s' :
  (extract_region rec_im idx' b s').1 = (extract_region rec_im idx b s).1.
Proof.
  destruct b as [[[x1 y1] x2] y2]. unfold extract_region, bind, emit, lift, ret.
  cbn [height width].
  destruct (y2 - y1 <? 48); [|reflexivity].
  destruct (Py.lit_div_int 48 (y2 - y1)); [|reflexivity].
  destruct (Py.int_mul_float (x2 - x1) _); reflexivity.
Qed.

(** One polygon, from the run to the reading. *)
Lemma process_region_reading rec_im sx sy lines idx poly s out s' :
  process_region rec_im sx sy lines idx poly s = (Returns out, s') ->
  exists reading, region_reading rec_im sx sy poly reading /\
    out = lines ++ nonempty_trimmed (returned [reading]).
Proof.
  assert (Hskip : forall P : Prop, P -> region_reading rec_im sx sy poly None -> 
            exists reading, region_reading rec_im sx sy poly reading /\
              lines = lines ++ nonempty_trimmed (returned [reading])).
  { intros P _ Hr. exists None. split; [exact Hr|]. cbn. rewrite app_nil_r. reflexivity. }
  unfold process_region.
  destruct poly as [|q poly'] eqn:Epoly.
  { unfold ret. intros Eq. simplify_eq. apply (Hskip True I). left. cbn. lia. }
  rewrite <- Epoly in *. clear Epoly q poly'.
  destruct (4 <=? length poly)%nat eqn:E4.
  2:{ unfold ret. intros Eq. simplify_eq. apply (Hskip True I). left.
      apply Nat.leb_gt in E4. exact E4. }
  apply Nat.leb_le in E4.
  destruct (scale_coords 0 sx poly) as [xs|e] eqn:Ex; cbn [obind].
  2:{ destruct e; unfold ret, raise; intros Eq; simplify_eq;
        apply (Hskip True I); right; left; eexists; (split; [|left; exact Ex]);
        unfold caught; auto. }
  destruct (scale_coords 1 sy poly) as [ys|e] eqn:Ey; cbn [obind].
  2:{ destruct e; unfold ret, raise; intros Eq; simplify_eq;
        apply (Hskip True I); right; left; eexists;
        (split; [|right; exists xs; split; [exact Ex|exact Ey]]); unfold caught; auto. }
  unfold bind at 1, lift at 1.
  destruct (region_box (width rec_im) (height rec_im) xs ys) as [b|e] eqn:Eb; [|discriminate].
  assert (Hmap : mapped_from (size rec_im) sx sy poly b).
  { exists xs, ys. repeat split; assumption. }
  destruct b as [[[x1 y1] x2] y2].
  destruct ((x2 >? x1) && (y2 >? y1)) eqn:Et.
  2:{ unfold ret. intros Eq. simplify_eq. apply (Hskip True I). right; right.
      exists (x1, y1, x2, y2). split; [exact Hmap|]. intros [? ?].
      apply andb_false_iff in Et as [Et|Et]; rewrite Z.gtb_ltb in Et;
        apply Z.ltb_ge in Et; lia. }
  apply andb_true_iff in Et as [Ex1 Ey1]. rewrite Z.gtb_ltb in Ex1, Ey1.
  apply Z.ltb_lt in Ex1, Ey1.
  unfold bind at 1.
  destruct (extract_region rec_im idx (x1, y1, x2, y2) s) as [[crop|e] s1] eqn:Ec;
    [|discriminate].
  unfold bind, emit, run_predict.
  destruct (predict crop) as [t|] eqn:Ep; unfold ret, raise; [|discriminate].
  intros Eq. simplify_eq. exists (Some t). split.
  - exists (x1, y1, x2, y2), crop. split; [exact Hmap|]. split; [split; assumption|].
    split; [|exact Ep]. intros idx' s''.
    rewrite (extract_region_result rec_im (x1, y1, x2, y2) idx s idx' s''), Ec. reflexivity.
  - cbn [returned]. apply keep_line_trimmed.
Qed.

(** One polygon, from the reading to the run. *)
Lemma process_region_of_reading rec_im sx sy lines idx poly reading s :
  region_reading rec_im sx sy poly reading ->
  exists evs,
    process_region rec_im sx sy lines idx poly s
      = (Returns (lines ++ nonempty_trimmed (returned [reading])),
         mkState (heap s) (trace s ++ evs)).
Proof.
  assert (Hskip : exists evs,
    (Returns lines, s) = (Returns (lines ++ nonempty_trimmed (returned [None])),
                          mkState (heap s) (trace s ++ evs))).
  { exists []. cbn. rewrite app_nil_r, state_eta. reflexivity. }
  unfold process_region.
  destruct reading as [t|]; cbn [region_reading].
  - intros (b & crop & (xs & ys & H4 & Hx & Hy & Hb) & Hnd & Hcrop & Hp).
    destruct poly as [|q poly'] eqn:Epoly; [cbn in H4; lia|].
    rewrite <- Epoly in *. clear Epoly q poly'.
    apply Nat.leb_le in H4. rewrite H4, Hx, Hy. cbn [obind].
    unfold bind at 1, lift at 1. cbn [fst snd size] in Hb. rewrite Hb.
    destruct b as [[[x1 y1] x2] y2]. destruct Hnd as [Hx1 Hy1].
    assert (Et : (x2 >? x1) && (y2 >? y1) = true).
    { apply andb_true_iff. rewrite !Z.gtb_ltb. split; apply Z.ltb_lt; assumption. }
    rewrite Et.
    destruct (extract_region_run rec_im idx (x1, y1, x2, y2) s) as (r & rest & Ec & _).
    specialize (Hcrop idx s). rewrite Ec in Hcrop. cbn [fst] in Hcrop. subst r.
    unfold bind at 1. rewrite Ec.
    unfold bind, emit, run_predict. cbn [heap trace]. rewrite Hp. unfold ret.
    eexists. cbn [returned]. rewrite keep_line_trimmed, <- !app_assoc. reflexivity.
  - intros [Hlt|[(e & Hc & He)|(b & (xs & ys & H4 & Hx & Hy & Hb) & Hnd)]].
    + destruct poly as [|q poly'] eqn:Epoly; [exact Hskip|].
      rewrite <- Epoly in *. apply Nat.leb_gt in Hlt. rewrite Hlt. exact Hskip.
    + destruct poly as [|q poly'] eqn:Epoly; [exact Hskip|].
      rewrite <- Epoly in *. clear Epoly q poly'.
      destruct (4 <=? length poly)%nat; [|exact Hskip].
      destruct He as [He|(xs & Hx & He)]; [rewrite He|rewrite Hx, He]; cbn [obind];
        destruct Hc as [->|[->| ->]]; exact Hskip.
    + destruct poly as [|q poly'] eqn:Epoly; [exact Hskip|].
      rewrite <- Epoly in *. clear Epoly q poly'.
      apply Nat.leb_le in H4. rewrite H4, Hx, Hy. cbn [obind].
      unfold bind at 1, lift at 1. cbn [fst snd size] in Hb. rewrite Hb.
      destruct b as [[[x1 y1] x2] y2].
      assert (Et : (x2 >? x1) && (y2 >? y1) = false).
      { apply andb_false_iff. rewrite !Z.gtb_ltb.
        destruct (Z.ltb_spec x1 x2); [|left; reflexivity].
        destruct (Z.ltb_spec y1 y2); [|right; reflexivity].
        destruct Hnd. split; assumption. }
      rewrite Et. exact Hskip.
Qed.

Lemma region_loop_readings rec_im sx sy polys :
  forall idx lines s out s',
    region_loop rec_im sx sy idx polys lines s = (Returns out, s') ->
    exists readings, Forall2 (region_reading rec_im sx sy) polys readings /\
      out = lines ++ nonempty_trimmed (returned readings).
Proof.
  induction polys as [|poly rest IH]; intros idx lines s out s'; cbn [region_loop].
  - unfold ret. intros Eq. simplify_eq. exists []. split; [constructor|].
    cbn. rewrite app_nil_r. reflexivity.
  - unfold bind.
    destruct (process_region rec_im sx sy lines idx poly s) as [[lines'|e] s1] eqn:E1;
      [|discriminate].
    intros E2.
    destruct (process_region_reading _ _ _ _ _ _ _ _ _ E1) as (r & Hr & ->).
    destruct (IH _ _ _ _ _ E2) as (rs & Hrs & ->).
    exists (r :: rs). split; [constructor; assumption|].
    rewrite (returned_cons r rs), nonempty_trimmed_app, app_assoc. reflexivity.
Qed.

Lemma region_loop_of_readings rec_im sx sy polys readings :
  Forall2 (region_reading rec_im sx sy) polys readings ->
  forall idx lines s, exists evs,
    region_loop rec_im sx sy idx polys lines s
      = (Returns (lines ++ nonempty_trimmed (returned readings)),
         mkState (heap s) (trace s ++ evs)).
Proof.
  induction 1 as [|poly r polys rs Hr _ IH]; intros idx lines s; cbn [region_loop].
  - exists []. unfold ret. cbn. rewrite app_nil_r, state_eta. reflexivity.
  - destruct (process_region_of_reading rec_im sx sy lines idx poly r s Hr) as (evs1 & E1).
    unfold bind. rewrite E1.
    destruct (IH (S idx) (lines ++ nonempty_trimmed (returned [r]))
                (mkState (heap s) (trace s ++ evs1))) as (evs2 & E2).
    rewrite E2. cbn [heap trace]. exists (evs1 ++ evs2).
    rewrite (returned_cons r rs), nonempty_trimmed_app, !app_assoc. reflexivity.
Qed.

(** Step 3 reads the two views and leaves the state alone. *)
Lemma detect_inv d p s boxes tb s' :
  detect d p s = (Returns (boxes, tb), s') ->
  s' = s /\ exists det_im rec_im, heap s !! d = Some det_im /\ heap s !! p = Some rec_im.
Proof.
  unfold detect, bind, deref, lift, ret.
  destruct (heap s !! d) as [det_im|]; [|discriminate].
  destruct (preprocess_for_detection det_im); [|discriminate].
  destruct (heap s !! p) as [rec_im|]; [|discriminate].
  destruct (plain_bgr rec_im); [|discriminate].
  intros Eq. simplify_eq. eauto.
Qed.

(** Steps 4 and 5, from the answer to the texts of the recogniser. *)
Lemma recognise_readings d p boxes s det_im rec_im res s' :
  heap s !! d = Some det_im -> heap s !! p = Some rec_im ->
  recognise d p boxes s = (Returns res, s') ->
  exists texts, recogniser_returned det_im rec_im boxes texts /\
    res = answer_of_lines boxes (nonempty_trimmed texts).
Proof.
  intros Hd Hp. unfold recognise, bind at 1.
  destruct (extract_lines d p boxes s) as [[lines|e] s1] eqn:E; [|discriminate].
  unfold ret. intros Eq. simplify_eq.
  assert (Hfb : whole_image p s = (Returns lines, s') ->
            exists t, predict rec_im = Some t /\ lines = nonempty_trimmed [t]).
  { rewrite (whole_image_run _ _ _ Hp). destruct (predict rec_im) as [t|]; [|discriminate].
    intros Eq. simplify_eq. exists t. split; [reflexivity|]. apply keep_line_trimmed. }
  destruct boxes as [[|poly polys]|]; cbn [extract_lines] in E.
  - destruct (Hfb E) as (t & Ht & ->). exists [t]. split; [exists t; auto|reflexivity].
  - unfold bind, deref, lift in E. cbv beta in E. rewrite Hd, Hp in E.
    destruct (Py.int_truediv (width rec_im) (width det_im)) as [sx|e] eqn:Ex; [|discriminate].
    destruct (Py.int_truediv (height rec_im) (height det_im)) as [sy|e] eqn:Ey; [|discriminate].
    destruct (region_loop_readings _ _ _ _ _ _ _ _ _ E) as (readings & Hr & ->).
    exists (returned readings). split; [|reflexivity].
    exists sx, sy, readings. auto.
  - destruct (Hfb E) as (t & Ht & ->). exists [t]. split; [exists t; auto|reflexivity].
Qed.

(** Steps 4 and 5, from the texts of the recogniser to the answer. *)
Lemma recognise_of_readings d p boxes s det_im rec_im texts :
  heap s !! d = Some det_im -> heap s !! p = Some rec_im ->
  recogniser_returned det_im rec_im boxes texts ->
  exists evs,
    recognise d p boxes s
      = (Returns (answer_of_lines boxes (nonempty_trimmed texts)),
         mkState (heap s) (trace s ++ evs)).
Proof.
  intros Hd Hp Hr. unfold recognise, bind at 1.
  assert (Hfb : (exists t, predict rec_im = Some t /\ texts = [t]) -> exists evs,
            whole_image p s = (Returns (nonempty_trimmed texts),
                               mkState (heap s) (trace s ++ evs))).
  { intros (t & Ht & ->). rewrite (whole_image_run _ _ _ Hp), Ht.
    exists [EvRecognizeWhole]. rewrite keep_line_trimmed. reflexivity. }
  destruct boxes as [[|poly polys]|]; cbn [extract_lines recogniser_returned] in *.
  - destruct (Hfb Hr) as (evs & ->). exists evs. reflexivity.
  - destruct Hr as (sx & sy & readings & Ex & Ey & Hr & ->).
    unfold bind, deref, lift. cbv beta. rewrite Hd, Hp, Ex, Ey.
    destruct (region_loop_of_readings _ _ _ _ _ Hr 0%nat [] s) as (evs & ->).
    exists evs. reflexivity.
  - destruct (Hfb Hr) as (evs & ->). exists evs. reflexivity.
Qed.

(** Every 200 answer is made of the texts the recogniser returned. *)
Lemma ocr_answer_readings req s res s' :
  ocr req s = (Returns (Resp200 res), s') ->
  exists det_im rec_im boxes texts,
    detected req s det_im rec_im boxes /\
    recogniser_returned det_im rec_im boxes texts /\
    res = answer_of_lines boxes (nonempty_trimmed texts).
Proof.
  destruct req as [| |[d|]|detail];
    try (cbn [ocr]; unfold on_error, ret, raise; discriminate).
  destruct (string_dec d EmptyString) as [->|Hne]; [cbn [ocr]; unfold ret; discriminate|].
  destruct (decode_image d) as [im|] eqn:Hi.
  2:{ destruct d as [|c d]; [congruence|]. cbn [ocr]. rewrite Hi. unfold ret. discriminate. }
  rewrite (ocr_decoded _ _ _ Hne Hi).
  destruct (views _ _) as [[[dl pl]|e] s1] eqn:E1; [|discriminate].
  destruct (detect dl pl s1) as [[[boxes tb]|e] s2] eqn:E2; [|discriminate].
  destruct (detect_inv _ _ _ _ _ _ E2) as (Es & det_im & rec_im & Hd & Hp). subst s2.
  destruct (recognise dl pl boxes s1) as [[res'|e] s3] eqn:E3.
  2:{ unfold on_error, ret, raise. destruct tb; discriminate. }
  intros Eq. simplify_eq.
  destruct (recognise_readings _ _ _ _ _ _ _ _ Hd Hp E3) as (texts & Hr & ->).
  exists det_im, rec_im, boxes, texts. split; [|split; [exact Hr|reflexivity]].
  exists d, im, dl, pl, s1, tb. repeat split; assumption.
Qed.

(** The texts the recogniser returns make a 200 answer. *)
Lemma ocr_of_readings req s det_im rec_im boxes texts :
  detected req s det_im rec_im boxes ->
  recogniser_returned det_im rec_im boxes texts ->
  exists s', ocr req s
    = (Returns (Resp200 (answer_of_lines boxes (nonempty_trimmed texts))), s').
Proof.
  intros (d & im & dl & pl & s1 & tb & -> & Hne & Hi & E1 & Hd & Hp & E2) Hr.
  rewrite (ocr_decoded _ _ _ Hne Hi), E1, E2.
  destruct (recognise_of_readings dl pl boxes s1 det_im rec_im texts Hd Hp Hr) as (evs & ->).
  eexists. reflexivity.
Qed.

(** C2, as the code has it. The whole-image recognition of step 4 runs
    exactly once, and its trimmed result (possibly nothing) is the list of
    lines, when the detector gave no usable box: [boxes_pages] is [None]
    (detection raised or found nothing) or its page is empty. When there is
    at least one box it does not run at all, whatever the regions read.
    Over a whole request it runs at most once. *)
Theorem fallback_only_without_boxes :
  (forall detection_img processed_img boxes s rec_im,
     heap s !! processed_img = Some rec_im ->
     boxes = None \/ boxes = Some [] ->
     extract_lines detection_img processed_img boxes s =
       (match predict rec_im with
        | Some t => Returns (keep_line [] t)
        | None => Raises LibraryError
        end, mkState (heap s) (trace s ++ [EvRecognizeWhole]))) /\
  (forall detection_img processed_img poly polys s, exists r evs,
     extract_lines detection_img processed_img (Some (poly :: polys)) s
       = (r, mkState (heap s) (trace s ++ evs)) /\
     whole_image_runs evs = 0%nat) /\
  (forall req s, exists evs,
     trace (ocr req s).2 = trace s ++ evs /\ (whole_image_runs evs <= 1)%nat).
Proof.
  split; [|split].
  - intros d p boxes s rec_im Hl [-> | ->]; cbn [extract_lines];
      apply whole_image_run; exact Hl.
  - intros d p poly polys s.
    destruct (extract_lines_run d p (Some (poly :: polys)) s) as (r & evs & E & _ & Hno & _).
    exists r, evs. split; [exact E|]. exact (Hno poly polys eq_refl).
  - intros req s. destruct (ocr req s) as [r s'] eqn:E.
    destruct (ocr_run _ _ _ _ E) as (evs & Ht & Hle & _).
    exists evs. split; assumption.
Qed.

(** *** The normalizer *)


Lemma contrast_step img' im1 s :
  heap s !! img' = Some im1 ->
  try_except (contrast img') (fun _ => ret img') s =
    match enhance im1 with
    | Some px => (Returns (length (heap s)),
                  mkState (heap s ++ [mkImg (width im1) (height im1) px]) (trace s))
    | None => (Returns img', s)
    end.
Proof.
  intros Hl. unfold try_except, contrast, bind, deref. cbv beta. rewrite Hl.
  destruct (enhance im1); reflexivity.
Qed.

(** After the contrast step on [img'], the result is an image of the size
    of [img'], and every object of the heap is as it was. *)
Lemma contrast_step_result img' im1 s :
  heap s !! img' = Some im1 ->
  exists out s' im',
    try_except (contrast img') (fun _ => ret img') s = (Returns out, s') /\
    heap s' !! out = Some im' /\ size im' = size im1 /\ trace s' = trace s /\
    forall l x, heap s !! l = Some x -> heap s' !! l = Some x.
Proof.
  intros Hl. rewrite (contrast_step _ _ _ Hl).
  destruct (enhance im1) as [px|].
  - eexists _, _, _. split; [reflexivity|]. cbn [heap trace].
    split; [apply list_lookup_middle; reflexivity|].
    split; [reflexivity|]. split; [reflexivity|].
    intros l x Hx. apply lookup_app_l_Some. exact Hx.
  - exists img', s, im1. auto.
Qed.

Lemma run_preprocess img fd s img' s1 :
  smart_scale img fd s = (Returns img', s1) ->
  preprocess_image img fd s = try_except (contrast img') (fun _ => ret img') s1.
Proof.
  intros E. unfold preprocess_image, try_except at 1, bind at 1. rewrite E.
  unfold try_except. destruct (contrast img' s1) as [[o|e] s2]; reflexivity.
Qed.

(** No resize between the two thresholds. *)
Lemma smart_scale_identity img fd s im :
  heap s !! img = Some im ->
  (if fd then 2000 else 1200) <= max_side im <= (if fd then 5000 else 4000) ->
  smart_scale img fd s = (Returns img, s).
Proof.
  intros Hl Hm. unfold smart_scale, bind, deref. cbv beta. rewrite Hl.
  destruct fd.
  - replace (max_side im >? 5000) with false by (symmetry; zcmp).
    replace (max_side im <? 2000) with false by (symmetry; zcmp).
    reflexivity.
  - replace (max_side im >? 4000) with false by (symmetry; zcmp).
    replace (max_side im <? 1200) with false by (symmetry; zcmp).
    reflexivity.
Qed.

(** Above the upper threshold the object [img] itself is resized. *)
Lemma smart_scale_thumbnail img fd s im :
  heap s !! img = Some im ->
  (if fd then 5000 else 4000) < max_side im ->
  let bx : Z * Z := if fd then (3200, 3200) else (2400, 2400) in
  let sz := thumbnail_size (size im) bx in
  smart_scale img fd s =
    (Returns img,
     mkState (<[img := mkImg sz.1 sz.2 (resample LANCZOS im sz)]> (heap s)) (trace s)).
Proof.
  intros Hl Hm bx sz. unfold smart_scale, bind, deref, pil_thumbnail.
  cbv beta. rewrite Hl. unfold max_side in Hm.
  destruct fd; cbv beta.
  - replace (max_side im >? 5000) with true
      by (symmetry; unfold max_side; zcmp).
    unfold bind, deref. cbv beta. rewrite Hl. cbn [fst snd].
    replace ((width im <=? 3200) && (height im <=? 3200)) with false; [reflexivity|].
    symmetry. apply andb_false_iff.
    destruct (Z.max_spec (width im) (height im)) as [[_ E]|[_ E]];
      [right|left]; apply Z.leb_gt; lia.
  - replace (max_side im >? 4000) with true
      by (symmetry; unfold max_side; zcmp).
    unfold bind, deref. cbv beta. rewrite Hl. cbn [fst snd].
    replace ((width im <=? 2400) && (height im <=? 2400)) with false; [reflexivity|].
    symmetry. apply andb_false_iff.
    destruct (Z.max_spec (width im) (height im)) as [[_ E]|[_ E]];
      [right|left]; apply Z.leb_gt; lia.
Qed.

(** Below 2000 pixels, detection mode resizes into a new object whose
    longer side is 2399 or 2400. *)
Lemma smart_scale_upscale_detection img s im :
  heap s !! img = Some im ->
  1 <= width im -> 1 <= height im -> max_side im < 2000 ->
  exists nw nh,
    smart_scale img true s =
      (Returns (length (heap s)),
       mkState (heap s ++ [mkImg nw nh (resample LANCZOS im (nw, nh))]) (trace s)) /\
    width im <= nw <= 2400 /\ height im <= nh <= 2400 /\ 2399 <= Z.max nw nh.
Proof.
  intros Hl Hw Hh Hm. unfold max_side in Hm.
  assert (Hok : scale_ok 2400 2399 11 (max_side im) = true)
    by (apply scale_2400_ok; unfold max_side; lia).
  destruct (scaled_side 2400 2399 11 (max_side im) (width im) Hok) as (sc & nw & Hsc & Hnw & Hbw & Hlw);
    [lia|unfold max_side; lia|change (2 ^ 11) with 2048; lia|].
  destruct (scaled_side 2400 2399 11 (max_side im) (height im) Hok) as (sc' & nh & Hsc' & Hnh & Hbh & Hlh);
    [lia|unfold max_side; lia|change (2 ^ 11) with 2048; lia|].
  rewrite Hsc in Hsc'. injection Hsc' as <-.
  exists nw, nh. split; [|split; [exact Hbw|split; [exact Hbh|]]].
  - unfold smart_scale, bind, deref. cbv beta. rewrite Hl.
    replace (max_side im >? 5000) with false
      by (symmetry; unfold max_side; zcmp).
    replace (max_side im <? 2000) with true
      by (symmetry; unfold max_side; zcmp).
    unfold upscale_to, bind, lift. rewrite Hsc, Hnw, Hnh.
    unfold pil_resize. cbn [fst snd].
    replace ((nw <? 1) || (nh <? 1)) with false; [reflexivity|].
    symmetry. apply orb_false_iff. split; apply Z.ltb_ge; lia.
  - unfold max_side in Hlw, Hlh.
    destruct (Z.max_spec (width im) (height im)) as [[_ E]|[_ E]].
    + specialize (Hlh (eq_sym E)). lia.
    + specialize (Hlw (eq_sym E)). lia.
Qed.

(** Without a thumbnail, step 1 at most adds an object. *)
Lemma smart_scale_grows img fd s im :
  heap s !! img = Some im ->
  max_side im <= (if fd then 5000 else 4000) ->
  exists r s1, smart_scale img fd s = (r, s1) /\
    (s1 = s \/ exists x, s1 = mkState (heap s ++ [x]) (trace s)).
Proof.
  intros Hl Hm. unfold smart_scale, bind, deref. cbv beta. rewrite Hl.
  assert (Hup : forall target, exists r s1, upscale_to target im s = (r, s1) /\
            (s1 = s \/ exists x, s1 = mkState (heap s ++ [x]) (trace s))).
  { intros target. unfold upscale_to, bind, lift, alloc.
    destruct (Py.lit_div_int target (max_side im)) as [sc|e]; [|eauto].
    destruct (Py.int_mul_float (width im) sc) as [w|e]; [|eauto].
    destruct (Py.int_mul_float (height im) sc) as [h|e]; [|eauto].
    destruct (pil_resize LANCZOS im (w, h)) as [im'|e]; [|eauto].
    eexists _, _. split; [reflexivity|]. right. eauto. }
  destruct fd.
  - replace (max_side im >? 5000) with false by (symmetry; zcmp).
    destruct (max_side im <? 2000); [apply Hup|]. unfold ret. eauto.
  - replace (max_side im >? 4000) with false by (symmetry; zcmp).
    destruct (max_side im <? 1200); [apply Hup|]. unfold ret. eauto.
Qed.

(** The objects a call of [preprocess_image] leaves as they were:
    everything when no thumbnail is taken. *)
Lemma preprocess_image_keeps_argument img fd s im :
  heap s !! img = Some im ->
  max_side im <= (if fd then 5000 else 4000) ->
  heap (preprocess_image img fd s).2 !! img = Some im.
Proof.
  intros Hl Hm.
  destruct (smart_scale_grows img fd s im Hl Hm) as (r & s1 & E & Hs1).
  assert (Hl1 : heap s1 !! img = Some im).
  { destruct Hs1 as [->|(x & ->)]; [exact Hl|]. cbn [heap].
    apply lookup_app_l_Some. exact Hl. }
  unfold preprocess_image, try_except at 1, bind at 1. rewrite E.
  destruct r as [img'|e]; [|exact Hl1].
  unfold try_except, contrast, bind, deref, alloc, ret, raise. cbv beta.
  destruct (heap s1 !! img') as [im1|]; [|exact Hl1].
  destruct (enhance im1); cbn [snd heap]; [|exact Hl1].
  apply lookup_app_l_Some. exact Hl1.
Qed.

(** C9. In detection mode the normalizer returns an image that has the
    size of its input when the longer side is between 2000 and 5000 (so
    on all of [2000, 4000]); whose longer side is 2399 or 2400, that is
    [round(2400 * max_side / max_side)] up to the rounding of the float
    product, when the longer side was below 2000; and that fits 3200 x
    3200 with the aspect of the input, as [Image.thumbnail] computes it,
    when the longer side was above 5000. *)
Theorem detection_scaling_table :
  thumbnail_contract ->
  forall s img im,
    heap s !! img = Some im -> 1 <= width im -> 1 <= height im ->
    exists out s' im',
      preprocess_image img true s = (Returns out, s') /\
      heap s' !! out = Some im' /\
      (2000 <= max_side im <= 5000 -> size im' = size im) /\
      (max_side im < 2000 -> 2399 <= max_side im' <= 2400) /\
      (5000 < max_side im ->
         max_side im' <= 3200 /\
         Z.abs (width im' * height im - height im' * width im) <= max_side im).
Proof.
  intros Hthumb s img im Hl Hw Hh.
  destruct (Z.lt_ge_cases (max_side im) 2000) as [Hsmall|Hge];
    [|destruct (Z.le_gt_cases (max_side im) 5000) as [Hmid|Hbig]].
  - destruct (smart_scale_upscale_detection img s im Hl Hw Hh Hsmall)
      as (nw & nh & E & Hnw & Hnh & Hmax).
    rewrite (run_preprocess _ _ _ _ _ E).
    destruct (contrast_step_result (length (heap s))
                (mkImg nw nh (resample LANCZOS im (nw, nh)))
                (mkState (heap s ++ [mkImg nw nh (resample LANCZOS im (nw, nh))]) (trace s)))
      as (out & s' & im' & E' & Hout & Hsz & _ & _).
    { cbn [heap]. apply list_lookup_middle. reflexivity. }
    exists out, s', im'. split; [exact E'|split; [exact Hout|]].
    unfold size in Hsz. cbn [width height] in Hsz. injection Hsz as Hw' Hh'.
    unfold max_side in *. rewrite Hw', Hh'.
    split; [lia|split; lia].
  - rewrite (run_preprocess _ _ _ _ _ (smart_scale_identity img true s im Hl ltac:(cbv iota; lia))).
    destruct (contrast_step_result img im s Hl) as (out & s' & im' & E' & Hout & Hsz & _ & _).
    exists out, s', im'. split; [exact E'|split; [exact Hout|]].
    split; [intros _; exact Hsz|split; unfold max_side in *; lia].
  - rewrite (run_preprocess _ _ _ _ _ (smart_scale_thumbnail img true s im Hl Hbig)).
    set (sz := thumbnail_size (size im) (3200, 3200)).
    destruct (contrast_step_result img (mkImg sz.1 sz.2 (resample LANCZOS im sz))
                (mkState (<[img := mkImg sz.1 sz.2 (resample LANCZOS im sz)]> (heap s)) (trace s)))
      as (out & s' & im' & E' & Hout & Hsz & _ & _).
    { cbn [heap]. apply list_lookup_insert_eq. exact (lookup_lt_Some _ _ _ Hl). }
    exists out, s', im'. split; [exact E'|split; [exact Hout|]].
    split; [unfold max_side in *; lia|split; [unfold max_side in *; lia|intros _]].
    unfold size in Hsz. cbn [width height] in Hsz. injection Hsz as Hw' Hh'.
    destruct (Hthumb (width im) (height im) 3200 3200 Hw Hh ltac:(lia) ltac:(lia))
      as (H1 & H2 & H3).
    { unfold max_side in Hbig. lia. }
    fold (size im) in H1, H2, H3. fold sz in H1, H2, H3.
    unfold max_side. rewrite Hw', Hh'. split; [lia|exact H3].
Qed.

(** C3 does not hold of the code: above the upper threshold of its mode
    (5000 for detection, 4000 for recognition) [preprocess_image] resizes
    the object it was given. After the call the argument fits the
    thumbnail box, so it is smaller than it was, and a later call on the
    same object works on the reduced size. *)
Theorem thumbnail_resizes_the_argument :
  thumbnail_contract ->
  forall s img im fd,
    heap s !! img = Some im -> 1 <= width im -> 1 <= height im ->
    (if fd then 5000 else 4000) < max_side im ->
    exists im1,
      heap (preprocess_image img fd s).2 !! img = Some im1 /\
      max_side im1 <= (if fd then 3200 else 2400) /\
      size im1 <> size im.
Proof.
  intros Hthumb s img im fd Hl Hw Hh Hbig.
  rewrite (run_preprocess _ _ _ _ _ (smart_scale_thumbnail img fd s im Hl Hbig)).
  set (bx := if fd then (3200, 3200) else (2400, 2400)).
  set (sz := thumbnail_size (size im) bx).
  set (im1 := mkImg sz.1 sz.2 (resample LANCZOS im sz)).
  assert (Hl1 : <[img := im1]> (heap s) !! img = Some im1)
    by (apply list_lookup_insert_eq; exact (lookup_lt_Some _ _ _ Hl)).
  destruct (contrast_step_result img im1 (mkState (<[img := im1]> (heap s)) (trace s)) Hl1)
    as (out & s' & im' & E' & _ & _ & _ & Hkeep).
  rewrite E'. cbn [snd]. exists im1. split; [apply Hkeep; exact Hl1|].
  assert (Hfit : 1 <= sz.1 <= bx.1 /\ 1 <= sz.2 <= bx.2).
  { destruct (Hthumb (width im) (height im) bx.1 bx.2 Hw Hh) as (H1 & H2 & _).
    - unfold bx. destruct fd; cbn; lia.
    - unfold bx. destruct fd; cbn; lia.
    - unfold max_side in Hbig. unfold bx. destruct fd; cbn; lia.
    - replace (bx.1, bx.2) with bx in H1, H2 by (unfold bx; destruct fd; reflexivity).
      fold (size im) in H1, H2. fold sz in H1, H2. split; assumption. }
  assert (Hbx : bx.1 = (if fd then 3200 else 2400) /\ bx.2 = (if fd then 3200 else 2400))
    by (unfold bx; destruct fd; split; reflexivity).
  unfold max_side, im1. cbn [width height]. split; [destruct fd; lia|].
  unfold size. cbn [width height]. intros Eq. injection Eq as E1 E2.
  unfold max_side in Hbig. destruct fd; lia.
Qed.

End PipelineFacts.

(** *** The route with its models *)

Section RouteFacts.

Import VietOcrServer.
Context `{Vision} `{ServerModels.ModelLib}.

(** The route on a request whose image decodes, step by step. *)
Lemma app_ocr_decoded data im s :
  data <> EmptyString -> decode_image data = Some im ->
  VietOcrApp.ocr (Json (Some data)) s =
    match views (length (heap (VietOcrApp.images s)))
            (mkState (heap (VietOcrApp.images s) ++ [im]) (trace (VietOcrApp.images s))) with
    | (Returns (d, p), i1) =>
        match (ServerModels.init_detector ;; ServerModels.init_predictor)
                (VietOcrApp.models s) with
        | (Returns _, g1) =>
            match detect d p i1 with
            | (Returns (boxes, traceback_bound), i2) =>
                match recognise d p boxes i2 with
                | (Returns res, i3) => (Returns (Resp200 res), VietOcrApp.mkState i3 g1)
                | (Raises e, i3) => on_error traceback_bound e (VietOcrApp.mkState i3 g1)
                end
            | (Raises e, i2) => (Raises UnboundLocalError, VietOcrApp.mkState i2 g1)
            end
        | (Raises e, g1) => (Raises UnboundLocalError, VietOcrApp.mkState i1 g1)
        end
    | (Raises e, i1) => (Raises UnboundLocalError, VietOcrApp.mkState i1 (VietOcrApp.models s))
    end.
Proof.
  intros Hd Hi. destruct s as [i g]. destruct data as [|c data]; [congruence|].
  cbn [VietOcrApp.ocr]. rewrite Hi.
  unfold try_except, bind, VietOcrApp.on_images, VietOcrApp.on_models, alloc, ret.
  cbn [VietOcrApp.images VietOcrApp.models].
  destruct (views _ _) as [[[d p]|e] i1];
    cbn [VietOcrApp.images VietOcrApp.models]; [|reflexivity].
  destruct (ServerModels.init_detector g) as [[dm|e] g1];
    cbn [VietOcrApp.images VietOcrApp.models]; [|reflexivity].
  destruct (ServerModels.init_predictor g1) as [[pm|e] g2];
    cbn [VietOcrApp.images VietOcrApp.models]; [|reflexivity].
  destruct (detect d p i1) as [[[boxes tb]|e] i2];
    cbn [VietOcrApp.images VietOcrApp.models]; [|reflexivity].
  destruct (recognise d p boxes i2) as [[res|e] i3];
    cbn [VietOcrApp.images VietOcrApp.models]; [reflexivity|].
  unfold on_error, ret, raise. destruct tb; reflexivity.
Qed.

(** A request from which no image is read does not reach the models. *)
Lemma app_ocr_unreadable req s :
  MoreSpec.readable req = false ->
  VietOcrApp.ocr req s
    = ((ocr req (VietOcrApp.images s)).1,
       VietOcrApp.mkState (ocr req (VietOcrApp.images s)).2 (VietOcrApp.models s)).
Proof.
  destruct s as [i g]. unfold MoreSpec.readable.
  destruct req as [| |[[|c d]|]|detail]; try reflexivity.
  cbn [VietOcrApp.ocr ocr]. destruct (decode_image (String c d)); [discriminate|reflexivity].
Qed.

(** A 200 answer of the route is the 200 answer of steps 1 and 3 to 5. *)
Lemma app_ocr_answer req s res s' :
  VietOcrApp.ocr req s = (Returns (Resp200 res), s') ->
  ocr req (VietOcrApp.images s) = (Returns (Resp200 res), VietOcrApp.images s').
Proof.
  destruct (MoreSpec.readable req) eqn:Er.
  2:{ rewrite (app_ocr_unreadable _ _ Er).
      destruct (ocr req (VietOcrApp.images s)) as [r i1]. cbn [fst snd].
      intros Eq. simplify_eq. reflexivity. }
  unfold MoreSpec.readable in Er.
  destruct req as [| |[[|c d]|]|detail]; try discriminate.
  destruct (decode_image (String c d)) as [im|] eqn:Hi; [|discriminate].
  assert (Hne : String c d <> EmptyString) by discriminate.
  rewrite (app_ocr_decoded _ _ _ Hne Hi), (ocr_decoded _ _ _ Hne Hi).
  destruct (views _ _) as [[[dl pl]|e] i1]; [|discriminate].
  destruct ((ServerModels.init_detector ;; ServerModels.init_predictor) _)
    as [[m|e] g1]; [|discriminate].
  destruct (detect dl pl i1) as [[[boxes tb]|e] i2]; [|discriminate].
  destruct (recognise dl pl boxes i2) as [[res'|e] i3].
  - intros Eq. simplify_eq. reflexivity.
  - unfold on_error, ret, raise. destruct tb; discriminate.
Qed.

End RouteFacts.

(** *** Instances *)

Section PipelineInstances.

Import VietOcrServer Spec Fixtures.

Example join_three_lines :
  join_lines (fold_left keep_line [txt "A"; txt ""; txt " B "; txt "C"] [])
  = txt "A" ++ [10%N] ++ txt "B" ++ [10%N] ++ txt "C".
Proof. reflexivity. Qed.

Example ocr_blank_region :
  @ocr blank_region (Json (Some "aW1n"%string)) (@mkState blank_region [] [])
  = (Returns (Resp200 (mkResult [] 0 1 0 [])),
     @mkState blank_region [blank 2000 2000; blank 2000 2000; blank 2000 2000]
       [EvCrop 0 (5, 5, 55, 55); EvRecognizeRegion 0 (50, 50)]).
Proof. vm_compute. reflexivity. Qed.

Example ocr_no_boxes :
  @ocr no_boxes (Json (Some "aW1n"%string)) (@mkState no_boxes [] [])
  = (Returns (Resp200 (mkResult (txt "Whole page") 1 0 1 [txt "Whole page"])),
     @mkState no_boxes [blank 2000 2000; blank 2000 2000; blank 2000 2000]
       [EvRecognizeWhole]).
Proof. vm_compute. reflexivity. Qed.

Example ocr_four_boxes :
  (@ocr four_boxes (Json (Some "aW1n"%string)) (@mkState four_boxes [] [])).1
  = Returns (Resp200 (mkResult (txt "A" ++ [10%N] ++ txt "B" ++ [10%N] ++ txt "C") 3 4 3
                        [txt "A"; txt "B"; txt "C"])).
Proof. vm_compute. reflexivity. Qed.

End PipelineInstances.

(** *** Claims about whole requests *)

Section RequestFacts.

Import VietOcrServer Spec Fixtures.

(** C6. The mapper multiplies the x of every point by [scale_x] and the y
    by [scale_y] (as floats) and truncates; the box is the least and the
    greatest of the results, padded by 5 and bounded by 0 below and by the
    recognition image above, and a box that is kept lies inside that image.
    In step 4 the two factors are the ratios of the widths and of the
    heights of the recognition and detection views, and every crop is the
    box so computed for its polygon.
    The box (10,10)-(50,50) of a 1000 x 1000 detection view maps into a
    2000 x 2000 recognition view as (20,20)-(100,100), padded to
    (15,15)-(105,105), which is the box that is cropped. *)
Theorem coordinate_mapper_box :
  (forall k sc poly vs,
     scale_coords k sc poly = Returns vs ->
     Forall2 (fun p v => exists c, p !! k = Some c /\ Py.int_mul_float c sc = Returns v)
       poly vs) /\
  (forall W H xs ys x1 y1 x2 y2,
     region_box W H xs ys = Returns (x1, y1, x2, y2) ->
     exists xmin ymin xmax ymax,
       (In xmin xs /\ forall x, In x xs -> xmin <= x) /\
       (In ymin ys /\ forall y, In y ys -> ymin <= y) /\
       (In xmax xs /\ forall x, In x xs -> x <= xmax) /\
       (In ymax ys /\ forall y, In y ys -> y <= ymax) /\
       x1 = Z.max 0 (xmin - 5) /\ y1 = Z.max 0 (ymin - 5) /\
       x2 = Z.min W (xmax + 5) /\ y2 = Z.min H (ymax + 5) /\
       (nondegenerate (x1, y1, x2, y2) -> inside W H (x1, y1, x2, y2))) /\
  (forall (V : Vision) detection_img processed_img poly polys s det_im rec_im sx sy,
     heap s !! detection_img = Some det_im ->
     heap s !! processed_img = Some rec_im ->
     Py.int_truediv (width rec_im) (width det_im) = Returns sx ->
     Py.int_truediv (height rec_im) (height det_im) = Returns sy ->
     exists r evs,
       extract_lines detection_img processed_img (Some (poly :: polys)) s
         = (r, mkState (heap s) (trace s ++ evs)) /\
       loop_events (size rec_im) sx sy 0 (poly :: polys) evs) /\
  (Py.int_truediv 2000 1000 = Returns two /\
   scale_coords 0 two (rect 10 10 50 50) = Returns [20; 100; 100; 20] /\
   scale_coords 1 two (rect 10 10 50 50) = Returns [20; 20; 100; 100] /\
   py_min [20; 100; 100; 20] = Returns 20 /\ py_max [20; 100; 100; 20] = Returns 100 /\
   py_min [20; 20; 100; 100] = Returns 20 /\ py_max [20; 20; 100; 100] = Returns 100 /\
   region_box 2000 2000 [20; 100; 100; 20] [20; 20; 100; 100]
     = Returns (15, 15, 105, 105) /\
   trace (@extract_lines no_boxes 0%nat 1%nat (Some [rect 10 10 50 50])
            (@mkState no_boxes [blank 1000 1000; blank 2000 2000] [])).2
     = [EvCrop 0 (15, 15, 105, 105); EvRecognizeRegion 0 (90, 90)]).
Proof.
  split; [|split; [|split]].
  - intros k sc poly vs. apply scale_coords_spec.
  - intros W H xs ys x1 y1 x2 y2 Eq. unfold region_box in Eq.
    apply obind_returns_inv in Eq as (xmin & Hxmin & Eq).
    apply obind_returns_inv in Eq as (ymin & Hymin & Eq).
    apply obind_returns_inv in Eq as (xmax & Hxmax & Eq).
    apply obind_returns_inv in Eq as (ymax & Hymax & Eq).
    injection Eq as <- <- <- <-. unfold pad.
    exists xmin, ymin, xmax, ymax.
    split; [exact (py_min_spec _ _ Hxmin)|]. split; [exact (py_min_spec _ _ Hymin)|].
    split; [exact (py_max_spec _ _ Hxmax)|]. split; [exact (py_max_spec _ _ Hymax)|].
    repeat (split; [reflexivity|]). cbn. lia.
  - intros V. apply extract_lines_mapped.
  - repeat split; vm_compute; reflexivity.
Qed.

Lemma coordinate_mapper_box_witness :
  exists xmin ymin xmax ymax,
    (In xmin [20; 100; 100; 20] /\ forall x, In x [20; 100; 100; 20] -> xmin <= x) /\
    (In ymin [20; 20; 100; 100] /\ forall y, In y [20; 20; 100; 100] -> ymin <= y) /\
    (In xmax [20; 100; 100; 20] /\ forall x, In x [20; 100; 100; 20] -> x <= xmax) /\
    (In ymax [20; 20; 100; 100] /\ forall y, In y [20; 20; 100; 100] -> y <= ymax) /\
    15 = Z.max 0 (xmin - 5) /\ 15 = Z.max 0 (ymin - 5) /\
    105 = Z.min 2000 (xmax + 5) /\ 105 = Z.min 2000 (ymax + 5) /\
    (nondegenerate (15, 15, 105, 105) -> inside 2000 2000 (15, 15, 105, 105)).
Proof.
  apply (proj1 (proj2 coordinate_mapper_box) 2000 2000 [20; 100; 100; 20] [20; 20; 100; 100]).
  vm_compute. reflexivity.
Defined.

(** [fit_box] keeps the promise of [Image.thumbnail]. *)
Lemma fit_box_contract decoded page whole part :
  @thumbnail_contract (vision decoded page whole part).
Proof.
  unfold thumbnail_contract. cbn [thumbnail_size vision]. unfold fit_box.
  intros w h bw bh Hw Hh Hbw Hbh Hbig.
  destruct (Z.leb_spec (bh * w) (bw * h)) as [Hc|Hc]; cbn [fst snd].
  - pose proof (Z.div_mod (bh * w) h ltac:(lia)) as Hdm.
    pose proof (Z.mod_pos_bound (bh * w) h ltac:(lia)) as Hmod.
    assert (Hq : bh * w / h <= bw) by (apply Z.div_le_upper_bound; lia).
    assert (Hq0 : 0 <= bh * w / h) by (apply Z.div_pos; lia).
    split; [lia|]. split; [lia|].
    destruct (Z.max_spec 1 (bh * w / h)) as [[_ ->]|[? ->]]; nia.
  - pose proof (Z.div_mod (bw * h) w ltac:(lia)) as Hdm.
    pose proof (Z.mod_pos_bound (bw * h) w ltac:(lia)) as Hmod.
    assert (Hq : bw * h / w <= bh) by (apply Z.div_le_upper_bound; lia).
    assert (Hq0 : 0 <= bw * h / w) by (apply Z.div_pos; lia).
    split; [lia|]. split; [lia|].
    destruct (Z.max_spec 1 (bw * h / w)) as [[_ ->]|[? ->]]; nia.
Qed.

(** A 6000 x 3000 page, the only object of the heap. *)
Lemma detection_scaling_table_witness :
  exists out s' im',
    @preprocess_image no_boxes 0%nat true (@mkState no_boxes [blank 6000 3000] [])
      = (Returns out, s') /\
    heap s' !! out = Some im' /\
    (2000 <= 6000 <= 5000 -> size im' = (6000, 3000)) /\
    (6000 < 2000 -> 2399 <= max_side im' <= 2400) /\
    (5000 < 6000 ->
       max_side im' <= 3200 /\
       Z.abs (width im' * 3000 - height im' * 6000) <= 6000).
Proof.
  apply (@detection_scaling_table no_boxes (fit_box_contract _ _ _ _)
           (@mkState no_boxes [blank 6000 3000] []) 0%nat (blank 6000 3000));
    [reflexivity|cbn; lia|cbn; lia].
Defined.

(** The failing input of C3: a 6000 x 3000 page in detection mode. *)
Lemma thumbnail_resizes_the_argument_witness :
  exists im1,
    heap (@preprocess_image no_boxes 0%nat true
            (@mkState no_boxes [blank 6000 3000] [])).2 !! 0%nat = Some im1 /\
    max_side im1 <= 3200 /\ size im1 <> (6000, 3000).
Proof.
  apply (@thumbnail_resizes_the_argument no_boxes (fit_box_contract _ _ _ _)
           (@mkState no_boxes [blank 6000 3000] []) 0%nat (blank 6000 3000) true);
    [reflexivity|cbn; lia|cbn; lia|unfold max_side; cbn; lia].
Defined.

(** What the two calls of [ocr] give on that page: the detection call
    leaves the page at 3200 x 1600, and the recognition call, made on the
    same object, returns a view of 3200 x 1600 where the page as it was
    decoded would have given 2400 x 1200. *)
Example large_page_views :
  let s0 := @mkState no_boxes [blank 6000 3000] [] in
  let s1 := (@preprocess_image no_boxes 0%nat true s0).2 in
  heap s1 !! 0%nat = Some (blank 3200 1600) /\
  (exists out, (@preprocess_image no_boxes 0%nat false s1).1 = Returns out /\
     heap (@preprocess_image no_boxes 0%nat false s1).2 !! out = Some (blank 3200 1600)) /\
  (exists out, (@preprocess_image no_boxes 0%nat false s0).1 = Returns out /\
     heap (@preprocess_image no_boxes 0%nat false s0).2 !! out = Some (blank 2400 1200)).
Proof.
  cbv zeta. split; [vm_compute; reflexivity|].
  split; eexists; split; vm_compute; reflexivity.
Qed.

(** When the contrast step raises on a page that needs no scaling, the
    handler returns the argument itself, not a new image. *)
Example failed_contrast_returns_argument :
  @preprocess_image (vision_failing_contrast (blank 3000 2000)) 0%nat true
    (@mkState (vision_failing_contrast (blank 3000 2000)) [blank 3000 2000] [])
  = (Returns 0%nat,
     @mkState (vision_failing_contrast (blank 3000 2000)) [blank 3000 2000] []).
Proof. vm_compute. reflexivity. Qed.

(** C8 fails as stated: a crop of 3 x 30 becomes 4 x 48, where rounding
    [3 * 48 / 30 = 4.8] gives 5. *)
Lemma upscaled_width_is_not_rounded :
  exists out,
    (@extract_region no_boxes (blank 2000 2000) 0 (0, 0, 3, 30)
       (@mkState no_boxes [] [])).1 = Returns out /\
    height out = 48 /\ width out = 4 /\ round_ratio (3 * 48) 30 = 5.
Proof. eexists. repeat split; vm_compute; reflexivity. Qed.

Lemma crop_upscaled_by_truncation_witness :
  exists sc new_width,
    Py.lit_div_int 48 (30 - 0) = Returns sc /\
    Py.int_mul_float (3 - 0) sc = Returns new_width /\
    3 - 0 <= new_width /\
    @extract_region no_boxes (blank 2000 2000) 0 (0, 0, 3, 30) (@mkState no_boxes [] []) =
      (Returns (mkImg new_width 48 tt),
       @mkState no_boxes [] [EvCrop 0 (0, 0, 3, 30); EvUpscale 0 (new_width, 48)]).
Proof.
  apply (proj1 (@crop_upscaled_by_truncation no_boxes (blank 2000 2000) 0%nat 0 0 3 30
                  (@mkState no_boxes [] []))); cbn; lia.
Defined.

(** C10. In every 200 answer [regions_detected] is the number of kept
    lines, and the kept lines are the texts the recogniser returned during
    the request, each one trimmed, the empty ones left out: one text per
    polygon whose region reached the recogniser, or the reading of the
    whole recognition view when no box was detected. So the field is at
    most 1 when the whole-image recognition ran, and otherwise at most the
    number of detected boxes, which [boxes_detected] reports; it is smaller
    when a region reads as nothing but blanks (second part). Conversely the
    texts the recogniser returns on the views of a request fix the answer
    (fourth part), and the 200 answers of the route with its models are
    those of its steps 1 and 3 to 5 (fifth part). *)
Theorem regions_detected_counts_kept_lines :
  (forall (V : Vision) req s res s',
     ocr req s = (Returns (Resp200 res), s') ->
     exists evs, trace s' = trace s ++ evs /\
       regions_detected res = length (kept_lines res) /\
       text_field res = join_lines (kept_lines res) /\
       Forall trimmed_line (kept_lines res) /\
       (whole_image_runs evs = 1%nat -> (regions_detected res <= 1)%nat) /\
       (whole_image_runs evs = 0%nat -> (regions_detected res <= boxes_detected res)%nat)) /\
  (exists (V : Vision) req s res s',
     ocr req s = (Returns (Resp200 res), s') /\
     (regions_detected res < boxes_detected res)%nat) /\
  (forall (V : Vision) req s res s',
     ocr req s = (Returns (Resp200 res), s') ->
     exists det_im rec_im boxes texts,
       detected req s det_im rec_im boxes /\
       recogniser_returned det_im rec_im boxes texts /\
       kept_lines res = nonempty_trimmed texts /\
       regions_detected res = length (nonempty_trimmed texts) /\
       boxes_detected res = box_count boxes) /\
  (forall (V : Vision) req s det_im rec_im boxes texts,
     detected req s det_im rec_im boxes ->
     recogniser_returned det_im rec_im boxes texts ->
     exists res s',
       ocr req s = (Returns (Resp200 res), s') /\
       regions_detected res = length (nonempty_trimmed texts) /\
       kept_lines res = nonempty_trimmed texts /\
       boxes_detected res = box_count boxes /\
       text_field res = join_lines (nonempty_trimmed texts)) /\
  (forall (V : Vision) (L : ServerModels.ModelLib) req s res s',
     VietOcrApp.ocr req s = (Returns (Resp200 res), s') ->
     ocr req (VietOcrApp.images s) = (Returns (Resp200 res), VietOcrApp.images s')).
Proof.
  split; [|split; [|split; [|split]]].
  - intros V req s res s' E.
    destruct (ocr_run _ _ _ _ E) as (evs & Ht & _ & Hres).
    destruct (Hres res eq_refl) as (? & ? & ? & ? & ?).
    exists evs. repeat split; assumption.
  - exists blank_region. eexists _, _, _, _.
    split; [exact ocr_blank_region|]. cbn. lia.
  - intros V req s res s' E.
    destruct (ocr_answer_readings _ _ _ _ E) as (det_im & rec_im & boxes & texts & Hd & Hr & ->).
    exists det_im, rec_im, boxes, texts. repeat split; assumption.
  - intros V req s det_im rec_im boxes texts Hd Hr.
    destruct (ocr_of_readings _ _ _ _ _ _ Hd Hr) as (s' & E).
    eexists _, s'. split; [exact E|]. repeat split.
  - intros V L req s res s'. apply app_ocr_answer.
Qed.

(** Four boxes whose regions read as ["A"], nothing, [" B "] and ["C"]:
    three lines are kept, and counted, of four boxes. *)
Lemma regions_detected_counts_kept_lines_witness :
  exists res s',
    @ocr four_boxes (Json (Some "aW1n"%string)) (@mkState four_boxes [] [])
      = (Returns (Resp200 res), s') /\
    regions_detected res = 3%nat /\
    kept_lines res = [txt "A"; txt "B"; txt "C"] /\
    boxes_detected res = 4%nat /\
    text_field res = txt "A" ++ [10%N] ++ txt "B" ++ [10%N] ++ txt "C".
Proof.
  apply (proj1 (proj2 (proj2 (proj2 regions_detected_counts_kept_lines))) four_boxes
           (Json (Some "aW1n"%string)) (@mkState four_boxes [] [])
           (blank 2000 2000) (blank 2000 2000)
           (Some [rect 10 10 50 50; rect 10 100 70 150;
                  rect 10 200 90 250; rect 10 300 110 350])
           [txt "A"; []; txt " B "; txt "C"]).
  - exists "aW1n"%string, (blank 2000 2000), 1%nat, 2%nat,
      (@mkState four_boxes [blank 2000 2000; blank 2000 2000; blank 2000 2000] []), false.
    repeat split; try discriminate; vm_compute; reflexivity.
  - exists one, one, [Some (txt "A"); Some []; Some (txt " B "); Some (txt "C")].
    split; [vm_compute; reflexivity|]. split; [vm_compute; reflexivity|].
    split; [|reflexivity].
    repeat constructor.
    + exists (5, 5, 55, 55), (blank 50 50).
      split; [exists [10; 50; 50; 10], [10; 10; 50; 50];
              repeat split; [cbn; lia|vm_compute; reflexivity..]|].
      split; [cbn; lia|]. split; [intros; reflexivity|reflexivity].
    + exists (5, 95, 75, 155), (blank 70 60).
      split; [exists [10; 70; 70; 10], [100; 100; 150; 150];
              repeat split; [cbn; lia|vm_compute; reflexivity..]|].
      split; [cbn; lia|]. split; [intros; reflexivity|reflexivity].
    + exists (5, 195, 95, 255), (blank 90 60).
      split; [exists [10; 90; 90; 10], [200; 200; 250; 250];
              repeat split; [cbn; lia|vm_compute; reflexivity..]|].
      split; [cbn; lia|]. split; [intros; reflexivity|reflexivity].
    + exists (5, 295, 115, 355), (blank 110 60).
      split; [exists [10; 110; 110; 10], [300; 300; 350; 350];
              repeat split; [cbn; lia|vm_compute; reflexivity..]|].
      split; [cbn; lia|]. split; [intros; reflexivity|reflexivity].
Defined.

(** C2 fails as stated: one box was detected, its region reads as blanks,
    so no region yields text; the whole page would read as ["X"], yet the
    whole-image recognition does not run and the document text is empty. *)
Lemma fallback_skipped_when_regions_read_nothing :
  let run := @ocr blank_region (Json (Some "aW1n"%string)) (@mkState blank_region [] []) in
  (exists res, run.1 = Returns (Resp200 res) /\
     boxes_detected res = 1%nat /\ kept_lines res = [] /\ text_field res = []) /\
  whole_image_runs (trace run.2) = 0%nat /\
  @predict blank_region (blank 2000 2000) = Some (txt "X").
Proof.
  cbv zeta. rewrite ocr_blank_region. cbn [fst snd trace].
  split; [eexists; split; [reflexivity|cbn; auto]|]. split; reflexivity.
Qed.

Lemma fallback_only_without_boxes_witness :
  @extract_lines no_boxes 0%nat 1%nat (Some [])
    (@mkState no_boxes [blank 2000 2000; blank 2000 2000] [])
  = (Returns [txt "Whole page"],
     @mkState no_boxes [blank 2000 2000; blank 2000 2000] [EvRecognizeWhole]).
Proof.
  exact (proj1 (@fallback_only_without_boxes no_boxes) 0%nat 1%nat (Some [])
           (@mkState no_boxes [blank 2000 2000; blank 2000 2000] []) (blank 2000 2000)
           eq_refl (or_intror eq_refl)).
Defined.

(** A polygon lying to the right of a 2000 x 2000 page: its box is
    [(4995, 5, 2000, 55)]. *)
Lemma degenerate_regions_never_extracted_witness :
  @process_region no_boxes (blank 2000 2000) one one [] 3 (rect 5000 10 5050 50)
    (@mkState no_boxes [] [])
  = (Returns [], @mkState no_boxes [] []).
Proof.
  apply (proj1 (@degenerate_regions_never_extracted no_boxes))
    with (xs := [5000; 5050; 5050; 5000]) (ys := [10; 10; 50; 50])
         (x1 := 4995) (y1 := 5) (x2 := 2000) (y2 := 55).
  - cbn. lia.
  - vm_compute. reflexivity.
  - vm_compute. reflexivity.
  - vm_compute. reflexivity.
  - left. lia.
Defined.

End RequestFacts.

(** ** The upload router *)

Section RouterFacts.

Import TriggerUpload Spec.
Context `{Services}.

#[local] Open Scope string_scope.
#[local] Open Scope list_scope.

Implicit Types (s : state) (j : json).

Lemma router_emit_run (e : event) s :
  emit e s = (Returns tt, mkState (world s) (trace s ++ [e])).
Proof. reflexivity. Qed.

(** A loop stops at the first element whose body raises. *)
Lemma for_each_stops {A} (f : A -> M state unit) pre x post s s1 e s2 :
  for_each f pre s = (Returns tt, s1) ->
  f x s1 = (Raises e, s2) ->
  for_each f (pre ++ x :: post) s = (Raises e, s2).
Proof.
  revert s. induction pre as [|y pre IH]; intros s Hpre Hx; cbn [for_each app] in *.
  - unfold ret in Hpre. injection Hpre as <-. unfold bind. rewrite Hx. reflexivity.
  - unfold bind in *. destruct (f y s) as [[[]|e'] s'] eqn:Ey; [|discriminate].
    apply IH; assumption.
Qed.

Lemma invoke_fn_run name ty payload s arn :
  environ name = Some arn ->
  invoke_fn name ty payload s =
    ((invoke arn ty payload (world s)).1,
     mkState (invoke arn ty payload (world s)).2 (trace s ++ [EvInvoke arn ty payload])).
Proof.
  intros Henv. unfold invoke_fn, getenv, bind. rewrite Henv. unfold ret.
  rewrite router_emit_run. unfold call. cbn [world trace].
  destruct (invoke arn ty payload (world s)) as [r w]. reflexivity.
Qed.

(** The first step of the router: the metadata of the object is read. *)
Lemma process_legal_document_head bucket key s :
  process_legal_document bucket key s =
    (let* doc_type :=
       (emit (EvHeadObject bucket key) ;;
        let* head := call (head_object bucket key) in
        let* metadata := lift (dict_get head "Metadata" (JObj [])) in
        let* tag := lift (dict_get metadata "document-type" (JStr "")) in
        lift (match tag with
              | JStr t => Returns (lower t)
              | _ => Raises AttributeError
              end)) in
     if negb (String.eqb doc_type "legal registration") then ret false
     else
       let* qr_payload := invoke_fn "QR_DETECTOR_FN_ARN" RequestResponse (doc_ref bucket key) in
       let* qr_result := lift (unwrap_body qr_payload) in
       let* has_qr := lift (dict_get qr_result "hasQR" JNull) in
       let* decoded_text := lift (dict_get qr_result "decodedText" JNull) in
       if truthy has_qr && truthy decoded_text then
         let* decode_payload :=
           invoke_fn "QR_DECODER_FN_ARN" RequestResponse (JObj [("decodedText", decoded_text)]) in
         let* decoded_result := lift (unwrap_body decode_payload) in
         invoke_fn "RESULT_SAVER_FN_ARN" Event (save_payload bucket key decoded_result) ;;
         ret true
       else
         let* ocr_payload := invoke_fn "VIETOCR_FN_ARN" RequestResponse (doc_ref bucket key) in
         let* ocr_result := lift (unwrap_body ocr_payload) in
         let* txt := lift (dict_get ocr_result "text" JNull) in
         if negb (truthy txt) then raise (PlainException "VietOCR returned no text")
         else
           let* qa_payload :=
             invoke_fn "BEDROCK_QA_FN_ARN" RequestResponse (JObj [("text", txt)]) in
           let* qa_result := lift (unwrap_body qa_payload) in
           invoke_fn "RESULT_SAVER_FN_ARN" Event (save_payload bucket key qa_result) ;;
           ret true) s.
Proof.
  unfold process_legal_document, bind, emit, call, lift.
  cbn [world trace].
  destruct (head_object bucket key (world s)) as [[head|e] w']; [|reflexivity].
  destruct (dict_get head "Metadata" (JObj [])) as [metadata|e]; [|reflexivity].
  destruct (dict_get metadata "document-type" (JStr "")) as [tag|e]; [|reflexivity].
  destruct tag; reflexivity.
Qed.

Lemma read_tag bucket key s w' head metadata tag :
  head_object bucket key (world s) = (Returns head, w') ->
  dict_get head "Metadata" (JObj []) = Returns metadata ->
  dict_get metadata "document-type" (JStr "") = Returns (JStr tag) ->
  (emit (EvHeadObject bucket key) ;;
   let* head := call (head_object bucket key) in
   let* metadata := lift (dict_get head "Metadata" (JObj [])) in
   let* tag := lift (dict_get metadata "document-type" (JStr "")) in
   lift (match tag with
         | JStr t => Returns (lower t)
         | _ => Raises AttributeError
         end)) s
  = (Returns (lower tag), mkState w' (trace s ++ [EvHeadObject bucket key])).
Proof.
  intros Hh Hm Ht. unfold bind, emit, call, lift. cbn [world trace].
  rewrite Hh, Hm, Ht. reflexivity.
Qed.

(** C5. A document whose [document-type] tag, lowered, is anything but
    ['legal registration'] (a missing tag reads as the empty string) makes
    the router return [False] after the one metadata lookup: no
    collaborator is invoked, the code decoder in particular. The handler
    then hands the document to the generic flow, and that is all it does
    for this record. *)
Theorem other_documents_skip_code_decode :
  forall bucket key s w',
    other_document bucket key (world s) w' ->
    process_legal_document bucket key s
      = (Returns false, mkState w' (trace s ++ [EvHeadObject bucket key])) /\
    forall s3_record key0,
      names_object s3_record bucket key0 ->
      key = unquote (replace_plus key0) ->
      handle_s3_record s3_record s
        = (Returns tt,
           mkState w' (trace s ++ [EvHeadObject bucket key; EvExistingBedrock bucket key])).
Proof.
  intros bucket key s w' (head & metadata & tag & Hh & Hm & Ht & Hne).
  assert (Hp : process_legal_document bucket key s
               = (Returns false, mkState w' (trace s ++ [EvHeadObject bucket key]))).
  { rewrite process_legal_document_head. unfold bind at 1.
    rewrite (read_tag _ _ _ _ _ _ _ Hh Hm Ht).
    replace (lower tag =? "legal registration") with false
      by (symmetry; apply String.eqb_neq; exact Hne).
    reflexivity. }
  split; [exact Hp|].
  intros s3_record key0 (s3 & b & o & H1 & H2 & H3 & H4 & H5) ->.
  unfold handle_s3_record, bind, lift. rewrite H1, H2, H3, H4, H5, Hp.
  unfold process_with_existing_bedrock, bind. rewrite router_emit_run.
  cbn [world trace]. unfold ret. rewrite <- app_assoc. reflexivity.
Qed.

(** One synchronous round trip: the call, then the unwrapping of [body]. *)
Lemma round_trip {A} name payload w tr arn result w' (k : json -> M state A) :
  answers name payload w arn result w' ->
  (let* p := invoke_fn name RequestResponse payload in
   let* r := lift (unwrap_body p) in k r) (mkState w tr)
  = k result (mkState w' (tr ++ [EvInvoke arn RequestResponse payload])).
Proof.
  intros (Henv & p & Hinv & Hun). unfold bind at 1.
  rewrite (invoke_fn_run _ _ _ _ _ Henv). cbn [world trace]. rewrite Hinv. cbn [fst snd].
  unfold bind at 1, lift at 1. rewrite Hun. reflexivity.
Qed.

(** [get] on a value succeeds for every key once it did for one: the
    value is a dict. *)
Lemma dict_get_total d k default v k' default' :
  dict_get d k default = Returns v -> exists v', dict_get d k' default' = Returns v'.
Proof. destruct d; try discriminate. cbn. eauto. Qed.

(** C4. On the slow path (a legal registration whose code detection
    answers without a code), a text extraction that answers no text makes
    the router raise after exactly three calls: the metadata lookup, the
    code detection and the text extraction; question answering and
    persistence are not invoked. With a text, question answering is
    invoked next, synchronously, on that text; and when it answers, its
    result is sent to persistence as an asynchronous [Event] invocation,
    the last call of the router. *)
Theorem slow_path_extraction :
  forall bucket key s w1 w2 w3 qr_arn qr_result has_qr ocr_arn ocr_result txt,
    legal_registration bucket key (world s) w1 ->
    answers "QR_DETECTOR_FN_ARN" (doc_ref bucket key) w1 qr_arn qr_result w2 ->
    dict_get qr_result "hasQR" JNull = Returns has_qr -> truthy has_qr = false ->
    answers "VIETOCR_FN_ARN" (doc_ref bucket key) w2 ocr_arn ocr_result w3 ->
    dict_get ocr_result "text" JNull = Returns txt ->
    let slow := [EvHeadObject bucket key;
                 EvInvoke qr_arn RequestResponse (doc_ref bucket key);
                 EvInvoke ocr_arn RequestResponse (doc_ref bucket key)] in
    (truthy txt = false ->
     process_legal_document bucket key s
       = (Raises (PlainException "VietOCR returned no text"),
          mkState w3 (trace s ++ slow))) /\
    (truthy txt = true ->
     forall qa_arn, environ "BEDROCK_QA_FN_ARN" = Some qa_arn ->
       let ask := EvInvoke qa_arn RequestResponse (JObj [("text", txt)]) in
       (exists r s' rest,
          process_legal_document bucket key s = (r, s') /\
          trace s' = trace s ++ slow ++ ask :: rest) /\
       (forall qa_result w4 saver_arn r5 w5,
          answers "BEDROCK_QA_FN_ARN" (JObj [("text", txt)]) w3 qa_arn qa_result w4 ->
          environ "RESULT_SAVER_FN_ARN" = Some saver_arn ->
          invoke saver_arn Event (save_payload bucket key qa_result) w4 = (r5, w5) ->
          process_legal_document bucket key s
            = (match r5 with Returns _ => Returns true | Raises e => Raises e end,
               mkState w5 (trace s ++ slow ++
                 [ask; EvInvoke saver_arn Event (save_payload bucket key qa_result)])))).
Proof.
  intros bucket key s w1 w2 w3 qr_arn qr_result has_qr ocr_arn ocr_result txt
    (head & metadata & tag & Hh & Hm & Ht & Hlegal) Hqr Hhas Hno Hocr Htxt slow.
  destruct (dict_get_total _ _ _ _ "decodedText" JNull Hhas) as (dt & Hdt').
  assert (Hrun : process_legal_document bucket key s =
    (if negb (truthy txt) then raise (PlainException "VietOCR returned no text")
     else
       let* qa_payload :=
         invoke_fn "BEDROCK_QA_FN_ARN" RequestResponse (JObj [("text", txt)]) in
       let* qa_result := lift (unwrap_body qa_payload) in
       invoke_fn "RESULT_SAVER_FN_ARN" Event (save_payload bucket key qa_result) ;;
       ret true) (mkState w3 (trace s ++ slow))).
  { rewrite process_legal_document_head. unfold bind at 1.
    rewrite (read_tag _ _ _ _ _ _ _ Hh Hm Ht), Hlegal, String.eqb_refl. cbn [negb].
    rewrite (round_trip _ _ _ _ _ _ _ _ Hqr).
    unfold bind at 1, lift at 1. rewrite Hhas.
    unfold bind at 1, lift at 1. rewrite Hdt', Hno. cbn [andb].
    rewrite (round_trip _ _ _ _ _ _ _ _ Hocr).
    unfold bind at 1, lift at 1. rewrite Htxt.
    rewrite <- !app_assoc. reflexivity. }
  rewrite Hrun. clear Hrun.
  split.
  - intros Hempty. rewrite Hempty. reflexivity.
  - intros Hfull qa_arn Hqaenv ask. rewrite Hfull. cbn [negb]. split.
    + unfold bind at 1. rewrite (invoke_fn_run _ _ _ _ _ Hqaenv). cbn [world trace].
      fold ask.
      destruct (invoke qa_arn RequestResponse (JObj [("text", txt)]) w3) as [[p|e] w4];
        cbn [fst snd].
      2:{ eexists _, _, []. split; [reflexivity|]. cbn [trace].
          rewrite <- app_assoc. reflexivity. }
      unfold bind at 1, lift at 1. destruct (unwrap_body p) as [qa_result|e].
      2:{ eexists _, _, []. split; [reflexivity|]. cbn [trace].
          rewrite <- app_assoc. reflexivity. }
      unfold bind at 1.
      destruct (environ "RESULT_SAVER_FN_ARN") as [saver_arn|] eqn:Hsaver.
      2:{ unfold invoke_fn, getenv, bind, raise. rewrite Hsaver.
          eexists _, _, []. split; [reflexivity|]. cbn [trace].
          rewrite <- app_assoc. reflexivity. }
      rewrite (invoke_fn_run _ _ _ _ _ Hsaver). cbn [world trace].
      destruct (invoke saver_arn Event (save_payload bucket key qa_result) w4) as [[r5|e] w5];
        eexists _, _, [EvInvoke saver_arn Event (save_payload bucket key qa_result)];
        (split; [reflexivity|]); cbn [trace snd]; rewrite <- !app_assoc; reflexivity.
    + intros qa_result w4 saver_arn r5 w5 Hqa Hsaver Hsave.
      rewrite (round_trip _ _ _ _ _ _ _ _ Hqa).
      unfold bind at 1. rewrite (invoke_fn_run _ _ _ _ _ Hsaver). cbn [world trace].
      rewrite Hsave. cbn [fst snd]. rewrite <- !app_assoc. cbn [app].
      destruct r5; reflexivity.
Qed.

(** C1, as the code has it. The handler has one [try] around the whole
    loop: the first record whose processing raises ends the batch. The
    response is then 500 with the error, and the state is the one reached
    when the exception was raised, so nothing that follows in the batch is
    looked at; the records before it have been processed. A batch is
    answered with 200 only when no record raised. Inside one message the
    loop over its S3 records stops in the same way, and a document on
    which the router raises makes its record raise. *)
Theorem batch_stops_at_first_failure :
  (forall event pre r post s s1 e s2,
     dict_get event "Records" (JArr []) = Returns (JArr (pre ++ r :: post)) ->
     for_each handle_record pre s = (Returns tt, s1) ->
     handle_record r s1 = (Raises e, s2) ->
     lambda_handler event s = (Returns (mkResponse 500 (ErrorOf e)), s2)) /\
  (forall event records s s',
     dict_get event "Records" (JArr []) = Returns (JArr records) ->
     for_each handle_record records s = (Returns tt, s') ->
     lambda_handler event s = (Returns (mkResponse 200 ProcessingCompleted), s')) /\
  (forall record s3_event pre x post s s1 e s2,
     s3_event_of record = Returns s3_event ->
     dict_get s3_event "Records" (JArr []) = Returns (JArr (pre ++ x :: post)) ->
     for_each handle_s3_record pre s = (Returns tt, s1) ->
     handle_s3_record x s1 = (Raises e, s2) ->
     handle_record record s = (Raises e, s2)) /\
  (forall s3_record bucket key0 s e s2,
     names_object s3_record bucket key0 ->
     process_legal_document bucket (unquote (replace_plus key0)) s = (Raises e, s2) ->
     handle_s3_record s3_record s = (Raises e, s2)).
Proof.
  split; [|split; [|split]].
  - intros event pre r post s s1 e s2 Hrec Hpre Hr.
    unfold lambda_handler, try_except, bind at 1, lift at 1. rewrite Hrec.
    unfold bind at 1, lift at 1. cbn [py_iter].
    unfold bind at 1. rewrite (for_each_stops _ _ _ _ _ _ _ _ Hpre Hr). reflexivity.
  - intros event records s s' Hrec Hall.
    unfold lambda_handler, try_except, bind at 1, lift at 1. rewrite Hrec.
    unfold bind at 1, lift at 1. cbn [py_iter].
    unfold bind at 1. rewrite Hall. reflexivity.
  - intros record s3_event pre x post s s1 e s2 Hev Hrec Hpre Hx.
    unfold handle_record, bind at 1, lift at 1. rewrite Hev.
    unfold bind at 1, lift at 1. rewrite Hrec.
    replace (truthy (JArr (pre ++ x :: post))) with true by (destruct pre; reflexivity).
    cbn [negb py_iter]. unfold bind at 1, lift at 1.
    exact (for_each_stops _ _ _ _ _ _ _ _ Hpre Hx).
  - intros s3_record bucket key0 s e s2 (s3 & b & o & H1 & H2 & H3 & H4 & H5) Hp.
    unfold handle_s3_record, bind, lift. rewrite H1, H2, H3, H4, H5, Hp. reflexivity.
Qed.

End RouterFacts.

(** *** The deployment of the examples *)

Section RouterInstances.

Import TriggerUpload Spec RouterFixtures.

#[local] Open Scope string_scope.
#[local] Open Scope list_scope.

(** C1 fails as stated: of two uploads, the first fails at the metadata
    lookup; the handler answers 500 and has made that one call only, while
    the second upload, sent alone, is processed. *)
Lemma failed_record_ends_the_batch :
  @lambda_handler deployment two_uploads start
    = (Returns (mkResponse 500 (ErrorOf ClientError)),
       @mkState deployment 1%nat [EvHeadObject "docs" "gone.pdf"]) /\
  @lambda_handler deployment (JObj [("Records", JArr [sqs_record "upload invoice.pdf"])]) start
    = (Returns (mkResponse 200 ProcessingCompleted),
       @mkState deployment 1%nat
         [EvHeadObject "docs" "invoice.pdf"; EvExistingBedrock "docs" "invoice.pdf"]).
Proof. split; vm_compute; reflexivity. Qed.

Lemma batch_stops_at_first_failure_witness :
  @lambda_handler deployment two_uploads start
    = (Returns (mkResponse 500 (ErrorOf ClientError)),
       @mkState deployment 1%nat [EvHeadObject "docs" "gone.pdf"]).
Proof.
  apply (proj1 (@batch_stops_at_first_failure deployment) two_uploads
           [] (sqs_record "upload gone.pdf") [sqs_record "upload invoice.pdf"]
           start start ClientError).
  - reflexivity.
  - reflexivity.
  - vm_compute. reflexivity.
Defined.

(** [memo.pdf] has no [document-type] at all. *)
Lemma other_documents_skip_code_decode_witness :
  @process_legal_document deployment "docs" "memo.pdf" start
    = (Returns false, @mkState deployment 1%nat [EvHeadObject "docs" "memo.pdf"]) /\
  @handle_s3_record deployment (s3_record "docs" "memo.pdf") start
    = (Returns tt,
       @mkState deployment 1%nat
         [EvHeadObject "docs" "memo.pdf"; EvExistingBedrock "docs" "memo.pdf"]).
Proof.
  assert (Hother : @other_document deployment "docs" "memo.pdf" 0%nat 1%nat).
  { exists (JObj [("Metadata", JObj [])]), (JObj []), "".
    repeat split; try reflexivity. discriminate. }
  destruct (@other_documents_skip_code_decode deployment "docs" "memo.pdf" start 1%nat Hother)
    as [Hp Hh].
  split; [exact Hp|].
  apply (Hh (s3_record "docs" "memo.pdf") "memo.pdf"); [|reflexivity].
  exists (JObj [("bucket", JObj [("name", JStr "docs")]);
                ("object", JObj [("key", JStr "memo.pdf")])]),
    (JObj [("name", JStr "docs")]), (JObj [("key", JStr "memo.pdf")]).
  repeat split; reflexivity.
Defined.

(** [blank.pdf] reads as no text; [deed.pdf] reads as a title. *)
Lemma slow_path_extraction_witness :
  @process_legal_document deployment "docs" "blank.pdf" start
    = (Raises (PlainException "VietOCR returned no text"),
       @mkState deployment 3%nat
         [EvHeadObject "docs" "blank.pdf";
          EvInvoke "arn:qr-detector" RequestResponse (doc_ref "docs" "blank.pdf");
          EvInvoke "arn:vietocr" RequestResponse (doc_ref "docs" "blank.pdf")]) /\
  @process_legal_document deployment "docs" "deed.pdf" start
    = (Returns true,
       @mkState deployment 5%nat
         [EvHeadObject "docs" "deed.pdf";
          EvInvoke "arn:qr-detector" RequestResponse (doc_ref "docs" "deed.pdf");
          EvInvoke "arn:vietocr" RequestResponse (doc_ref "docs" "deed.pdf");
          EvInvoke "arn:bedrock-qa" RequestResponse (JObj [("text", JStr "GIAY CHUNG NHAN")]);
          EvInvoke "arn:result-saver" Event
            (save_payload "docs" "deed.pdf" (JObj [("owner", JStr "Nguyen Van A")]))]).
Proof.
  assert (Hlegal : forall key, key = "blank.pdf" \/ key = "deed.pdf" ->
            @legal_registration deployment "docs" key 0%nat 1%nat).
  { intros key Hk. exists (tagged "Legal Registration"),
      (JObj [("document-type", JStr "Legal Registration")]), "Legal Registration".
    destruct Hk as [-> | ->]; repeat split; reflexivity. }
  assert (Hqr : forall key,
            @answers deployment "QR_DETECTOR_FN_ARN" (doc_ref "docs" key) 1%nat
              "arn:qr-detector" (JObj [("hasQR", JBool false)]) 2%nat).
  { intros key. split; [reflexivity|].
    exists (JObj [("statusCode", JNum 200); ("body", JStr "no-code")]).
    split; reflexivity. }
  split.
  - apply (proj1 (@slow_path_extraction deployment "docs" "blank.pdf" start 1%nat 2%nat 3%nat
             "arn:qr-detector" (JObj [("hasQR", JBool false)]) (JBool false)
             "arn:vietocr" (JObj [("text", JStr "")]) (JStr "")
             (Hlegal _ (or_introl eq_refl)) (Hqr _) eq_refl eq_refl
             (conj eq_refl (ex_intro _ (JObj [("statusCode", JNum 200); ("body", JStr "no-text")])
                              (conj eq_refl eq_refl)))
             eq_refl)).
    reflexivity.
  - apply (proj2 (proj2 (@slow_path_extraction deployment "docs" "deed.pdf" start 1%nat 2%nat 3%nat
             "arn:qr-detector" (JObj [("hasQR", JBool false)]) (JBool false)
             "arn:vietocr" (JObj [("text", JStr "GIAY CHUNG NHAN")]) (JStr "GIAY CHUNG NHAN")
             (Hlegal _ (or_intror eq_refl)) (Hqr _) eq_refl eq_refl
             (conj eq_refl (ex_intro _ (JObj [("statusCode", JNum 200); ("body", JStr "deed-text")])
                              (conj eq_refl eq_refl)))
             eq_refl) eq_refl "arn:bedrock-qa" eq_refl)
             (JObj [("owner", JStr "Nguyen Van A")]) 4%nat "arn:result-saver"
             (Returns (JObj [("StatusCode", JNum 202)])) 5%nat).
    + split; [reflexivity|]. exists (JObj [("owner", JStr "Nguyen Van A")]).
      split; reflexivity.
    + reflexivity.
    + reflexivity.
Defined.

End RouterInstances.

(** ** Further properties of the recognition service *)

(** *** The floats of the recognition view and of equal views *)

Section MoreFloatFacts.

Import Spec MoreSpec Fixtures.

(** [1600.0 / max_side] for every [max_side] below 1200. *)
Lemma scale_1600_ok m : 1 <= m <= 1199 -> scale_ok 1600 1599 11 m = true.
Proof.
  apply (scale_ok_all 1600 1599 11 1199). vm_compute. reflexivity.
Qed.

(** [side / side] for every side up to 4000. *)
Lemma unit_ratio_ok m : 1 <= m <= 4000 -> Py.int_truediv m m = Returns one.
Proof.
  intros Hm.
  assert (Hall : forallb unit_ratio (sides 4000) = true) by (vm_compute; reflexivity).
  rewrite forallb_forall in Hall. specialize (Hall m (sides_spec 4000 m Hm)).
  unfold unit_ratio in Hall. unfold one.
  destruct (Py.int_truediv m m) as [[| | |[] ms es]|]; try discriminate.
  apply andb_true_iff in Hall as [Hms Hes].
  apply Z.eqb_eq in Hms, Hes. injection Hms as ->. rewrite Hes. reflexivity.
Qed.

(** [int(float(c) * 1.0)] is [c]. *)
Lemma times_one c : 0 <= c < 2 ^ 51 -> Py.int_mul_float c one = Returns c.
Proof.
  intros Hc. destruct c as [|w|w]; [reflexivity| |lia].
  destruct (int_mul_float_bounds w 4503599627370496 (-52) 51) as (k & Hk & Hlo & Hhi);
    [lia|lia|reflexivity|lia|lia|].
  unfold one. rewrite Hk. f_equal.
  specialize (Hhi (Zpos w)).
  change (2 ^ (- -52)) with 4503599627370496 in *.
  change (2 ^ 52) with 4503599627370496 in *.
  change (2 ^ 51) with 2251799813685248 in *.
  rewrite Z.div_mul in Hlo by lia.
  assert (k <= Zpos w) by (apply Hhi; nia). lia.
Qed.

End MoreFloatFacts.

(** *** Preprocessing *)

Section ServerMore.

Import VietOcrServer Spec MoreSpec Fixtures.
Context `{Vision}.

Implicit Types (s : state) (im : image) (b : box) (evs : list event) (fd : bool).

Ltac zdec :=
  first [ apply Z.ltb_lt; lia | apply Z.ltb_ge; lia
        | rewrite Z.gtb_ltb; apply Z.ltb_lt; lia | rewrite Z.gtb_ltb; apply Z.ltb_ge; lia
        | apply Z.leb_le; lia | apply Z.leb_gt; lia ].

(** What the scaling step can do to the store: nothing, a new image at
    the end, or a new content for its argument. *)
Lemma smart_scale_cases img fd s im :
  heap s !! img = Some im ->
  exists r s1, smart_scale img fd s = (r, s1) /\
    ((s1 = s /\ (r = Returns img \/ exists e, r = Raises e)) \/
     (exists x, s1 = mkState (heap s ++ [x]) (trace s) /\ r = Returns (length (heap s))) \/
     (exists x, s1 = mkState (<[img := x]> (heap s)) (trace s) /\ r = Returns img)).
Proof.
  intros Hl. unfold smart_scale, bind, deref. cbv beta. rewrite Hl.
  assert (Hthumb : forall bx, exists r s1,
            (let (o, s') := pil_thumbnail img bx LANCZOS s in
             match o with Returns _ => ret img s' | Raises e => (Raises e, s') end) = (r, s1) /\
            ((s1 = s /\ (r = Returns img \/ exists e, r = Raises e)) \/
             (exists x, s1 = mkState (heap s ++ [x]) (trace s) /\ r = Returns (length (heap s))) \/
             (exists x, s1 = mkState (<[img := x]> (heap s)) (trace s) /\ r = Returns img))).
  { intros bx. unfold pil_thumbnail, bind, deref, store, ret. cbv beta. rewrite Hl.
    destruct ((width im <=? bx.1) && (height im <=? bx.2)); eauto 10. }
  assert (Hup : forall target, exists r s1,
            upscale_to target im s = (r, s1) /\
            ((s1 = s /\ (r = Returns img \/ exists e, r = Raises e)) \/
             (exists x, s1 = mkState (heap s ++ [x]) (trace s) /\ r = Returns (length (heap s))) \/
             (exists x, s1 = mkState (<[img := x]> (heap s)) (trace s) /\ r = Returns img))).
  { intros target. unfold upscale_to, bind, lift, alloc.
    destruct (Py.lit_div_int target (max_side im)) as [sc|e]; [|eauto 10].
    destruct (Py.int_mul_float (width im) sc) as [w|e]; [|eauto 10].
    destruct (Py.int_mul_float (height im) sc) as [h|e]; [|eauto 10].
    destruct (pil_resize LANCZOS im (w, h)) as [im'|e]; eauto 10. }
  destruct fd.
  - destruct (max_side im >? 5000); [apply Hthumb|].
    destruct (max_side im <? 2000); [apply Hup|]. unfold ret. eauto 10.
  - destruct (max_side im >? 4000); [apply Hthumb|].
    destruct (max_side im <? 1200); [apply Hup|]. unfold ret. eauto 10.
Qed.

Lemma preprocess_image_shape img fd s im :
    heap s !! img = Some im ->
    exists out s' im',
      preprocess_image img fd s = (Returns out, s') /\
      heap s' !! out = Some im' /\
      trace s' = trace s /\
      is_Some (heap s' !! img) /\
      forall l x, l <> img -> heap s !! l = Some x -> heap s' !! l = Some x.
Proof.
  intros Hl.
  destruct (smart_scale_cases img fd s im Hl) as (r & s1 & Hss & Hcases).
  assert (Hs1 : trace s1 = trace s /\ is_Some (heap s1 !! img) /\
                (forall l x, l <> img -> heap s !! l = Some x -> heap s1 !! l = Some x) /\
                forall img', r = Returns img' -> is_Some (heap s1 !! img')).
  { destruct Hcases as [(-> & Hr)|[(x & -> & ->)|(x & -> & ->)]]; cbn [heap trace].
    - repeat split; eauto. intros img' ->. destruct Hr as [Hr|(e & Hr)]; simplify_eq. eauto.
    - repeat split.
      + exists im. apply lookup_app_l_Some. exact Hl.
      + intros l y _ Hy. apply lookup_app_l_Some. exact Hy.
      + intros img' Hr. simplify_eq. exists x. apply list_lookup_middle. reflexivity.
    - assert (Hx : <[img := x]> (heap s) !! img = Some x)
        by (apply list_lookup_insert_eq; exact (lookup_lt_Some _ _ _ Hl)).
      repeat split; eauto.
      + intros l y Hne Hy. rewrite list_lookup_insert_ne by congruence. exact Hy.
      + intros img' Hr. simplify_eq. eauto. }
  destruct Hs1 as (Htr & Himg & Hkeep & Hlive).
  destruct r as [img'|e].
  - rewrite (run_preprocess _ _ _ _ _ Hss).
    destruct (Hlive img' eq_refl) as (im1 & Hl1).
    destruct (contrast_step_result img' im1 s1 Hl1)
      as (out & s' & im' & E & Hout & _ & Htr' & Hkeep').
    exists out, s', im'. split; [exact E|]. split; [exact Hout|].
    split; [congruence|]. split.
    + destruct Himg as (y & Hy). exists y. apply Hkeep'. exact Hy.
    + intros l y Hne Hy. apply Hkeep', Hkeep; assumption.
  - destruct Himg as (y & Hy). exists img, s1, y.
    split; [unfold preprocess_image, try_except, bind; rewrite Hss; reflexivity|].
    split; [exact Hy|]. split; [exact Htr|]. split; [eauto|exact Hkeep].
Qed.

(** X1. [preprocess_image] never raises: on an image of the store it
    returns an image of the store, whatever the libraries do (a side that
    scales to nothing, a failing colour conversion). It makes no
    recognition call, its argument is still an image of the store, and
    every other image of the store is as it was. *)
Theorem preprocess_image_always_returns :
  forall img fd s im,
    heap s !! img = Some im ->
    exists out s' im',
      preprocess_image img fd s = (Returns out, s') /\
      heap s' !! out = Some im' /\
      trace s' = trace s /\
      is_Some (heap s' !! img) /\
      forall l x, l <> img -> heap s !! l = Some x -> heap s' !! l = Some x.
Proof. intros img fd s im. apply preprocess_image_shape. Qed.

(** X2. The image given to [preprocess_image] is the same afterwards
    exactly when its longer side is within the upper threshold of the
    mode (5000 for detection, 4000 for recognition): below it scaling and
    contrast produce new images, above it the image itself is shrunk. *)
Theorem argument_kept_up_to_the_threshold :
  thumbnail_contract ->
  forall img fd s im,
    heap s !! img = Some im -> 1 <= width im -> 1 <= height im ->
    (heap (preprocess_image img fd s).2 !! img = Some im
     <-> max_side im <= (if fd then 5000 else 4000)).
Proof.
  intros Hthumb img fd s im Hl Hw Hh. split.
  - intros Hsame.
    destruct (Z.le_gt_cases (max_side im) (if fd then 5000 else 4000)) as [|Hbig];
      [assumption|exfalso].
    rewrite (run_preprocess _ _ _ _ _ (smart_scale_thumbnail img fd s im Hl Hbig)) in Hsame.
    set (bx := if fd then (3200, 3200) else (2400, 2400)) in *.
    set (sz := thumbnail_size (size im) bx) in *.
    set (im1 := mkImg sz.1 sz.2 (resample LANCZOS im sz)) in *.
    assert (Hl1 : <[img := im1]> (heap s) !! img = Some im1)
      by (apply list_lookup_insert_eq; exact (lookup_lt_Some _ _ _ Hl)).
    destruct (contrast_step_result img im1 (mkState (<[img := im1]> (heap s)) (trace s)) Hl1)
      as (out & s' & im' & E' & _ & _ & _ & Hkeep).
    rewrite E' in Hsame. cbn [snd] in Hsame.
    pose proof (eq_trans (eq_sym (Hkeep _ _ Hl1)) Hsame) as Heq. injection Heq as Heq.
    clear Hsame. rename Heq into Hsame.
    destruct (Hthumb (width im) (height im) bx.1 bx.2 Hw Hh) as (H1 & H2 & _).
    + unfold bx. destruct fd; cbn; lia.
    + unfold bx. destruct fd; cbn; lia.
    + unfold max_side in Hbig. unfold bx. destruct fd; cbn; lia.
    + replace (bx.1, bx.2) with bx in H1, H2 by (unfold bx; destruct fd; reflexivity).
      fold (size im) in H1, H2. fold sz in H1, H2.
      assert (Hwid : width im = sz.1) by (rewrite <- Hsame; reflexivity).
      assert (Hhei : height im = sz.2) by (rewrite <- Hsame; reflexivity).
      clear Hsame.
      unfold max_side in Hbig. unfold bx in H1, H2. destruct fd; cbn [fst snd] in *; lia.
  - apply preprocess_image_keeps_argument. exact Hl.
Qed.

Lemma smart_scale_upscale_recognition img s im :
  heap s !! img = Some im ->
  1 <= width im -> 1 <= height im -> max_side im < 1200 ->
  exists nw nh,
    smart_scale img false s =
      (Returns (length (heap s)),
       mkState (heap s ++ [mkImg nw nh (resample LANCZOS im (nw, nh))]) (trace s)) /\
    width im <= nw <= 1600 /\ height im <= nh <= 1600 /\ 1599 <= Z.max nw nh.
Proof.
  intros Hl Hw Hh Hm. unfold max_side in Hm.
  assert (Hok : scale_ok 1600 1599 11 (max_side im) = true)
    by (apply scale_1600_ok; unfold max_side; lia).
  destruct (scaled_side 1600 1599 11 (max_side im) (width im) Hok)
    as (sc & nw & Hsc & Hnw & Hbw & Hlw);
    [lia|unfold max_side; lia|change (2 ^ 11) with 2048; lia|].
  destruct (scaled_side 1600 1599 11 (max_side im) (height im) Hok)
    as (sc' & nh & Hsc' & Hnh & Hbh & Hlh);
    [lia|unfold max_side; lia|change (2 ^ 11) with 2048; lia|].
  rewrite Hsc in Hsc'. injection Hsc' as <-.
  exists nw, nh. split; [|split; [exact Hbw|split; [exact Hbh|]]].
  - unfold smart_scale, bind, deref. cbv beta. rewrite Hl.
    replace (max_side im >? 4000) with false
      by (symmetry; unfold max_side; zdec).
    replace (max_side im <? 1200) with true
      by (symmetry; unfold max_side; zdec).
    unfold upscale_to, bind, lift. rewrite Hsc, Hnw, Hnh.
    unfold pil_resize. cbn [fst snd].
    replace ((nw <? 1) || (nh <? 1)) with false; [reflexivity|].
    symmetry. apply orb_false_iff. split; apply Z.ltb_ge; lia.
  - unfold max_side in Hlw, Hlh.
    destruct (Z.max_spec (width im) (height im)) as [[_ E]|[_ E]].
    + specialize (Hlh (eq_sym E)). lia.
    + specialize (Hlw (eq_sym E)). lia.
Qed.

(** X3. The recognition view ([for_detection=False]) of an image with
    sides of one pixel at least: between 1200 and 4000 on the longer side
    the size is kept; below 1200 the image is enlarged, no side shrinks
    and the longer side becomes 1599 or 1600 (the float product is
    truncated); above 4000 the longer side is brought to 2400 at most,
    with the aspect of the image up to the rounding of one side. *)
Theorem recognition_scaling_table :
  thumbnail_contract ->
  forall s img im,
    heap s !! img = Some im -> 1 <= width im -> 1 <= height im ->
    exists out s' im',
      preprocess_image img false s = (Returns out, s') /\
      heap s' !! out = Some im' /\
      (1200 <= max_side im <= 4000 -> size im' = size im) /\
      (max_side im < 1200 ->
         1599 <= max_side im' <= 1600 /\
         width im <= width im' /\ height im <= height im') /\
      (4000 < max_side im ->
         max_side im' <= 2400 /\
         Z.abs (width im' * height im - height im' * width im) <= max_side im).
Proof.
  intros Hthumb s img im Hl Hw Hh.
  destruct (Z.lt_ge_cases (max_side im) 1200) as [Hsmall|Hge];
    [|destruct (Z.le_gt_cases (max_side im) 4000) as [Hmid|Hbig]].
  - destruct (smart_scale_upscale_recognition img s im Hl Hw Hh Hsmall)
      as (nw & nh & E & Hnw & Hnh & Hmax).
    rewrite (run_preprocess _ _ _ _ _ E).
    destruct (contrast_step_result (length (heap s))
                (mkImg nw nh (resample LANCZOS im (nw, nh)))
                (mkState (heap s ++ [mkImg nw nh (resample LANCZOS im (nw, nh))]) (trace s)))
      as (out & s' & im' & E' & Hout & Hsz & _ & _).
    { cbn [heap]. apply list_lookup_middle. reflexivity. }
    exists out, s', im'. split; [exact E'|split; [exact Hout|]].
    unfold size in Hsz. cbn [width height] in Hsz. injection Hsz as Hw' Hh'.
    unfold max_side in *. rewrite Hw', Hh'.
    split; [lia|split; lia].
  - rewrite (run_preprocess _ _ _ _ _
               (smart_scale_identity img false s im Hl ltac:(cbv iota; lia))).
    destruct (contrast_step_result img im s Hl) as (out & s' & im' & E' & Hout & Hsz & _ & _).
    exists out, s', im'. split; [exact E'|split; [exact Hout|]].
    split; [intros _; exact Hsz|split; unfold max_side in *; lia].
  - rewrite (run_preprocess _ _ _ _ _ (smart_scale_thumbnail img false s im Hl Hbig)).
    set (sz := thumbnail_size (size im) (2400, 2400)).
    destruct (contrast_step_result img (mkImg sz.1 sz.2 (resample LANCZOS im sz))
                (mkState (<[img := mkImg sz.1 sz.2 (resample LANCZOS im sz)]> (heap s)) (trace s)))
      as (out & s' & im' & E' & Hout & Hsz & _ & _).
    { cbn [heap]. apply list_lookup_insert_eq. exact (lookup_lt_Some _ _ _ Hl). }
    exists out, s', im'. split; [exact E'|split; [exact Hout|]].
    split; [unfold max_side in *; lia|split; [unfold max_side in *; lia|intros _]].
    unfold size in Hsz. cbn [width height] in Hsz. injection Hsz as Hw' Hh'.
    destruct (Hthumb (width im) (height im) 2400 2400 Hw Hh ltac:(lia) ltac:(lia))
      as (H1 & H2 & H3).
    { unfold max_side in Hbig. lia. }
    fold (size im) in H1, H2, H3. fold sz in H1, H2, H3.
    unfold max_side. rewrite Hw', Hh'. split; [lia|exact H3].
Qed.

(** *** Pages that need no scaling *)

Lemma scale_coords_one k poly :
  Forall (fun p => exists c, p !! k = Some c /\ 0 <= c < 2 ^ 51) poly ->
  scale_coords k one poly = Returns (map (fun p => default 0 (p !! k)) poly).
Proof.
  induction 1 as [|p ps (c & Hc & Hr) _ IH]; [reflexivity|].
  cbn [scale_coords map]. rewrite Hc, (times_one c Hr), IH. reflexivity.
Qed.

(** X4. A page whose longer side is between 2000 and 4000 is scaled for
    neither view: both views have the size of the page, the two
    coordinate factors are exactly 1.0 and the coordinates of a
    well-formed polygon map to themselves. *)
Theorem unscaled_page_maps_identically :
  forall image s im,
    heap s !! image = Some im -> 1 <= width im -> 1 <= height im ->
    2000 <= max_side im <= 4000 ->
    exists d s1 p s2 det_im rec_im,
      preprocess_image image true s = (Returns d, s1) /\
      preprocess_image image false s1 = (Returns p, s2) /\
      heap s2 !! d = Some det_im /\ heap s2 !! p = Some rec_im /\
      size det_im = size im /\ size rec_im = size im /\
      Py.int_truediv (width rec_im) (width det_im) = Returns one /\
      Py.int_truediv (height rec_im) (height det_im) = Returns one /\
      forall poly, well_formed poly ->
        scale_coords 0 one poly = Returns (xs_of poly) /\
        scale_coords 1 one poly = Returns (ys_of poly).
Proof.
  intros image s im Hl Hw Hh Hm.
  pose proof (run_preprocess _ _ _ _ _
                (smart_scale_identity image true s im Hl ltac:(cbv iota; lia))) as E1.
  destruct (contrast_step_result image im s Hl)
    as (d & s1 & det_im & E1' & Hd & Hdsz & _ & Hkeep1).
  rewrite E1' in E1.
  pose proof (Hkeep1 _ _ Hl) as Hl1.
  pose proof (run_preprocess _ _ _ _ _
                (smart_scale_identity image false s1 im Hl1 ltac:(cbv iota; lia))) as E2.
  destruct (contrast_step_result image im s1 Hl1)
    as (p & s2 & rec_im & E2' & Hp & Hpsz & _ & Hkeep2).
  rewrite E2' in E2.
  exists d, s1, p, s2, det_im, rec_im.
  split; [exact E1|]. split; [exact E2|]. split; [apply Hkeep2; exact Hd|].
  split; [exact Hp|]. split; [exact Hdsz|]. split; [exact Hpsz|].
  unfold size in Hdsz, Hpsz. injection Hdsz as Hdw Hdh. injection Hpsz as Hpw Hph.
  rewrite Hdw, Hdh, Hpw, Hph. unfold max_side in Hm.
  split; [apply unit_ratio_ok; lia|]. split; [apply unit_ratio_ok; lia|].
  intros poly Hpoly. split; apply scale_coords_one;
    (eapply Forall_impl; [exact Hpoly|]); intros pt (x & y & -> & Hx & Hy); cbn; eauto.
Qed.

(** *** Requests *)

(** *** The steps of the route *)



(** The name [traceback] is bound only after the detector raised. *)
Lemma detect_flag d p s boxes s' :
  detect d p s = (Returns (boxes, true), s') ->
  exists det_im arr,
    heap s !! d = Some det_im /\
    preprocess_for_detection det_im = Returns arr /\ det_ocr arr = None.
Proof.
  unfold detect, bind, deref, lift, ret.
  destruct (heap s !! d) as [det_im|] eqn:Hd; [|discriminate].
  destruct (preprocess_for_detection det_im) as [arr|] eqn:Harr; [|discriminate].
  destruct (heap s !! p) as [rec_im|]; [|discriminate].
  destruct (plain_bgr rec_im); [|discriminate].
  destruct (det_ocr arr) eqn:Ed; [discriminate|].
  intros _. exists det_im, arr. auto.
Qed.


(** *** The text of a response *)

(** A text that begins and ends with a character [strip] keeps. *)
Lemma trimmed_ends t :
  trimmed_line t ->
  (exists c t', t = c :: t' /\ is_space c = false) /\
  (exists c t', rev t = c :: t' /\ is_space c = false).
Proof.
  intros [Hne Hfix]. unfold strip, rstrip in Hfix.
  set (u := lstrip t) in *.
  assert (Hrev : rev t = lstrip (rev u)) by (rewrite <- Hfix at 1; apply rev_involutive).
  destruct (lstrip_suffix (rev u)) as (pre & Hpre).
  destruct (lstrip_suffix t) as (pre' & Hpre'). fold u in Hpre'.
  assert (Hu : u = t ++ rev pre).
  { rewrite <- (rev_involutive u), Hpre, rev_app_distr, <- Hrev, rev_involutive.
    reflexivity. }
  assert (Hlen : (length t = length pre' + length u)%nat)
    by (rewrite Hpre' at 1; apply length_app).
  assert (Hlen' : (length u = length t + length pre)%nat)
    by (rewrite Hu at 1; rewrite length_app, length_rev; reflexivity).
  assert (pre' = []) by (destruct pre'; [reflexivity|cbn in Hlen; lia]).
  subst pre'. cbn in Hpre'. split.
  - destruct t as [|c t']; [congruence|]. exists c, t'. split; [reflexivity|].
    exact (lstrip_head _ _ _ (eq_sym Hpre')).
  - destruct (rev t) as [|c t'] eqn:Er.
    + apply (f_equal (@rev _)) in Er. rewrite rev_involutive in Er. cbn in Er. congruence.
    + exists c, t'. split; [reflexivity|]. exact (lstrip_head _ _ _ (eq_sym Hrev)).
Qed.

Lemma ends_trimmed t :
  (exists c t', t = c :: t' /\ is_space c = false) ->
  (exists c t', rev t = c :: t' /\ is_space c = false) ->
  trimmed_line t.
Proof.
  intros (c & t' & -> & Hc) (c' & t'' & Hr & Hc'). split; [discriminate|].
  unfold strip, rstrip. rewrite (lstrip_fixed _ _ Hc), Hr, (lstrip_fixed _ _ Hc'), <- Hr.
  apply rev_involutive.
Qed.

Lemma join_lines_trimmed l ls :
  Forall trimmed_line (l :: ls) -> trimmed_line (join_lines (l :: ls)).
Proof.
  revert l. induction ls as [|l2 ls IH]; intros l Hall.
  - inversion Hall; assumption.
  - inversion Hall as [|? ? Hl Hrest]; subst.
    specialize (IH l2 Hrest).
    change (join_lines (l :: l2 :: ls)) with (l ++ 10%N :: join_lines (l2 :: ls)).
    destruct (trimmed_ends _ Hl) as ((c & t' & -> & Hc) & _).
    destruct (trimmed_ends _ IH) as (_ & (c' & t'' & Hr & Hc')).
    apply ends_trimmed.
    + exists c, (t' ++ 10%N :: join_lines (l2 :: ls)). split; [reflexivity|exact Hc].
    + exists c', (t'' ++ [10%N] ++ rev (c :: t')). split; [|exact Hc'].
      set (J := join_lines (l2 :: ls)) in *.
      assert (E : rev ((c :: t') ++ 10%N :: J) = (rev J ++ [10%N]) ++ rev (c :: t'))
        by (rewrite rev_app_distr; reflexivity).
      change (c :: t' ++ 10%N :: J) with ((c :: t') ++ 10%N :: J).
      rewrite E, Hr. rewrite <- app_assoc. reflexivity.
Qed.

(** X7. In a 200 answer the text is empty exactly when
    [regions_detected] is 0, and it is trimmed: it neither begins nor
    ends with white space. *)
Theorem response_text_is_trimmed :
  forall req s res s',
    ocr req s = (Returns (Resp200 res), s') ->
    (text_field res = [] <-> regions_detected res = 0%nat) /\
    strip (text_field res) = text_field res.
Proof.
  intros req s res s' Hrun.
  destruct (ocr_run _ _ _ _ Hrun) as (evs & _ & _ & Hres).
  destruct (Hres res eq_refl) as (Hcount & Htext & Hlines & _).
  rewrite Htext, Hcount.
  destruct (kept_lines res) as [|l ls]; [split; [split; reflexivity|reflexivity]|].
  destruct (join_lines_trimmed l ls Hlines) as [Hne Hfix].
  split; [split; [congruence|discriminate]|exact Hfix].
Qed.

(** *** Regions *)






(** The crop of a region that is kept, as the recogniser gets it. *)
Lemma extract_region_legible rec_im idx x1 y1 x2 y2 s :
  1 <= x2 - x1 < 2 ^ 40 -> 1 <= y2 - y1 ->
  exists crop evs,
    extract_region rec_im idx (x1, y1, x2, y2) s
      = (Returns crop, mkState (heap s) (trace s ++ evs)) /\
    Forall legible evs /\ 1 <= width crop /\ 48 <= height crop.
Proof.
  intros Hw Hh. unfold extract_region.
  rewrite (bind_returns _ _ _ _ _ (emit_run _ s)). cbn [height width].
  destruct (y2 - y1 <? 48) eqn:Hsmall.
  - apply Z.ltb_lt in Hsmall.
    destruct (scaled_up 48 47 40 (y2 - y1) (x2 - x1)) as (sc & nw & Hsc & Hnw & Hle);
      [apply scale_48_ok; lia|lia|lia|].
    unfold bind, lift. rewrite Hsc, Hnw, emit_run. cbn [heap trace].
    unfold pil_resize. cbn [fst snd].
    replace ((nw <? 1) || (48 <? 1)) with false
      by (symmetry; apply orb_false_iff; split; apply Z.ltb_ge; lia).
    eexists _, [EvCrop idx (x1, y1, x2, y2); EvUpscale idx (nw, 48)].
    split; [rewrite <- app_assoc; reflexivity|].
    split; [repeat constructor|]. cbn [width height]. lia.
  - apply Z.ltb_ge in Hsmall.
    eexists _, [EvCrop idx (x1, y1, x2, y2)].
    split; [reflexivity|]. split; [repeat constructor|]. cbn [width height]. lia.
Qed.

Lemma region_box_width W Hh xs ys x1 y1 x2 y2 :
  region_box W Hh xs ys = Returns (x1, y1, x2, y2) -> 0 <= x1 /\ x2 <= W.
Proof.
  unfold region_box. intros Hb.
  apply obind_returns_inv in Hb as (xmin & _ & Hb).
  apply obind_returns_inv in Hb as (ymin & _ & Hb).
  apply obind_returns_inv in Hb as (xmax & _ & Hb).
  apply obind_returns_inv in Hb as (ymax & _ & Hb).
  injection Hb as <- <- <- <-. lia.
Qed.

Lemma process_region_legible rec_im sx sy lines idx poly s :
  width rec_im < 2 ^ 40 ->
  exists r evs,
    process_region rec_im sx sy lines idx poly s = (r, mkState (heap s) (trace s ++ evs)) /\
    Forall legible evs.
Proof.
  intros HW.
  assert (Hskip : forall r : outcome (list text), exists r' evs,
    (r, s) = (r', mkState (heap s) (trace s ++ evs)) /\ Forall legible evs).
  { intros r. exists r, []. rewrite state_eta. split; [reflexivity|constructor]. }
  unfold process_region.
  destruct poly as [|p poly']; [apply Hskip|].
  set (poly := p :: poly') in *.
  destruct (4 <=? length poly)%nat; [|apply Hskip].
  destruct (scale_coords 0 sx poly) as [xs|e]; cbn [obind].
  2:{ destruct e; apply Hskip. }
  destruct (scale_coords 1 sy poly) as [ys|e]; cbn [obind].
  2:{ destruct e; apply Hskip. }
  unfold bind at 1, lift at 1.
  destruct (region_box (width rec_im) (height rec_im) xs ys) as [b|e] eqn:Hb;
    [|apply Hskip].
  destruct b as [[[x1 y1] x2] y2].
  destruct ((x2 >? x1) && (y2 >? y1)) eqn:Hnd; [|apply Hskip].
  apply andb_true_iff in Hnd as [Hx Hy].
  apply Z.gtb_lt in Hx. apply Z.gtb_lt in Hy.
  destruct (region_box_width _ _ _ _ _ _ _ _ Hb) as [Hx1 Hx2].
  destruct (extract_region_legible rec_im idx x1 y1 x2 y2 s)
    as (crop & evs & Hex & Hevs & Hcw & Hch); [lia|lia|].
  unfold bind at 1. rewrite Hex.
  rewrite (bind_returns _ _ _ _ _ (emit_run _ _)). cbn [heap trace].
  rewrite <- app_assoc.
  exists (match predict crop with
          | Some t => Returns (keep_line lines t)
          | None => Raises LibraryError
          end), (evs ++ [EvRecognizeRegion idx (size crop)]).
  split.
  - unfold bind, run_predict. destruct (predict crop); reflexivity.
  - apply Forall_app. split; [exact Hevs|]. repeat constructor; assumption.
Qed.

(** X9. The recogniser never gets a patch it cannot read for its size:
    every region patch of the loop is 48 rows high at least and one
    column wide at least, whatever the detector reported, for a
    recognition view narrower than [2^40]. *)
Theorem recognised_patches_are_legible :
  forall rec_im sx sy polys idx lines s,
    width rec_im < 2 ^ 40 ->
    exists r evs,
      region_loop rec_im sx sy idx polys lines s = (r, mkState (heap s) (trace s ++ evs)) /\
      Forall legible evs.
Proof.
  intros rec_im sx sy polys idx lines s HW. revert idx lines s.
  induction polys as [|poly rest IH]; intros idx lines s.
  - exists (Returns lines), []. cbn [region_loop]. unfold ret. rewrite state_eta.
    split; [reflexivity|constructor].
  - cbn [region_loop].
    destruct (process_region_legible rec_im sx sy lines idx poly s HW) as (r1 & evs1 & E1 & H1).
    unfold bind. rewrite E1. destruct r1 as [lines'|e].
    + destruct (IH (S idx) lines' (mkState (heap s) (trace s ++ evs1))) as (r2 & evs2 & E2 & H2).
      cbn [heap trace] in E2. rewrite <- app_assoc in E2.
      exists r2, (evs1 ++ evs2). split; [exact E2|]. apply Forall_app. split; assumption.
    + exists (Raises e), evs1. split; [reflexivity|exact H1].
Qed.

End ServerMore.

(** *** The route *)

Section RouteMore.

Import VietOcrServer Spec MoreSpec.
Context `{Vision} `{ServerModels.ModelLib}.

(** X5. What [ocr] makes of a request. It answers 400 exactly when the
    request is refused (no body, no or an empty [dataBase64], a value
    that is not a string, data that do not decode), and then nothing was
    stored, loaded or recognised. Otherwise it answers 200, or 500, or
    no answer is produced at all: the handler of the outer [try] reads
    [traceback], a local name of [ocr] that only the handler of the
    detection step binds, so that an exception which is raised while the
    name is unbound ends as an [UnboundLocalError] that leaves [ocr]. A
    500 answer is only ever given after the call of the detector raised.
    A body that is not an object ([data.get] fails) always ends in this
    way. *)
Theorem ocr_answers_or_fails_unbound :
  forall req s,
  exists r s',
    VietOcrApp.ocr req s = (r, s') /\
    ((exists resp, r = Returns resp) \/ r = Raises UnboundLocalError) /\
    ((exists msg, r = Returns (Resp400 msg)) <-> refused req) /\
    (refused req -> s' = s) /\
    (forall e, r = Returns (Resp500 e) ->
       exists det_im arr,
         preprocess_for_detection det_im = Returns arr /\ det_ocr arr = None) /\
    (req = NotAnObject -> r = Raises UnboundLocalError /\ s' = s).
Proof.
  intros req s.
  assert (Hunbound : forall s1, ~ refused req -> req <> NotAnObject ->
    exists r s',
      (Raises UnboundLocalError : outcome response, s1) = (r, s') /\
      ((exists resp, r = Returns resp) \/ r = Raises UnboundLocalError) /\
      ((exists msg, r = Returns (Resp400 msg)) <-> refused req) /\
      (refused req -> s' = s) /\
      (forall e, r = Returns (Resp500 e) ->
         exists det_im arr,
           preprocess_for_detection det_im = Returns arr /\ det_ocr arr = None) /\
      (req = NotAnObject -> r = Raises UnboundLocalError /\ s' = s)).
  { intros s1 Hr Hn. eexists _, _. split; [reflexivity|].
    split; [right; reflexivity|]. split; [split; [intros (? & ?); discriminate|tauto]|].
    split; [tauto|]. split; [discriminate|tauto]. }
  assert (Hrefused : forall msg, refused req -> req <> NotAnObject ->
    exists r s',
      (Returns (Resp400 msg), s) = (r, s') /\
      ((exists resp, r = Returns resp) \/ r = Raises UnboundLocalError) /\
      ((exists msg, r = Returns (Resp400 msg)) <-> refused req) /\
      (refused req -> s' = s) /\
      (forall e, r = Returns (Resp500 e) ->
         exists det_im arr,
           preprocess_for_detection det_im = Returns arr /\ det_ocr arr = None) /\
      (req = NotAnObject -> r = Raises UnboundLocalError /\ s' = s)).
  { intros msg Hr Hn. eexists _, _. split; [reflexivity|].
    split; [left; eauto|]. split; [split; eauto|].
    split; [reflexivity|]. split; [discriminate|tauto]. }
  destruct req as [| |[d|]|detail].
  - apply Hrefused; [exact I|discriminate].
  - eexists _, _. split; [reflexivity|]. split; [right; reflexivity|].
    split; [split; [intros (? & ?); discriminate|intros []]|].
    split; [intros []|]. split; [discriminate|]. split; reflexivity.
  - destruct (string_dec d EmptyString) as [->|Hne];
      [apply Hrefused; [exact I|discriminate]|].
    destruct (decode_image d) as [im|] eqn:Hi.
    2:{ destruct d as [|c d]; [congruence|]. cbn [VietOcrApp.ocr]. rewrite Hi.
        apply Hrefused; [exact Hi|discriminate]. }
    assert (Hr : ~ refused (Json (Some d))).
    { destruct d as [|c d]; [congruence|]. cbn [refused]. congruence. }
    rewrite (app_ocr_decoded _ _ _ Hne Hi).
    destruct (views _ _) as [[[dl pl]|e] i1]; [|apply Hunbound; [exact Hr|discriminate]].
    destruct ((ServerModels.init_detector ;; ServerModels.init_predictor) _)
      as [[m|e] g1]; [|apply Hunbound; [exact Hr|discriminate]].
    destruct (detect dl pl i1) as [[[boxes tb]|e] i2] eqn:E2;
      [|apply Hunbound; [exact Hr|discriminate]].
    destruct (recognise dl pl boxes i2) as [[res|e] i3].
    + eexists _, _. split; [reflexivity|]. split; [left; eauto|].
      split; [split; [intros (? & ?); discriminate|tauto]|].
      split; [tauto|]. split; discriminate.
    + destruct tb; [|apply Hunbound; [exact Hr|discriminate]].
      destruct (detect_flag _ _ _ _ _ E2) as (det_im & arr & _ & Harr & Hdet).
      eexists _, _. split; [reflexivity|]. split; [left; eauto|].
      split; [split; [intros (? & ?); discriminate|tauto]|].
      split; [tauto|]. split; [eauto|discriminate].
  - apply Hrefused; [exact I|discriminate].
  - apply Hrefused; [exact I|discriminate].
Qed.


End RouteMore.

(** *** The further properties on the pages of the examples *)

Section ServerMoreInstances.

Import VietOcrServer Spec MoreSpec Fixtures MoreFixtures ModelFixtures.

Lemma preprocess_image_always_returns_witness :
  exists out s' im',
    @preprocess_image no_boxes 0%nat true (@mkState no_boxes [blank 800 600] [])
      = (Returns out, s') /\
    heap s' !! out = Some im' /\
    trace s' = [] /\
    is_Some (heap s' !! 0%nat) /\
    forall l x, l <> 0%nat ->
      heap (@mkState no_boxes [blank 800 600] []) !! l = Some x -> heap s' !! l = Some x.
Proof.
  exact (@preprocess_image_always_returns no_boxes 0%nat true
           (@mkState no_boxes [blank 800 600] []) (blank 800 600) eq_refl).
Defined.

Lemma argument_kept_up_to_the_threshold_witness :
  heap (@preprocess_image no_boxes 0%nat false
          (@mkState no_boxes [blank 3000 2000] [])).2 !! 0%nat = Some (blank 3000 2000)
  <-> @max_side no_boxes (blank 3000 2000) <= 4000.
Proof.
  apply (@argument_kept_up_to_the_threshold no_boxes (fit_box_contract _ _ _ _) 0%nat false
           (@mkState no_boxes [blank 3000 2000] []) (blank 3000 2000));
    [reflexivity|cbn; lia|cbn; lia].
Defined.

Lemma recognition_scaling_table_witness :
  exists out s' im',
    @preprocess_image no_boxes 0%nat false (@mkState no_boxes [blank 281 100] [])
      = (Returns out, s') /\
    heap s' !! out = Some im' /\
    (1200 <= @max_side no_boxes (blank 281 100) <= 4000 -> @size no_boxes im' = @size no_boxes (blank 281 100)) /\
    (@max_side no_boxes (blank 281 100) < 1200 ->
       1599 <= @max_side no_boxes im' <= 1600 /\
       width (blank 281 100) <= width im' /\ height (blank 281 100) <= height im') /\
    (4000 < @max_side no_boxes (blank 281 100) ->
       @max_side no_boxes im' <= 2400 /\
       Z.abs (width im' * height (blank 281 100) - height im' * width (blank 281 100))
         <= @max_side no_boxes (blank 281 100)).
Proof.
  apply (@recognition_scaling_table no_boxes (fit_box_contract _ _ _ _)
           (@mkState no_boxes [blank 281 100] []) 0%nat (blank 281 100));
    [reflexivity|cbn; lia|cbn; lia].
Defined.

Lemma unscaled_page_maps_identically_witness :
  exists d s1 p s2 det_im rec_im,
    @preprocess_image no_boxes 0%nat true (@mkState no_boxes [blank 3000 2000] [])
      = (Returns d, s1) /\
    @preprocess_image no_boxes 0%nat false s1 = (Returns p, s2) /\
    heap s2 !! d = Some det_im /\ heap s2 !! p = Some rec_im /\
    @size no_boxes det_im = @size no_boxes (blank 3000 2000) /\ @size no_boxes rec_im = @size no_boxes (blank 3000 2000) /\
    Py.int_truediv (width rec_im) (width det_im) = Returns one /\
    Py.int_truediv (height rec_im) (height det_im) = Returns one /\
    forall poly, well_formed poly ->
      scale_coords 0 one poly = Returns (xs_of poly) /\
      scale_coords 1 one poly = Returns (ys_of poly).
Proof.
  apply (@unscaled_page_maps_identically no_boxes 0%nat
           (@mkState no_boxes [blank 3000 2000] []) (blank 3000 2000));
    [reflexivity|cbn; lia|cbn; lia|unfold max_side; cbn; lia].
Defined.


Lemma response_text_is_trimmed_witness :
  (txt "Whole page" = [] <-> 1%nat = 0%nat) /\
  strip (txt "Whole page") = txt "Whole page".
Proof.
  exact (@response_text_is_trimmed no_boxes _ _ _ _ ocr_no_boxes).
Defined.


Lemma recognised_patches_are_legible_witness :
  exists r evs,
    @region_loop no_boxes (blank 2000 2000) one one 0 [rect 10 10 300 30] []
      (@mkState no_boxes [] [])
    = (r, @mkState no_boxes [] ([] ++ evs)) /\
    Forall legible evs.
Proof.
  apply (@recognised_patches_are_legible no_boxes (blank 2000 2000) one one
           [rect 10 10 300 30] 0%nat [] (@mkState no_boxes [] [])).
  cbn. lia.
Defined.

(** A body that is a JSON list: no answer, and nothing was done. *)
Lemma ocr_answers_or_fails_unbound_witness :
  exists r s',
    @VietOcrApp.ocr no_boxes models_ok NotAnObject
      (@VietOcrApp.mkState no_boxes models_ok (@mkState no_boxes [] [])
         (@ServerModels.mkState models_ok 0%nat None None [])) = (r, s') /\
    ((exists resp, r = Returns resp) \/ r = Raises UnboundLocalError) /\
    ((exists msg, r = Returns (Resp400 msg)) <-> @refused no_boxes NotAnObject) /\
    (@refused no_boxes NotAnObject ->
     s' = @VietOcrApp.mkState no_boxes models_ok (@mkState no_boxes [] [])
            (@ServerModels.mkState models_ok 0%nat None None [])) /\
    (forall e, r = Returns (Resp500 e) ->
       exists det_im arr,
         @preprocess_for_detection no_boxes det_im = Returns arr /\
         @det_ocr no_boxes arr = None) /\
    (NotAnObject = NotAnObject ->
     r = Raises UnboundLocalError /\
     s' = @VietOcrApp.mkState no_boxes models_ok (@mkState no_boxes [] [])
            (@ServerModels.mkState models_ok 0%nat None None [])).
Proof.
  exact (@ocr_answers_or_fails_unbound no_boxes models_ok NotAnObject
           (@VietOcrApp.mkState no_boxes models_ok (@mkState no_boxes [] [])
              (@ServerModels.mkState models_ok 0%nat None None []))).
Defined.

(** The recogniser raises on the whole page. After the detector raised
    the answer is 500; after a detector that found nothing there is no
    answer. *)
Example recogniser_fails_after_the_detector :
  (@VietOcrApp.ocr (unreadable true) models_ok (Json (Some "aW1n"%string))
     (@VietOcrApp.mkState (unreadable true) models_ok (@mkState (unreadable true) [] [])
        (@ServerModels.mkState models_ok 0%nat None None []))).1
  = Returns (Resp500 LibraryError).
Proof. vm_compute. reflexivity. Qed.

Example recogniser_fails_alone :
  (@VietOcrApp.ocr (unreadable false) models_ok (Json (Some "aW1n"%string))
     (@VietOcrApp.mkState (unreadable false) models_ok (@mkState (unreadable false) [] [])
        (@ServerModels.mkState models_ok 0%nat None None []))).1
  = Raises UnboundLocalError.
Proof. vm_compute. reflexivity. Qed.

End ServerMoreInstances.

(** ** Further properties of the upload router *)

Section RouterMore.

Import TriggerUpload Spec More.
Context `{Services}.

#[local] Open Scope string_scope.
#[local] Open Scope list_scope.

Implicit Types (s : state) (j : json).

(** One synchronous round trip, whatever the collaborator does: either it
    raises, after no call (the variable is not set) or after the call, or
    it answers and the router goes on with the unwrapped result. *)
Lemma sync_step {A} name payload (k : json -> M state A) s :
  (exists e s1,
     (let* p := invoke_fn name RequestResponse payload in
      let* r := lift (unwrap_body p) in k r) s = (Raises e, s1) /\
     (trace s1 = trace s \/
      exists arn, trace s1 = trace s ++ [EvInvoke arn RequestResponse payload])) \/
  (exists arn result w',
     answers name payload (world s) arn result w' /\
     (let* p := invoke_fn name RequestResponse payload in
      let* r := lift (unwrap_body p) in k r) s
     = k result (mkState w' (trace s ++ [EvInvoke arn RequestResponse payload]))).
Proof.
  destruct (environ name) as [arn|] eqn:Henv.
  2:{ left. exists KeyError, s. split; [|left; reflexivity].
      unfold bind, invoke_fn, getenv. rewrite Henv. reflexivity. }
  destruct (invoke arn RequestResponse payload (world s)) as [[p|e] w'] eqn:Hinv.
  2:{ left. exists e, (mkState w' (trace s ++ [EvInvoke arn RequestResponse payload])).
      split; [|right; exists arn; reflexivity].
      unfold bind at 1. rewrite (invoke_fn_run _ _ _ _ _ Henv), Hinv. reflexivity. }
  destruct (unwrap_body p) as [result|e] eqn:Hun.
  2:{ left. exists e, (mkState w' (trace s ++ [EvInvoke arn RequestResponse payload])).
      split; [|right; exists arn; reflexivity].
      unfold bind at 1. rewrite (invoke_fn_run _ _ _ _ _ Henv), Hinv. cbn [fst snd].
      unfold bind at 1, lift at 1. rewrite Hun. reflexivity. }
  right. exists arn, result, w'. split.
  - split; [exact Henv|]. exists p. split; assumption.
  - destruct s as [w tr]. apply round_trip.
    split; [exact Henv|]. exists p. split; assumption.
Qed.

(** The asynchronous hand-over to persistence that ends both paths. *)
Lemma persist_step bucket key result s :
  exists r s1,
    (invoke_fn "RESULT_SAVER_FN_ARN" Event (save_payload bucket key result) ;; ret true) s
      = (r, s1) /\
    ((trace s1 = trace s /\ r = Raises KeyError /\ environ "RESULT_SAVER_FN_ARN" = None) \/
     (exists arn, environ "RESULT_SAVER_FN_ARN" = Some arn /\
        trace s1 = trace s ++ [EvInvoke arn Event (save_payload bucket key result)] /\
        (r = Returns true \/ exists e, r = Raises e))).
Proof.
  destruct (environ "RESULT_SAVER_FN_ARN") as [arn|] eqn:Henv.
  - unfold bind. rewrite (invoke_fn_run _ _ _ _ _ Henv).
    destruct (invoke arn Event (save_payload bucket key result) (world s)) as [[p|e] w'];
      cbn [fst snd]; eexists _, _; (split; [reflexivity|]); right; exists arn;
      (split; [reflexivity|split; [reflexivity|]]); eauto.
  - eexists _, _. split; [|left; split; [|split]; reflexivity].
    unfold bind, invoke_fn, getenv. rewrite Henv. reflexivity.
Qed.


(** The record of the calls only grows. *)
Lemma extends_ret {A} (a : A) : extends (ret a).
Proof. intros s. exists []. cbn. rewrite app_nil_r. reflexivity. Qed.

Lemma extends_raise {A} e : extends (@raise state A e).
Proof. intros s. exists []. cbn. rewrite app_nil_r. reflexivity. Qed.

Lemma extends_lift {A} (o : outcome A) : extends (lift o).
Proof. intros s. exists []. cbn. rewrite app_nil_r. reflexivity. Qed.

Lemma extends_emit e : extends (emit e).
Proof. intros s. exists [e]. reflexivity. Qed.

Lemma extends_call {A} (f : World -> outcome A * World) : extends (call f).
Proof.
  intros s. exists []. unfold call. destruct (f (world s)). cbn.
  rewrite app_nil_r. reflexivity.
Qed.

Lemma extends_bind {A B} (m : M state A) (k : A -> M state B) :
  extends m -> (forall a, extends (k a)) -> extends (bind m k).
Proof.
  intros Hm Hk s. unfold bind. destruct (Hm s) as (r1 & H1).
  destruct (m s) as [[a|e] s1]; cbn [snd] in *.
  - destruct (Hk a s1) as (r2 & H2). exists (r1 ++ r2).
    rewrite H2, H1, app_assoc. reflexivity.
  - exists r1. exact H1.
Qed.

Lemma extends_if {A} (b : bool) (m1 m2 : M state A) :
  extends m1 -> extends m2 -> extends (if b then m1 else m2).
Proof. destruct b; auto. Qed.

Lemma extends_invoke_fn name ty payload : extends (invoke_fn name ty payload).
Proof.
  unfold invoke_fn, getenv. apply extends_bind.
  - destruct (environ name); [apply extends_ret|apply extends_raise].
  - intros arn. apply extends_bind; [apply extends_emit|intros; apply extends_call].
Qed.

Create HintDb extends.
#[local] Hint Resolve extends_ret extends_raise extends_lift extends_emit extends_call
  extends_bind extends_if extends_invoke_fn : extends.

(** What the metadata lookup leaves: one event, whatever it answers. *)
Lemma head_step bucket key s :
  exists r s1,
    (emit (EvHeadObject bucket key) ;;
     let* head := call (head_object bucket key) in
     let* metadata := lift (dict_get head "Metadata" (JObj [])) in
     let* tag := lift (dict_get metadata "document-type" (JStr "")) in
     lift (match tag with
           | JStr t => Returns (lower t)
           | _ => Raises AttributeError
           end)) s = (r, s1) /\
    trace s1 = trace s ++ [EvHeadObject bucket key].
Proof.
  unfold bind, emit, call, lift. cbn [world trace].
  destruct (head_object bucket key (world s)) as [[head|e] w']; [|eauto].
  destruct (dict_get head "Metadata" (JObj [])) as [metadata|e]; [|eauto].
  destruct (dict_get metadata "document-type" (JStr "")) as [tag|e]; [|eauto].
  destruct tag; eauto.
Qed.

(** The last two steps of both paths: one synchronous call, then the
    hand-over. *)
Lemma finish_shape bucket key name payload s :
  exists r s' syncs tail,
    (let* p := invoke_fn name RequestResponse payload in
     let* result := lift (unwrap_body p) in
     invoke_fn "RESULT_SAVER_FN_ARN" Event (save_payload bucket key result) ;; ret true) s
      = (r, s') /\
    trace s' = trace s ++ syncs ++ tail /\
    Forall is_sync syncs /\ (length syncs <= 1)%nat /\
    handed_over bucket key r tail.
Proof.
  destruct (sync_step name payload
              (fun result => invoke_fn "RESULT_SAVER_FN_ARN" Event
                               (save_payload bucket key result) ;; ret true) s)
    as [(e & s1 & Hrun & Htr)|(arn & result & w' & _ & Hrun)].
  - destruct Htr as [Htr|(arn & Htr)].
    + exists (Raises e), s1, [], []. split; [exact Hrun|]. rewrite app_nil_r.
      repeat split; auto. left. split; [reflexivity|discriminate].
    + exists (Raises e), s1, [EvInvoke arn RequestResponse payload], [].
      split; [exact Hrun|]. rewrite app_nil_r.
      repeat split; auto.
      * constructor; [eexists _, _; reflexivity|constructor].
      * left. split; [reflexivity|discriminate].
  - destruct (persist_step bucket key result
                (mkState w' (trace s ++ [EvInvoke arn RequestResponse payload])))
      as (r & s1 & Hp & Hshape).
    destruct Hshape as [(Htr & -> & _)|(sarn & Henv & Htr & Hr)]; cbn [trace] in Htr.
    + exists (Raises KeyError), s1, [EvInvoke arn RequestResponse payload], [].
      split; [etrans; [exact Hrun|exact Hp]|]. rewrite app_nil_r.
      repeat split; auto.
      * constructor; [eexists _, _; reflexivity|constructor].
      * left. split; [reflexivity|discriminate].
    + exists r, s1, [EvInvoke arn RequestResponse payload],
        [EvInvoke sarn Event (save_payload bucket key result)].
      split; [etrans; [exact Hrun|exact Hp]|].
      split; [rewrite Htr, <- app_assoc; reflexivity|].
      repeat split; auto.
      * constructor; [eexists _, _; reflexivity|constructor].
      * right. exists sarn, result. repeat split; auto.
Qed.

(** X10. Whatever the collaborators answer, the calls of the router on one
    document are the metadata lookup, then at most three synchronous
    invocations, then at most one asynchronous invocation, which is the
    last call and carries the document to persistence. When the router
    returns [True] that hand-over was made; when it returns [False]
    nothing but the metadata was read. *)
Theorem one_hand_over_at_the_end :
  forall bucket key s,
  exists r s' syncs tail,
    process_legal_document bucket key s = (r, s') /\
    trace s' = trace s ++ EvHeadObject bucket key :: syncs ++ tail /\
    Forall is_sync syncs /\ (length syncs <= 3)%nat /\
    handed_over bucket key r tail /\
    (r = Returns true -> tail <> []) /\
    (r = Returns false -> syncs = [] /\ tail = []).
Proof.
  intros bucket key s. rewrite process_legal_document_head. unfold bind at 1.
  destruct (head_step bucket key s) as (r0 & s1 & -> & Htr1).
  assert (Hstop : forall e, handed_over bucket key (Raises e) []).
  { intros e. left. split; [reflexivity|discriminate]. }
  destruct r0 as [doc_type|e].
  2:{ exists (Raises e), s1, [], []. split; [reflexivity|]. split; [exact Htr1|].
      repeat split; auto; discriminate. }
  destruct (negb (doc_type =? "legal registration")).
  { exists (Returns false), s1, [], []. split; [reflexivity|]. split; [exact Htr1|].
    repeat split; auto; try discriminate. left. split; [reflexivity|discriminate]. }
  match goal with
  | |- context [ (bind (invoke_fn ?n RequestResponse ?p)
                    (fun x => bind (lift (unwrap_body x)) ?k)) ?st ] =>
      destruct (sync_step n p k st)
        as [(e & s2 & Hrun & Htr)|(qr_arn & qr_result & w2 & _ & Hrun)]
  end.
  { destruct Htr as [Htr|(arn & Htr)].
    - exists (Raises e), s2, [], []. split; [exact Hrun|].
      split; [rewrite Htr; exact Htr1|]. repeat split; auto; discriminate.
    - exists (Raises e), s2, [EvInvoke arn RequestResponse (doc_ref bucket key)], [].
      split; [exact Hrun|].
      split; [rewrite Htr, Htr1, <- app_assoc; reflexivity|].
      repeat split; auto; try discriminate.
      constructor; [eexists _, _; reflexivity|constructor]. }
  rewrite Hrun. clear Hrun. cbv beta.
  set (qr := EvInvoke qr_arn RequestResponse (doc_ref bucket key)) in *.
  assert (Hqr : is_sync qr) by (eexists _, _; reflexivity).
  set (s2 := mkState w2 (trace s1 ++ [qr])) in *.
  assert (Htr2 : trace s2 = trace s ++ [EvHeadObject bucket key; qr]).
  { subst s2. cbn [trace]. rewrite Htr1, <- app_assoc. reflexivity. }
  clearbody s2.
  unfold bind at 1, lift at 1.
  destruct (dict_get qr_result "hasQR" JNull) as [has_qr|e].
  2:{ exists (Raises e), s2, [qr], []. split; [reflexivity|]. split; [exact Htr2|].
      repeat split; auto; try discriminate. }
  unfold bind at 1, lift at 1.
  destruct (dict_get qr_result "decodedText" JNull) as [decoded_text|e].
  2:{ exists (Raises e), s2, [qr], []. split; [reflexivity|]. split; [exact Htr2|].
      repeat split; auto; try discriminate. }
  destruct (truthy has_qr && truthy decoded_text).
  - destruct (finish_shape bucket key "QR_DECODER_FN_ARN"
                (JObj [("decodedText", decoded_text)]) s2)
      as (r & s' & syncs & tail & Hfin & Htr & Hsync & Hlen & Hover).
    exists r, s', (qr :: syncs), tail.
    split; [exact Hfin|].
    split; [rewrite Htr, Htr2, <- app_assoc; reflexivity|].
    split; [constructor; assumption|]. split; [cbn [length]; lia|].
    split; [exact Hover|]. split.
    + intros ->. destruct Hover as [(-> & Hne)|(a & d & -> & _)]; [congruence|discriminate].
    + intros ->. exfalso. generalize Hfin.
      unfold bind, invoke_fn, getenv, emit, call, lift, ret, raise.
      repeat case_match; intros; simplify_eq.
  - match goal with
    | |- context [ (bind (invoke_fn ?n RequestResponse ?p)
                      (fun x => bind (lift (unwrap_body x)) ?k)) ?st ] =>
        destruct (sync_step n p k st)
          as [(e & s3 & Hrun3 & Htr)|(ocr_arn & ocr_result & w3 & _ & Hrun3)]
    end.
    { destruct Htr as [Htr|(arn & Htr)].
      - exists (Raises e), s3, [qr], []. split; [exact Hrun3|].
        split; [rewrite Htr; exact Htr2|]. repeat split; auto; try discriminate.
      - exists (Raises e), s3, [qr; EvInvoke arn RequestResponse (doc_ref bucket key)], [].
        split; [exact Hrun3|].
        split; [rewrite Htr, Htr2, <- app_assoc; reflexivity|].
        repeat split; auto; try discriminate.
        constructor; [exact Hqr|]. constructor; [eexists _, _; reflexivity|constructor]. }
    rewrite Hrun3. clear Hrun3. cbv beta.
    set (oc := EvInvoke ocr_arn RequestResponse (doc_ref bucket key)) in *.
    assert (Hoc : is_sync oc) by (eexists _, _; reflexivity).
    set (s3 := mkState w3 (trace s2 ++ [oc])) in *.
    assert (Htr3 : trace s3 = trace s ++ [EvHeadObject bucket key; qr; oc]).
    { subst s3. cbn [trace]. rewrite Htr2, <- app_assoc. reflexivity. }
    clearbody s3.
    unfold bind at 1, lift at 1.
    destruct (dict_get ocr_result "text" JNull) as [txt|e].
    2:{ exists (Raises e), s3, [qr; oc], []. split; [reflexivity|].
        split; [exact Htr3|]. repeat split; auto; try discriminate. }
    destruct (negb (truthy txt)).
    { exists (Raises (PlainException "VietOCR returned no text")), s3, [qr; oc], [].
      split; [reflexivity|].
      split; [exact Htr3|]. repeat split; auto; try discriminate. }
    destruct (finish_shape bucket key "BEDROCK_QA_FN_ARN" (JObj [("text", txt)]) s3)
      as (r & s' & syncs & tail & Hfin & Htr & Hsync & Hlen & Hover).
    exists r, s', (qr :: oc :: syncs), tail.
    split; [exact Hfin|].
    split; [rewrite Htr, Htr3, <- app_assoc; reflexivity|].
    split; [repeat constructor; assumption|]. split; [cbn [length]; lia|].
    split; [exact Hover|]. split.
    + intros ->. destruct Hover as [(-> & Hne)|(a & d & -> & _)]; [congruence|discriminate].
    + intros ->. exfalso. generalize Hfin.
      unfold bind, invoke_fn, getenv, emit, call, lift, ret, raise.
      repeat case_match; intros; simplify_eq.
Qed.

(** X11. The fast path. A legal registration on which code detection
    answers a truthy [hasQR] and a truthy [decodedText] costs four calls:
    the metadata lookup, the detection, the decoding of that text
    (synchronous) and the hand-over of the decoded result to persistence
    (asynchronous). Text extraction and question answering are not
    invoked. With a truthy [hasQR] but no [decodedText] the router goes on
    to text extraction like for a page without code. *)
Theorem code_path_skips_extraction :
  forall bucket key s w1 w2 qr_arn qr_result has_qr decoded_text,
    legal_registration bucket key (world s) w1 ->
    answers "QR_DETECTOR_FN_ARN" (doc_ref bucket key) w1 qr_arn qr_result w2 ->
    dict_get qr_result "hasQR" JNull = Returns has_qr ->
    dict_get qr_result "decodedText" JNull = Returns decoded_text ->
    truthy has_qr = true ->
    let seen := [EvHeadObject bucket key;
                 EvInvoke qr_arn RequestResponse (doc_ref bucket key)] in
    (truthy decoded_text = true ->
     forall dec_arn decoded_result w3 saver_arn r4 w4,
       answers "QR_DECODER_FN_ARN" (JObj [("decodedText", decoded_text)]) w2
         dec_arn decoded_result w3 ->
       environ "RESULT_SAVER_FN_ARN" = Some saver_arn ->
       invoke saver_arn Event (save_payload bucket key decoded_result) w3 = (r4, w4) ->
       process_legal_document bucket key s
         = (match r4 with Returns _ => Returns true | Raises e => Raises e end,
            mkState w4 (trace s ++ seen ++
              [EvInvoke dec_arn RequestResponse (JObj [("decodedText", decoded_text)]);
               EvInvoke saver_arn Event (save_payload bucket key decoded_result)]))) /\
    (truthy decoded_text = false ->
     forall ocr_arn, environ "VIETOCR_FN_ARN" = Some ocr_arn ->
       exists r s' rest,
         process_legal_document bucket key s = (r, s') /\
         trace s' = trace s ++ seen ++
                      EvInvoke ocr_arn RequestResponse (doc_ref bucket key) :: rest).
Proof.
  intros bucket key s w1 w2 qr_arn qr_result has_qr decoded_text
    (head & metadata & tag & Hh & Hm & Ht & Hlegal) Hqr Hhas Hdt Hyes seen.
  assert (Hrun : process_legal_document bucket key s =
    (if truthy decoded_text then
       let* decode_payload :=
         invoke_fn "QR_DECODER_FN_ARN" RequestResponse (JObj [("decodedText", decoded_text)]) in
       let* decoded_result := lift (unwrap_body decode_payload) in
       invoke_fn "RESULT_SAVER_FN_ARN" Event (save_payload bucket key decoded_result) ;;
       ret true
     else
       let* ocr_payload := invoke_fn "VIETOCR_FN_ARN" RequestResponse (doc_ref bucket key) in
       let* ocr_result := lift (unwrap_body ocr_payload) in
       let* txt := lift (dict_get ocr_result "text" JNull) in
       if negb (truthy txt) then raise (PlainException "VietOCR returned no text")
       else
         let* qa_payload :=
           invoke_fn "BEDROCK_QA_FN_ARN" RequestResponse (JObj [("text", txt)]) in
         let* qa_result := lift (unwrap_body qa_payload) in
         invoke_fn "RESULT_SAVER_FN_ARN" Event (save_payload bucket key qa_result) ;;
         ret true) (mkState w2 (trace s ++ seen))).
  { rewrite process_legal_document_head. unfold bind at 1.
    rewrite (read_tag _ _ _ _ _ _ _ Hh Hm Ht), Hlegal, String.eqb_refl. cbn [negb].
    rewrite (round_trip _ _ _ _ _ _ _ _ Hqr).
    unfold bind at 1, lift at 1. rewrite Hhas.
    unfold bind at 1, lift at 1. rewrite Hdt, Hyes. cbn [andb].
    rewrite <- !app_assoc. reflexivity. }
  rewrite Hrun. clear Hrun. split.
  - intros Htext dec_arn decoded_result w3 saver_arn r4 w4 Hdec Hsaver Hsave.
    rewrite Htext, (round_trip _ _ _ _ _ _ _ _ Hdec).
    unfold bind at 1. rewrite (invoke_fn_run _ _ _ _ _ Hsaver). cbn [world trace].
    rewrite Hsave. cbn [fst snd]. rewrite <- !app_assoc. cbn [app].
    destruct r4; reflexivity.
  - intros Hnone ocr_arn Hocr. rewrite Hnone.
    unfold bind at 1. rewrite (invoke_fn_run _ _ _ _ _ Hocr). cbn [world trace].
    destruct (invoke ocr_arn RequestResponse (doc_ref bucket key) w2) as [[p|e] w3];
      cbn [fst snd].
    2:{ eexists _, _, []. split; [reflexivity|]. cbn [trace].
        rewrite <- app_assoc. reflexivity. }
    match goal with
    | |- exists r s' rest, ?m ?st = _ /\ _ =>
        assert (Hgrow : extends m) by auto 20 with extends;
        destruct (Hgrow st) as (rest & Hrest);
        exists (m st).1, (m st).2, rest; split; [apply surjective_pairing|];
        rewrite Hrest
    end.
    cbn [trace]. rewrite <- !app_assoc. reflexivity.
Qed.

(** X12. One message carrying the uploads of documents that are not legal
    registrations: every document costs its metadata lookup and the
    generic flow, in the order of the message and under the decoded key;
    no function is invoked and the message is processed without error. *)
Theorem generic_documents_in_order :
  forall record s3_event s3_records docs s,
    s3_event_of record = Returns s3_event ->
    dict_get s3_event "Records" (JArr []) = Returns (JArr s3_records) ->
    Forall2 (fun r d => names_object r d.1 d.2) s3_records docs ->
    (forall d w, In d docs ->
       exists w', other_document d.1 (unquote (replace_plus d.2)) w w') ->
    exists w',
      handle_record record s
        = (Returns tt,
           mkState w' (trace s ++
             flat_map (fun d => generic_calls d.1 (unquote (replace_plus d.2))) docs)).
Proof.
  intros record s3_event s3_records docs s Hev Hrec Hnames Hother.
  assert (Hloop : exists w',
    for_each handle_s3_record s3_records s
      = (Returns tt,
         mkState w' (trace s ++
           flat_map (fun d => generic_calls d.1 (unquote (replace_plus d.2))) docs))).
  { clear Hev Hrec. revert s.
    induction Hnames as [|r d rs ds Hr Hrs IH]; intros s.
    - exists (world s). cbn. rewrite app_nil_r. destruct s; reflexivity.
    - destruct (Hother d (world s) (or_introl eq_refl))
        as (w1 & head & metadata & tag & Hh & Hm & Ht & Hne).
      destruct Hr as (s3 & b & o & H1 & H2 & H3 & H4 & H5).
      assert (Hone : handle_s3_record r s
                = (Returns tt,
                   mkState w1 (trace s ++ generic_calls d.1 (unquote (replace_plus d.2))))).
      { unfold handle_s3_record, bind at 1, lift at 1. rewrite H1.
        unfold bind at 1, lift at 1. rewrite H2.
        unfold bind at 1, lift at 1. rewrite H3.
        unfold bind at 1, lift at 1. rewrite H4.
        unfold bind at 1, lift at 1. rewrite H5.
        unfold bind at 1, lift at 1. unfold bind at 1, lift at 1.
        unfold bind at 1. rewrite process_legal_document_head. unfold bind at 1.
        rewrite (read_tag _ _ _ _ _ _ _ Hh Hm Ht).
        replace (lower tag =? "legal registration") with false
          by (symmetry; apply String.eqb_neq; exact Hne).
        cbn [negb]. unfold ret at 1.
        unfold process_with_existing_bedrock, bind. rewrite router_emit_run.
        cbn [world trace]. unfold ret, generic_calls. rewrite <- app_assoc. reflexivity. }
      destruct (IH (fun d' w Hin => Hother d' w (or_intror Hin))
                  (mkState w1 (trace s ++ generic_calls d.1 (unquote (replace_plus d.2)))))
        as (w' & Hrest).
      exists w'. cbn [for_each flat_map]. unfold bind. rewrite Hone, Hrest.
      cbn [trace]. rewrite <- app_assoc. reflexivity. }
  destruct Hloop as (w' & Hloop). exists w'.
  unfold handle_record, bind at 1, lift at 1. rewrite Hev.
  unfold bind at 1, lift at 1. rewrite Hrec.
  destruct s3_records as [|r rs].
  - inversion Hnames; subst. cbn [truthy negb flat_map] in *. exact Hloop.
  - cbn [truthy negb py_iter]. unfold bind at 1, lift at 1. exact Hloop.
Qed.

(** X13. The handler reads the uploads out of the [Records] of a
    message's body. A record that has neither a [body] nor [Records] of
    its own, which is what a notification delivered without the queue
    looks like, is skipped: the handler answers 200 and has looked at no
    document. *)
Theorem bare_records_are_skipped :
  forall event records s,
    dict_get event "Records" (JArr []) = Returns (JArr records) ->
    Forall (fun r => exists kv, r = JObj kv /\
                       assoc "body" kv = None /\ assoc "Records" kv = None) records ->
    lambda_handler event s = (Returns (mkResponse 200 ProcessingCompleted), s).
Proof.
  intros event records s Hrec Hbare.
  assert (Hloop : for_each handle_record records s = (Returns tt, s)).
  { clear Hrec. induction Hbare as [|r rs (kv & -> & Hb & Hr) _ IH]; [reflexivity|].
    cbn [for_each]. unfold bind at 1.
    assert (Hone : handle_record (JObj kv) s = (Returns tt, s)).
    { unfold handle_record, bind, lift, s3_event_of, has_body, dict_get.
      rewrite Hb. cbn [obind]. rewrite Hr. reflexivity. }
    rewrite Hone. exact IH. }
  unfold lambda_handler, try_except, bind at 1, lift at 1. rewrite Hrec.
  unfold bind at 1, lift at 1. cbn [py_iter].
  unfold bind at 1. rewrite Hloop. reflexivity.
Qed.

(** X26. Malformed input is answered 500 before any document is looked
    at: an event that is not an object, a message whose body does not
    parse, and an upload record without its [s3] entry each end the
    handler with the error of that step, and no call has been made. *)
Theorem malformed_events_answer_500 :
  forall s,
    (forall event, (forall kv, event <> JObj kv) ->
       lambda_handler event s = (Returns (mkResponse 500 (ErrorOf AttributeError)), s)) /\
    (forall event kv body rest,
       dict_get event "Records" (JArr []) = Returns (JArr (JObj kv :: rest)) ->
       assoc "body" kv = Some (JStr body) -> json_loads body = None ->
       lambda_handler event s = (Returns (mkResponse 500 (ErrorOf JSONDecodeError)), s)) /\
    (forall event record s3_event s3_record others rest,
       dict_get event "Records" (JArr []) = Returns (JArr (record :: rest)) ->
       s3_event_of record = Returns s3_event ->
       dict_get s3_event "Records" (JArr []) = Returns (JArr (JObj s3_record :: others)) ->
       assoc "s3" s3_record = None ->
       lambda_handler event s = (Returns (mkResponse 500 (ErrorOf KeyError)), s)).
Proof.
  intros s. split; [|split].
  - intros event Hno. unfold lambda_handler, try_except, bind, lift.
    destruct event; try reflexivity. destruct (Hno kv eq_refl).
  - intros event kv body rest Hrec Hbody Hparse.
    unfold lambda_handler, try_except, bind at 1, lift at 1. rewrite Hrec.
    unfold bind at 1, lift at 1. cbn [py_iter for_each].
    unfold bind at 1 2, handle_record, bind at 1, lift at 1, s3_event_of, has_body, loads.
    rewrite Hbody, Hparse. reflexivity.
  - intros event record s3_event s3_record others rest Hrec Hev Hs3 Hmiss.
    unfold lambda_handler, try_except, bind at 1, lift at 1. rewrite Hrec.
    unfold bind at 1, lift at 1. cbn [py_iter for_each].
    unfold bind at 1 2, handle_record, bind at 1, lift at 1. rewrite Hev.
    unfold bind at 1, lift at 1. rewrite Hs3. cbn [truthy negb py_iter].
    unfold bind at 1, lift at 1. cbn [for_each].
    unfold bind at 1, handle_s3_record, bind at 1, lift at 1, subscript.
    rewrite Hmiss. reflexivity.
Qed.

End RouterMore.

(** *** The further properties on the deployment of the examples *)

Section RouterMoreInstances.

Import TriggerUpload Spec More RouterFixtures MoreRouterFixtures.

#[local] Open Scope string_scope.
#[local] Open Scope list_scope.

Lemma code_path_skips_extraction_witness :
  @process_legal_document deployment_with_code "docs" "deed.pdf" start_with_code
    = (Returns true,
       @mkState deployment_with_code 4%nat
         [EvHeadObject "docs" "deed.pdf";
          EvInvoke "arn:qr-detector" RequestResponse (doc_ref "docs" "deed.pdf");
          EvInvoke "arn:qr-decoder" RequestResponse (JObj [("decodedText", JStr "CT-123456")]);
          EvInvoke "arn:result-saver" Event
            (save_payload "docs" "deed.pdf" (JObj [("certificate", JStr "CT 123456")]))]).
Proof.
  apply (proj1 (@code_path_skips_extraction deployment_with_code "docs" "deed.pdf"
           start_with_code 1%nat 2%nat "arn:qr-detector"
           (JObj [("hasQR", JBool true); ("decodedText", JStr "CT-123456")])
           (JBool true) (JStr "CT-123456")
           (ex_intro _ (tagged "Legal Registration")
              (ex_intro _ (JObj [("document-type", JStr "Legal Registration")])
                 (ex_intro _ "Legal Registration"
                    (conj eq_refl (conj eq_refl (conj eq_refl eq_refl))))))
           (conj eq_refl (ex_intro _ (JObj [("statusCode", JNum 200); ("body", JStr "code")])
                            (conj eq_refl eq_refl)))
           eq_refl eq_refl eq_refl) eq_refl
           "arn:qr-decoder" (JObj [("certificate", JStr "CT 123456")]) 3%nat
           "arn:result-saver" (Returns (JObj [("StatusCode", JNum 202)])) 4%nat).
  - split; [reflexivity|]. exists (JObj [("certificate", JStr "CT 123456")]).
    split; reflexivity.
  - reflexivity.
  - reflexivity.
Defined.

Lemma generic_documents_in_order_witness :
  exists w',
    @handle_record deployment (JObj [("Records", JArr invoice_and_memo)]) start
      = (Returns tt,
         @mkState deployment w'
           [EvHeadObject "docs" "invoice.pdf"; EvExistingBedrock "docs" "invoice.pdf";
            EvHeadObject "docs" "memo.pdf"; EvExistingBedrock "docs" "memo.pdf"]).
Proof.
  apply (@generic_documents_in_order deployment (JObj [("Records", JArr invoice_and_memo)])
           (JObj [("Records", JArr invoice_and_memo)]) invoice_and_memo
           [("docs", "invoice.pdf"); ("docs", "memo.pdf")] start eq_refl eq_refl).
  - repeat constructor; cbn [fst snd];
      eexists _, _, _; repeat split; reflexivity.
  - intros d w [<-|[<-|[]]]; exists (S w).
    + exists (tagged "Invoice"), (JObj [("document-type", JStr "Invoice")]), "Invoice".
      repeat split; try reflexivity. discriminate.
    + exists (JObj [("Metadata", JObj [])]), (JObj []), "".
      repeat split; try reflexivity. discriminate.
Defined.

Lemma bare_records_are_skipped_witness :
  @lambda_handler deployment direct_notification start
    = (Returns (mkResponse 200 ProcessingCompleted), start).
Proof.
  apply (@bare_records_are_skipped deployment direct_notification
           [s3_record "docs" "deed.pdf"; s3_record "docs" "invoice.pdf"] start eq_refl).
  repeat constructor; eexists; (split; [reflexivity|]); split; reflexivity.
Defined.

Lemma one_hand_over_at_the_end_witness :
  exists r s' syncs tail,
    @process_legal_document deployment "docs" "deed.pdf" start = (r, s') /\
    trace s' = trace start ++ EvHeadObject "docs" "deed.pdf" :: syncs ++ tail /\
    Forall is_sync syncs /\ (length syncs <= 3)%nat /\
    @handed_over deployment "docs" "deed.pdf" r tail /\
    (r = Returns true -> tail <> []) /\
    (r = Returns false -> syncs = [] /\ tail = []).
Proof.
  exact (@one_hand_over_at_the_end deployment "docs" "deed.pdf" start).
Defined.

Lemma malformed_events_answer_500_witness :
  (forall event, (forall kv, event <> JObj kv) ->
     @lambda_handler deployment event start
       = (Returns (mkResponse 500 (ErrorOf AttributeError)), start)) /\
  @lambda_handler deployment (JObj [("Records", JArr [sqs_record "{not json"])]) start
    = (Returns (mkResponse 500 (ErrorOf JSONDecodeError)), start) /\
  @lambda_handler deployment
     (JObj [("Records", JArr [JObj [("Records", JArr [JObj [("eventName", JStr "Put")]])]])])
     start
    = (Returns (mkResponse 500 (ErrorOf KeyError)), start).
Proof.
  destruct (@malformed_events_answer_500 deployment start) as (H1 & H2 & H3).
  split; [exact H1|split].
  - apply (H2 _ [("messageId", JStr "1"); ("body", JStr "{not json")] "{not json" []);
      reflexivity.
  - apply (H3 _ (JObj [("Records", JArr [JObj [("eventName", JStr "Put")]])])
             (JObj [("Records", JArr [JObj [("eventName", JStr "Put")]])])
             [("eventName", JStr "Put")] [] []); reflexivity.
Defined.

(** Records that are not objects. A string or a list without ["body"] is
    taken as the S3 event and has no [get]; one with ["body"] cannot be
    subscripted by it; a number is no container. A bucket name that is
    not a string is refused by the client before any request. *)
Example odd_records_answer_500 :
  @lambda_handler deployment (JObj [("Records", JArr [JStr "upload"])]) start
    = (Returns (mkResponse 500 (ErrorOf AttributeError)), start) /\
  @lambda_handler deployment (JObj [("Records", JArr [JStr "a body"])]) start
    = (Returns (mkResponse 500 (ErrorOf TypeError)), start) /\
  @lambda_handler deployment (JObj [("Records", JArr [JArr [JStr "s3"]])]) start
    = (Returns (mkResponse 500 (ErrorOf AttributeError)), start) /\
  @lambda_handler deployment (JObj [("Records", JArr [JArr [JStr "body"]])]) start
    = (Returns (mkResponse 500 (ErrorOf TypeError)), start) /\
  @lambda_handler deployment (JObj [("Records", JArr [JNum 7])]) start
    = (Returns (mkResponse 500 (ErrorOf TypeError)), start) /\
  @lambda_handler deployment
     (JObj [("Records",
             JArr [JObj [("Records",
                          JArr [JObj [("s3", JObj [("bucket", JObj [("name", JNum 7)]);
                                                   ("object", JObj [("key", JStr "a.pdf")])])]])]])])
     start
    = (Returns (mkResponse 500 (ErrorOf ParamValidationError)), start).
Proof. repeat split; vm_compute; reflexivity. Qed.

End RouterMoreInstances.

(** ** The models of the recognition service *)

Section ModelFacts.

Import ServerModels ModelSpec.
Context `{ModelLib}.

Implicit Types (s : state).

(** What one request does to the models: the world and the record of the
    constructions may change; a model that is loaded stays, and is not
    built again. *)
Lemma serve_keeps r s :
  exists evs,
    trace (serve r s).2 = trace s ++ evs /\
    (forall d, detector s = Some d ->
       detector (serve r s).2 = Some d /\ Forall (fun e => ~ builds_detector e) evs) /\
    (forall p, predictor s = Some p ->
       predictor (serve r s).2 = Some p /\ Forall (fun e => ~ builds_predictor e) evs).
Proof.
  assert (Hdet : exists evs,
    trace (init_detector s).2 = trace s ++ evs /\
    (forall d, detector s = Some d ->
       detector (init_detector s).2 = Some d /\ Forall (fun e => ~ builds_detector e) evs) /\
    (forall p, predictor s = Some p ->
       predictor (init_detector s).2 = Some p /\
       Forall (fun e => ~ builds_predictor e) evs)).
  { unfold init_detector. destruct (detector s) as [d|] eqn:Hd.
    - exists []. cbn [snd]. rewrite app_nil_r.
      repeat split; auto; congruence.
    - exists [EvPaddleOCR]. unfold bind, emit, call, set_detector, ret. cbn [world trace detector predictor].
      destruct (PaddleOCR (world s)) as [[d|e] w]; cbn [snd trace detector predictor];
        (split; [reflexivity|]); (split; [discriminate|]);
        intros p Hp; (split; [exact Hp|]); repeat constructor; intros []. }
  assert (Hrec : forall s, exists evs,
    trace (init_predictor s).2 = trace s ++ evs /\
    (forall d, detector s = Some d ->
       detector (init_predictor s).2 = Some d /\ Forall (fun e => ~ builds_detector e) evs) /\
    (forall p, predictor s = Some p ->
       predictor (init_predictor s).2 = Some p /\
       Forall (fun e => ~ builds_predictor e) evs)).
  { clear s Hdet. intros s. unfold init_predictor. destruct (predictor s) as [p|] eqn:Hp.
    - exists []. cbn [snd]. rewrite app_nil_r.
      repeat split; auto; congruence.
    - unfold bind, emit, call, set_predictor, ret. cbn [world trace detector predictor].
      destruct (load_config_from_name "vgg_transformer" (world s)) as [[cfg|e] w];
        cbn [snd trace detector predictor world].
      + exists [EvLoadConfig "vgg_transformer"; EvPredictor predictor_settings].
        destruct (Predictor cfg predictor_settings w) as [[p|e] w'];
          cbn [snd trace detector predictor];
          (split; [rewrite <- app_assoc; reflexivity|]);
          (split; [|discriminate]);
          intros d Hd; (split; [exact Hd|]); repeat constructor; discriminate.
      + exists [EvLoadConfig "vgg_transformer"].
        split; [reflexivity|]. split; [|discriminate].
        intros d Hd. split; [exact Hd|]. repeat constructor; discriminate. }
  unfold serve, try_except.
  destruct r.
  - destruct Hdet as (evs & Ht & Hd & Hp). exists evs. unfold bind, ret.
    destruct (init_detector s) as [[d|e] s1]; cbn [snd] in *; auto.
  - destruct (Hrec s) as (evs & Ht & Hd & Hp). exists evs. unfold bind, ret.
    destruct (init_predictor s) as [[p|e] s1]; cbn [snd] in *; auto.
  - destruct Hdet as (evs & Ht & Hd & Hp). unfold bind, ret.
    destruct (init_detector s) as [[d|e] s1]; cbn [snd] in *.
    + destruct (Hrec s1) as (evs' & Ht' & Hd' & Hp'). exists (evs ++ evs').
      destruct (init_predictor s1) as [[p|e] s2]; cbn [snd] in *;
        (split; [rewrite Ht', Ht, app_assoc; reflexivity|]);
        (split; [intros d0 Hd0; destruct (Hd d0 Hd0) as [Hd1 Hf]; destruct (Hd' d0 Hd1);
                 split; [assumption|apply Forall_app; split; assumption]
                |intros p0 Hp0; destruct (Hp p0 Hp0) as [Hp1 Hf]; destruct (Hp' p0 Hp1);
                 split; [assumption|apply Forall_app; split; assumption]]).
    + exists evs. auto.
  - exists []. unfold bind, health, ret. cbn [snd]. rewrite app_nil_r.
    repeat split; auto.
Qed.

(** X14. The models are loaded at most once. Over any sequence of
    requests, a detector that is loaded stays the loaded detector and
    [PaddleOCR] is not constructed again; the same holds for the predictor
    and the loading of its configuration. This does not depend on what
    loading the other model does in between. *)
Theorem loaded_models_are_kept :
  forall rs s,
  exists evs,
    trace (serve_all rs s).2 = trace s ++ evs /\
    (forall d, detector s = Some d ->
       detector (serve_all rs s).2 = Some d /\ Forall (fun e => ~ builds_detector e) evs) /\
    (forall p, predictor s = Some p ->
       predictor (serve_all rs s).2 = Some p /\ Forall (fun e => ~ builds_predictor e) evs).
Proof.
  induction rs as [|r rs IH]; intros s.
  - exists []. cbn. rewrite app_nil_r. repeat split; auto.
  - destruct (serve_keeps r s) as (evs & Ht & Hd & Hp).
    cbn [serve_all]. unfold bind.
    assert (Hret : exists s1, serve r s = (Returns tt, s1)).
    { unfold serve, try_except, ret.
      destruct r; unfold bind;
        repeat match goal with
               | |- context [match ?m s with _ => _ end] => destruct (m s) as [[?|?] ?]
               | |- context [match ?m ?x with _ => _ end] => destruct (m x) as [[?|?] ?]
               end; eauto; destruct a; eauto. }
    destruct Hret as (s1 & Hs1). rewrite Hs1 in *. cbn [snd] in *.
    destruct (IH s1) as (evs' & Ht' & Hd' & Hp').
    exists (evs ++ evs'). split; [rewrite Ht', Ht, app_assoc; reflexivity|]. split.
    + intros d Hd0. destruct (Hd d Hd0) as [Hd1 Hf]. destruct (Hd' d Hd1).
      split; [assumption|apply Forall_app; split; assumption].
    + intros p Hp0. destruct (Hp p Hp0) as [Hp1 Hf]. destruct (Hp' p Hp1).
      split; [assumption|apply Forall_app; split; assumption].
Qed.

(** [strip] empties exactly the texts of white space. *)
Lemma lstrip_nil t :
  VietOcrServer.lstrip t = [] <-> Forall (fun c => VietOcrServer.is_space c = true) t.
Proof.
  induction t as [|c t IH]; cbn [VietOcrServer.lstrip]; [split; auto|].
  destruct (VietOcrServer.is_space c) eqn:Ec.
  - rewrite IH. split; [intros Ht; constructor; assumption|].
    intros Ht. inversion Ht; assumption.
  - split; [discriminate|]. intros Ht. inversion Ht; congruence.
Qed.

Lemma strip_nil t :
  VietOcrServer.strip t = [] <-> Forall (fun c => VietOcrServer.is_space c = true) t.
Proof.
  unfold VietOcrServer.strip, VietOcrServer.rstrip. split.
  - intros Hs. apply lstrip_nil.
    assert (Hr : VietOcrServer.lstrip (rev (VietOcrServer.lstrip t)) = []).
    { apply (f_equal (@rev _)) in Hs. rewrite rev_involutive in Hs. exact Hs. }
    apply lstrip_nil in Hr.
    destruct (VietOcrServer.lstrip t) as [|c u] eqn:Eu; [reflexivity|exfalso].
    pose proof (lstrip_head _ _ _ Eu) as Hc.
    assert (Hin : In c (rev (c :: u))) by (apply in_rev; rewrite rev_involutive; left; reflexivity).
    rewrite List.Forall_forall in Hr. specialize (Hr c Hin). congruence.
  - intros Ht. apply lstrip_nil in Ht. rewrite Ht. reflexivity.
Qed.

Lemma of_code_points_empty t : of_code_points t = EmptyString <-> t = [].
Proof. destruct t; cbn; split; congruence. Qed.

(** X27. The settings of the predictor come from the environment: the
    device is ['cuda'] exactly when [USE_GPU] is set to a value that
    lowers to ['true'], and ['cpu'] otherwise; the weights are left to the
    configuration exactly when [VIETOCR_WEIGHTS] is unset or holds white
    space only, and are its trimmed value otherwise. *)
Theorem predictor_settings_from_the_environment :
  (device predictor_settings = "cuda"%string <->
   exists v, environ "USE_GPU" = Some v /\ TriggerUpload.lower v = "true"%string) /\
  (device predictor_settings <> "cuda"%string -> device predictor_settings = "cpu"%string) /\
  (weights predictor_settings = None <->
   environ "VIETOCR_WEIGHTS" = None \/
   exists v, environ "VIETOCR_WEIGHTS" = Some v /\ blank_value v) /\
  (forall w, weights predictor_settings = Some w ->
     exists v, environ "VIETOCR_WEIGHTS" = Some v /\ w = str_strip v /\ ~ blank_value v).
Proof.
  unfold predictor_settings, environ_get. cbn [device weights].
  split; [|split; [|split]].
  - destruct (environ "USE_GPU") as [v|].
    + destruct (String.eqb (TriggerUpload.lower v) "true") eqn:Ev.
      * apply String.eqb_eq in Ev. split; eauto.
      * apply String.eqb_neq in Ev. split; [discriminate|].
        intros (v' & Hv & Hl). congruence.
    + cbn. split; [discriminate|]. intros (v & Hv & _). discriminate.
  - destruct (String.eqb _ "true"); [congruence|reflexivity].
  - destruct (environ "VIETOCR_WEIGHTS") as [v|].
    + destruct (String.eqb (str_strip v) "") eqn:Ev.
      * apply String.eqb_eq in Ev. split; [intros _; right|reflexivity].
        exists v. split; [reflexivity|]. apply strip_nil, of_code_points_empty. exact Ev.
      * apply String.eqb_neq in Ev. split; [discriminate|].
        intros [Hn|(v' & Hv & Hb)]; [discriminate|]. injection Hv as <-.
        exfalso. apply Ev. apply of_code_points_empty, strip_nil. exact Hb.
    + cbn. split; auto.
  - intros w. destruct (environ "VIETOCR_WEIGHTS") as [v|].
    + destruct (String.eqb (str_strip v) "") eqn:Ev; [discriminate|].
      intros Hw. injection Hw as <-. exists v. split; [reflexivity|]. split; [reflexivity|].
      intros Hb. apply String.eqb_neq in Ev. apply Ev.
      apply of_code_points_empty, strip_nil. exact Hb.
    + cbn. discriminate.
Qed.

(** A construction that raises leaves its global unset. *)
Lemma init_detector_raises s e s1 :
  init_detector s = (Raises e, s1) -> detector s1 = None.
Proof.
  unfold init_detector, bind, emit, call, set_detector, ret.
  destruct (detector s) eqn:Hd; [discriminate|]. cbn [world detector predictor trace].
  destruct (PaddleOCR (world s)) as [[d|e'] w]; [discriminate|].
  intros Eq. injection Eq as _ <-. reflexivity.
Qed.

Lemma init_predictor_raises s e s1 :
  init_predictor s = (Raises e, s1) -> predictor s1 = None.
Proof.
  unfold init_predictor, bind, emit, call, set_predictor, ret.
  destruct (predictor s) eqn:Hp; [discriminate|]. cbn [world detector predictor trace].
  destruct (load_config_from_name "vgg_transformer" (world s)) as [[cfg|e'] w];
    cbn [world detector predictor trace].
  - destruct (Predictor cfg predictor_settings w) as [[p|e'] w']; [discriminate|].
    intros Eq. injection Eq as _ <-. cbn. assumption || reflexivity.
  - intros Eq. injection Eq as _ <-. cbn. assumption || reflexivity.
Qed.

End ModelFacts.

(** ** The route with its models *)

Section AppFacts.

Import VietOcrServer MoreSpec.
Context `{Vision} `{ServerModels.ModelLib}.

(** X15. The models only gate the route. When both models are there
    after the loading step (they were loaded before, or their
    construction succeeds now), a request is answered as by the pipeline
    alone: same answer, same images, same recognition calls. The models
    are loaded by the requests from which an image is read, and by no
    other request. *)
Theorem models_only_gate_the_route :
  forall req s p g1,
    (ServerModels.init_detector ;; ServerModels.init_predictor) (VietOcrApp.models s)
      = (Returns p, g1) ->
    VietOcrApp.ocr req s
      = ((VietOcrServer.ocr req (VietOcrApp.images s)).1,
         VietOcrApp.mkState (VietOcrServer.ocr req (VietOcrApp.images s)).2
           (if readable req then g1 else VietOcrApp.models s)).
Proof.
  intros req s p g1 Hload.
  destruct (readable req) eqn:Er; [|apply app_ocr_unreadable; exact Er].
  unfold readable in Er.
  destruct req as [| |[[|c d]|]|detail]; try discriminate.
  destruct (decode_image (String c d)) as [im|] eqn:Hi; [|discriminate].
  assert (Hne : String c d <> EmptyString) by discriminate.
  rewrite (app_ocr_decoded _ _ _ Hne Hi), (ocr_decoded _ _ _ Hne Hi), Hload.
  destruct (views _ _) as [[[dl pl]|e] i1] eqn:Ev.
  2:{ destruct (views_returns (length (heap (VietOcrApp.images s)))
                  (mkState (heap (VietOcrApp.images s) ++ [im])
                     (trace (VietOcrApp.images s)))) as (dl & pl & E).
      rewrite Ev in E. discriminate. }
  destruct (detect dl pl i1) as [[[boxes tb]|e] i2]; [|reflexivity].
  destruct (recognise dl pl boxes i2) as [[res|e] i3]; [reflexivity|].
  unfold on_error, ret, raise. destruct tb; reflexivity.
Qed.

(** X16. A model that fails to load leaves the request without an
    answer: the exception of the construction reaches the handler of the
    outer [try] before the detection step has bound [traceback], so the
    handler itself raises [UnboundLocalError], which leaves [ocr]; no 500
    body is made. Nothing was cropped or recognised, and the model that
    failed is still unset, so that the next request tries to load it
    again. *)
Theorem failed_model_load_leaves_no_answer :
  forall data_base64 im s e g1,
    data_base64 <> EmptyString ->
    decode_image data_base64 = Some im ->
    (ServerModels.init_detector ;; ServerModels.init_predictor) (VietOcrApp.models s)
      = (Raises e, g1) ->
    exists i1,
      VietOcrApp.ocr (Json (Some data_base64)) s
        = (Raises UnboundLocalError, VietOcrApp.mkState i1 g1) /\
      trace i1 = trace (VietOcrApp.images s) /\
      (ServerModels.detector g1 = None \/ ServerModels.predictor g1 = None).
Proof.
  intros data im s e g1 Hne Hdec Hload.
  rewrite (app_ocr_decoded _ _ _ Hne Hdec), Hload.
  destruct (views_returns (length (heap (VietOcrApp.images s)))
              (mkState (heap (VietOcrApp.images s) ++ [im])
                 (trace (VietOcrApp.images s)))) as (dl & pl & E).
  destruct (views _ _) as [r i1] eqn:Ev. cbn [fst] in E. subst r.
  pose proof (silent_run _ _ _ _ (views_silent _) Ev) as T1. cbn [trace] in T1.
  exists i1. split; [reflexivity|split; [exact T1|]].
  unfold bind in Hload.
  destruct (ServerModels.init_detector (VietOcrApp.models s)) as [[d|e''] g'] eqn:Ed.
  - right. apply (init_predictor_raises g' e). exact Hload.
  - left. injection Hload as -> ->. apply (init_detector_raises (VietOcrApp.models s) e). exact Ed.
Qed.

End AppFacts.

(** *** The models of the examples *)

Section ModelInstances.

Import VietOcrServer MoreSpec ModelSpec ModelFixtures Fixtures.

Lemma loaded_models_are_kept_witness :
  exists evs,
    ServerModels.trace (@serve_all models_ok [NeedBoth; Health; NeedDetector] loaded).2
      = ServerModels.trace loaded ++ evs /\
    (forall d, ServerModels.detector loaded = Some d ->
       ServerModels.detector (@serve_all models_ok [NeedBoth; Health; NeedDetector] loaded).2
         = Some d /\
       Forall (fun e => ~ builds_detector e) evs) /\
    (forall p, ServerModels.predictor loaded = Some p ->
       ServerModels.predictor (@serve_all models_ok [NeedBoth; Health; NeedDetector] loaded).2
         = Some p /\
       Forall (fun e => ~ builds_predictor e) evs).
Proof.
  exact (@loaded_models_are_kept models_ok [NeedBoth; Health; NeedDetector] loaded).
Defined.

Lemma predictor_settings_from_the_environment_witness :
  (ServerModels.device (@ServerModels.predictor_settings models_ok) = "cuda"%string <->
   exists v, @ServerModels.environ models_ok "USE_GPU" = Some v /\
             TriggerUpload.lower v = "true"%string) /\
  (ServerModels.device (@ServerModels.predictor_settings models_ok) <> "cuda"%string ->
   ServerModels.device (@ServerModels.predictor_settings models_ok) = "cpu"%string) /\
  (ServerModels.weights (@ServerModels.predictor_settings models_ok) = None <->
   @ServerModels.environ models_ok "VIETOCR_WEIGHTS" = None \/
   exists v, @ServerModels.environ models_ok "VIETOCR_WEIGHTS" = Some v /\ blank_value v) /\
  (forall w, ServerModels.weights (@ServerModels.predictor_settings models_ok) = Some w ->
     exists v, @ServerModels.environ models_ok "VIETOCR_WEIGHTS" = Some v /\
               w = str_strip v /\ ~ blank_value v).
Proof.
  exact (@predictor_settings_from_the_environment models_ok).
Defined.

Lemma models_only_gate_the_route_witness :
  @VietOcrApp.ocr no_boxes models_ok (Json (Some "aW1n"%string))
    (@VietOcrApp.mkState no_boxes models_ok (@mkState no_boxes [] [])
       (@ServerModels.mkState models_ok 0%nat None None []))
  = ((@VietOcrServer.ocr no_boxes (Json (Some "aW1n"%string)) (@mkState no_boxes [] [])).1,
     @VietOcrApp.mkState no_boxes models_ok
       (@VietOcrServer.ocr no_boxes (Json (Some "aW1n"%string)) (@mkState no_boxes [] [])).2
       (if @readable no_boxes (Json (Some "aW1n"%string)) then loaded
        else @ServerModels.mkState models_ok 0%nat None None [])).
Proof.
  apply (@models_only_gate_the_route no_boxes models_ok (Json (Some "aW1n"%string))
           (@VietOcrApp.mkState no_boxes models_ok (@mkState no_boxes [] [])
              (@ServerModels.mkState models_ok 0%nat None None []))
           1%nat loaded).
  reflexivity.
Defined.

Lemma failed_model_load_leaves_no_answer_witness :
  exists i1,
    @VietOcrApp.ocr no_boxes models_offline (Json (Some "aW1n"%string))
      (@VietOcrApp.mkState no_boxes models_offline (@mkState no_boxes [] [])
         (@ServerModels.mkState models_offline 0%nat None None []))
    = (Raises UnboundLocalError,
       @VietOcrApp.mkState no_boxes models_offline i1
         (@ServerModels.mkState models_offline 1%nat None None [ServerModels.EvPaddleOCR])) /\
    trace i1 = [] /\
    (ServerModels.detector
       (@ServerModels.mkState models_offline 1%nat None None [ServerModels.EvPaddleOCR]) = None \/
     ServerModels.predictor
       (@ServerModels.mkState models_offline 1%nat None None [ServerModels.EvPaddleOCR]) = None).
Proof.
  apply (@failed_model_load_leaves_no_answer no_boxes models_offline "aW1n"%string
           (blank 2000 2000)
           (@VietOcrApp.mkState no_boxes models_offline (@mkState no_boxes [] [])
              (@ServerModels.mkState models_offline 0%nat None None []))
           LibraryError
           (@ServerModels.mkState models_offline 1%nat None None [ServerModels.EvPaddleOCR])).
  - discriminate.
  - reflexivity.
  - reflexivity.
Defined.

End ModelInstances.

(** ** The code detector and the text extractor *)

Section LambdaFacts.

Import TriggerUpload DocumentLambdas LambdaSpec.
Context `{Runtime}.

#[local] Open Scope string_scope.
#[local] Open Scope list_scope.

Implicit Types (s : state) (j : json).

(** *** The calls of a computation *)

Lemma emits_ret P {A} (a : A) : emits P (ret a).
Proof. intros s. exists []. cbn. rewrite app_nil_r. auto. Qed.

Lemma emits_raise P {A} e : emits P (@raise state A e).
Proof. intros s. exists []. cbn. rewrite app_nil_r. auto. Qed.

Lemma emits_lift P {A} (o : outcome A) : emits P (lift o).
Proof. intros s. exists []. cbn. rewrite app_nil_r. auto. Qed.

Lemma emits_emit (P : event -> Prop) e : P e -> emits P (emit e).
Proof. intros He s. exists [e]. cbn. auto. Qed.

Lemma emits_call P {A} (f : World -> outcome A * World) : emits P (call f).
Proof.
  intros s. exists []. unfold call. destruct (f (world s)). cbn.
  rewrite app_nil_r. auto.
Qed.

Lemma emits_bind P {A B} (m : M state A) (k : A -> M state B) :
  emits P m -> (forall a, emits P (k a)) -> emits P (bind m k).
Proof.
  intros Hm Hk s. unfold bind. destruct (Hm s) as (r1 & H1 & F1).
  destruct (m s) as [[a|e] s1]; cbn [snd] in *.
  - destruct (Hk a s1) as (r2 & H2 & F2). exists (r1 ++ r2).
    rewrite H2, H1, app_assoc. split; [reflexivity|apply Forall_app; auto].
  - exists r1. auto.
Qed.

Lemma emits_try P {A} (m : M state A) (h : exn -> M state A) :
  emits P m -> (forall e, emits P (h e)) -> emits P (try_except m h).
Proof.
  intros Hm Hh s. unfold try_except. destruct (Hm s) as (r1 & H1 & F1).
  destruct (m s) as [[a|e] s1]; cbn [snd] in *.
  - exists r1. auto.
  - destruct (Hh e s1) as (r2 & H2 & F2). exists (r1 ++ r2).
    rewrite H2, H1, app_assoc. split; [reflexivity|apply Forall_app; auto].
Qed.

Create HintDb emits.
#[local] Hint Resolve emits_ret emits_raise emits_lift emits_call emits_bind emits_try
  : emits.

Lemma images_read_only path : emits reads_only (_images_from_document path).
Proof.
  unfold _images_from_document. destruct (endswith (lower path) ".pdf");
    repeat (apply emits_bind; [|intros ?]); auto with emits;
    apply emits_emit; exact I.
Qed.

Lemma decode_read_only img : emits reads_only (_try_decode_qr img).
Proof.
  unfold _try_decode_qr. apply emits_bind; [apply emits_emit; exact I|intros _].
  apply emits_bind; [auto with emits|intros [[retval decoded_info] points]].
  destruct decoded_info as [|text rest]; [auto with emits|].
  destruct retval; auto with emits.
Qed.

Lemma first_code_read_only images : emits reads_only (first_code images).
Proof.
  induction images as [|img rest IH]; cbn [first_code]; [auto with emits|].
  apply emits_bind; [apply decode_read_only|intros [[text box]|]]; [|exact IH].
  destruct (negb (text =? "")); [auto with emits|exact IH].
Qed.

Lemma get_model_read_only : emits reads_only _get_model.
Proof.
  intros s. unfold _get_model. destruct (_model s) as [m|].
  - exists []. cbn. rewrite app_nil_r. auto.
  - unfold bind, call, emit. cbn [world trace _model].
    destruct (load_config_from_name "vgg_transformer" (world s)) as [[cfg|e] w];
      cbn [world trace _model snd].
    + destruct (Predictor cfg get_model_settings w) as [[m|e] w'];
        cbn [world trace _model snd];
        exists [EvLoadModel get_model_settings]; (split; [reflexivity|]);
        repeat constructor.
    + exists []. rewrite app_nil_r. auto.
Qed.

Lemma read_pages_read_only model images :
  forall texts, emits reads_only (read_pages model images texts).
Proof.
  induction images as [|img rest IH]; intros texts; cbn [read_pages]; [auto with emits|].
  apply emits_bind; [apply emits_emit; exact I|intros _].
  apply emits_bind; [auto with emits|intros text]. apply IH.
Qed.

(** The removal of the local copy: one call, and no exception. *)
Lemma remove_quietly_run path s :
  exists w, remove_quietly path s
            = (Returns tt, mkState w (trace s ++ [EvUnlink path]) (_model s)).
Proof.
  unfold remove_quietly, try_except, bind, emit, call, ret. cbn [world trace _model].
  destruct (unlink path (world s)) as [[[]|e] w]; eauto.
Qed.

(** [try: body finally: remove] when the body only reads. *)
Lemma finally_removed {A} (body : M state A) path s :
  emits reads_only body ->
  exists s' evs,
    try_finally body (remove_quietly path) s = ((body s).1, s') /\
    trace s' = trace s ++ evs ++ [EvUnlink path] /\ Forall reads_only evs /\
    _model s' = _model (body s).2.
Proof.
  intros Hbody. destruct (Hbody s) as (evs & Ht & Hevs). unfold try_finally.
  destruct (body s) as [r s1]. cbn [fst snd] in *.
  destruct (remove_quietly_run path s1) as (w & ->).
  eexists _, evs. split; [reflexivity|]. cbn [trace _model].
  rewrite Ht, <- app_assoc. auto.
Qed.

(** The download, when the local file could be created. *)
Lemma download_run bucket key s path w1 :
  mkstemp (world s) = (Returns path, w1) ->
  _download_s3_object bucket key s =
    (match (download_file bucket key path w1).1 with
     | Returns _ => Returns path
     | Raises e => Raises e
     end,
     mkState (download_file bucket key path w1).2
       (trace s ++ [EvMkstemp path; EvDownload bucket key path]) (_model s)).
Proof.
  intros Hmk. unfold _download_s3_object, bind, call, emit, ret. cbn [world trace _model].
  rewrite Hmk. cbn [world trace _model].
  destruct (download_file bucket key path w1) as [[[]|e] w2]; cbn [fst snd];
    rewrite <- app_assoc; reflexivity.
Qed.

(** X17. An event that names no bucket or no key (at the top level or
    under [s3]) is answered 400 by both functions, and nothing is
    created, downloaded or read. *)
Theorem missing_bucket_or_key_is_refused :
  forall event bucket key s,
    event_field event "bucket" = Returns bucket ->
    event_field event "key" = Returns key ->
    truthy bucket = false \/ truthy key = false ->
    qr_handler event s = (Returns missing_bucket_key, s) /\
    ocr_handler event s = (Returns missing_bucket_key, s).
Proof.
  intros event bucket key s Hb Hk Hmiss.
  assert (Htest : negb (truthy bucket) || negb (truthy key) = true)
    by (destruct Hmiss as [-> | ->]; [reflexivity|apply orb_true_r]).
  unfold qr_handler, ocr_handler, bind, lift. rewrite Hb, Hk, Htest. split; reflexivity.
Qed.

(** Both functions, for an event that names a bucket and a key. *)
Lemma qr_handler_fetch event bucket key s :
  event_field event "bucket" = Returns bucket ->
  event_field event "key" = Returns key ->
  truthy bucket = true -> truthy key = true ->
  qr_handler event s =
    (let* local_path := _download_s3_object bucket key in
     try_finally
       (let* images := _images_from_document local_path in
        first_code images)
       (remove_quietly local_path)) s.
Proof.
  intros Hb Hk Tb Tk. unfold qr_handler, bind at 1, lift at 1. rewrite Hb.
  unfold bind at 1, lift at 1. rewrite Hk, Tb, Tk. reflexivity.
Qed.

Lemma ocr_handler_fetch event bucket key s :
  event_field event "bucket" = Returns bucket ->
  event_field event "key" = Returns key ->
  truthy bucket = true -> truthy key = true ->
  ocr_handler event s =
    (let* local_path := _download_s3_object bucket key in
     try_finally
       (let* images := _images_from_document local_path in
        let* model := _get_model in
        let* texts := read_pages model images [] in
        ret (extracted texts))
       (remove_quietly local_path)) s.
Proof.
  intros Hb Hk Tb Tk. unfold ocr_handler, bind at 1, lift at 1. rewrite Hb.
  unfold bind at 1, lift at 1. rewrite Hk, Tb, Tk. reflexivity.
Qed.

(** X18. The local copy of the document. Once the temporary file exists,
    a download that raises leaves both functions with that exception and
    the file is not removed; a download that succeeds is followed by
    reading calls only and then, on every path out of the function, by
    the removal of the file, which is the last call. *)
Theorem local_copy_is_removed_after_a_download :
  forall event bucket key s path w1,
    event_field event "bucket" = Returns bucket ->
    event_field event "key" = Returns key ->
    truthy bucket = true -> truthy key = true ->
    mkstemp (world s) = (Returns path, w1) ->
    let fetched := [EvMkstemp path; EvDownload bucket key path] in
    (forall e w2,
       download_file bucket key path w1 = (Raises e, w2) ->
       qr_handler event s = (Raises e, mkState w2 (trace s ++ fetched) (_model s)) /\
       ocr_handler event s = (Raises e, mkState w2 (trace s ++ fetched) (_model s))) /\
    (forall w2,
       download_file bucket key path w1 = (Returns tt, w2) ->
       (exists r s' evs,
          qr_handler event s = (r, s') /\
          trace s' = trace s ++ fetched ++ evs ++ [EvUnlink path] /\
          Forall reads_only evs) /\
       (exists r s' evs,
          ocr_handler event s = (r, s') /\
          trace s' = trace s ++ fetched ++ evs ++ [EvUnlink path] /\
          Forall reads_only evs)).
Proof.
  intros event bucket key s path w1 Hb Hk Tb Tk Hmk fetched.
  pose proof (download_run bucket key s path w1 Hmk) as Hdl.
  rewrite (qr_handler_fetch _ _ _ _ Hb Hk Tb Tk), (ocr_handler_fetch _ _ _ _ Hb Hk Tb Tk).
  split.
  - intros e w2 Hfail. rewrite Hfail in Hdl. cbn [fst snd] in Hdl.
    unfold bind. rewrite Hdl. split; reflexivity.
  - intros w2 Hok. rewrite Hok in Hdl. cbn [fst snd] in Hdl. split.
    + unfold bind at 1. rewrite Hdl.
      match goal with
      | |- context [try_finally ?body (remove_quietly path) ?st] =>
          destruct (finally_removed body path st) as (s' & evs & E & Ht & Hevs & _)
      end.
      { apply emits_bind; [apply images_read_only|intros images].
        apply first_code_read_only. }
      eexists _, s', evs. split; [exact E|]. split; [|exact Hevs].
      rewrite Ht. cbn [trace]. rewrite <- !app_assoc. reflexivity.
    + unfold bind at 1. rewrite Hdl.
      match goal with
      | |- context [try_finally ?body (remove_quietly path) ?st] =>
          destruct (finally_removed body path st) as (s' & evs & E & Ht & Hevs & _)
      end.
      { apply emits_bind; [apply images_read_only|intros images].
        apply emits_bind; [apply get_model_read_only|intros model].
        apply emits_bind; [apply read_pages_read_only|intros texts].
        auto with emits. }
      eexists _, s', evs. split; [exact E|]. split; [|exact Hevs].
      rewrite Ht. cbn [trace]. rewrite <- !app_assoc. reflexivity.
Qed.

(** *** The answers *)

Lemma first_code_skips pre :
  Forall (fun p => exists res, decodes_to p res /\ no_text res) pre ->
  forall rest s,
    first_code (pre ++ rest) s
      = first_code rest (mkState (world s) (trace s ++ map EvDecode pre) (_model s)).
Proof.
  induction 1 as [|p pre (res & Hp & Hno) _ IH]; intros rest s.
  - cbn. rewrite app_nil_r. destruct s; reflexivity.
  - cbn [app first_code map]. unfold bind. rewrite Hp.
    assert (Hnext : forall s', match res with
                     | Some (text, box) =>
                         if negb (text =? "")
                         then ret (code text box)
                         else first_code (pre ++ rest)
                     | None => first_code (pre ++ rest)
                     end s' = first_code (pre ++ rest) s').
    { intros s'. destruct Hno as [->|(box & ->)]; reflexivity. }
    unfold code in Hnext. rewrite Hnext, IH. cbn [world trace _model].
    rewrite <- app_assoc. reflexivity.
Qed.

(** A page on which OpenCV finds no text decodes to no text. *)
Lemma blank_page_decodes img :
  blank_page img -> exists res, decodes_to img res /\ no_text res.
Proof.
  intros (retval & info & points & Hdet & Hcase).
  assert (Hnone : retval = false \/ info = [] ->
            exists res, decodes_to img res /\ no_text res).
  { intros Hc. exists None. split; [|left; reflexivity].
    intros s. unfold _try_decode_qr, bind, emit, lift. rewrite Hdet.
    destruct Hc as [-> | ->]; [destruct info|]; reflexivity. }
  destruct Hcase as [Hc|[Hc|(others & box & -> & Hbox)]]; [auto|auto|].
  destruct retval; [|apply Hnone; auto].
  exists (Some ("", box)). split; [|right; eexists; reflexivity].
  intros s. unfold _try_decode_qr, bind, emit, lift. rewrite Hdet, Hbox. reflexivity.
Qed.

(** Of the codes of a page the first is the one that is read. *)
Lemma coded_page_decodes img text box :
  coded_page img text box -> decodes_to img (Some (text, box)).
Proof.
  intros (others & points & Hdet & Hbox) s.
  unfold _try_decode_qr, bind, emit, lift. rewrite Hdet, Hbox. reflexivity.
Qed.

Lemma corners_of_numbers ps :
  Forall (fun p => is_number p.1 /\ is_number p.2) ps ->
  exists pts, corners ps = Returns pts /\
    Forall2 (fun p c => corner p = Returns c) ps pts.
Proof.
  induction 1 as [|[x y] ps [Hx Hy] _ (pts & Hpts & Hall)]; cbn [corners].
  - exists []. split; [reflexivity|constructor].
  - assert (Hc : exists c, corner (x, y) = Returns c).
    { unfold corner. cbn [fst snd] in *.
      destruct x; try destruct Hx; destruct y; try destruct Hy; cbn; eauto. }
    destruct Hc as (c & Hc). rewrite Hc, Hpts. cbn [obind].
    exists (c :: pts). split; [reflexivity|constructor; assumption].
Qed.

(** X19. The code detector answers with the first page on which a
    non-empty text was decoded: the pages before it were decoded, the
    pages after it are not looked at, and the answer carries that text
    and its box. When no page decodes to a text, all pages were decoded
    and the answer is [hasQR: false]. Of a page only the first code
    counts, whatever corners come with it: when OpenCV reports nothing,
    or a first code that reads as the empty string, the page has no
    text, whatever its other codes read. The box of a code lists its
    corners, which are there whenever the coordinates are numbers. *)
Theorem first_decoded_page_answers :
  (forall pre img post text box s,
     Forall (fun p => exists res, decodes_to p res /\ no_text res) pre ->
     decodes_to img (Some (text, box)) -> text <> "" ->
     first_code (pre ++ img :: post) s
       = (Returns (code text box),
          mkState (world s) (trace s ++ map EvDecode (pre ++ [img])) (_model s))) /\
  (forall images s,
     Forall (fun p => exists res, decodes_to p res /\ no_text res) images ->
     first_code images s
       = (Returns no_code,
          mkState (world s) (trace s ++ map EvDecode images) (_model s))) /\
  (forall img, blank_page img -> exists res, decodes_to img res /\ no_text res) /\
  (forall img text box, coded_page img text box -> decodes_to img (Some (text, box))) /\
  (forall pre img post text box s,
     Forall blank_page pre -> coded_page img text box -> text <> "" ->
     first_code (pre ++ img :: post) s
       = (Returns (code text box),
          mkState (world s) (trace s ++ map EvDecode (pre ++ [img])) (_model s))) /\
  (forall images s,
     Forall blank_page images ->
     first_code images s
       = (Returns no_code,
          mkState (world s) (trace s ++ map EvDecode images) (_model s))) /\
  (forall p ps others,
     Forall (fun q => is_number q.1 /\ is_number q.2) (p :: ps) ->
     exists pts,
       box_of (Some ((p :: ps) :: others)) = Returns (JObj [("points", JArr pts)]) /\
       Forall2 (fun q c => corner q = Returns c) (p :: ps) pts).
Proof.
  assert (Hfound : forall pre img post text box s,
     Forall (fun p => exists res, decodes_to p res /\ no_text res) pre ->
     decodes_to img (Some (text, box)) -> text <> "" ->
     first_code (pre ++ img :: post) s
       = (Returns (code text box),
          mkState (world s) (trace s ++ map EvDecode (pre ++ [img])) (_model s))).
  { intros pre img post text box s Hpre Himg Htext.
    rewrite (first_code_skips pre Hpre). cbn [first_code]. unfold bind. rewrite Himg.
    replace (negb (text =? "")) with true
      by (symmetry; apply negb_true_iff, String.eqb_neq; exact Htext).
    cbn [world trace _model]. rewrite map_app, app_assoc. reflexivity. }
  assert (Hnone : forall images s,
     Forall (fun p => exists res, decodes_to p res /\ no_text res) images ->
     first_code images s
       = (Returns no_code,
          mkState (world s) (trace s ++ map EvDecode images) (_model s))).
  { intros images s Hall.
    rewrite <- (app_nil_r images) at 1. rewrite (first_code_skips images Hall).
    reflexivity. }
  assert (Hblank : forall l, Forall blank_page l ->
     Forall (fun p => exists res, decodes_to p res /\ no_text res) l).
  { intros l Hl. eapply List.Forall_impl; [|exact Hl]. exact blank_page_decodes. }
  split; [exact Hfound|]. split; [exact Hnone|].
  split; [exact blank_page_decodes|]. split; [exact coded_page_decodes|].
  split; [|split].
  - intros pre img post text box s Hpre Himg Htext.
    apply Hfound; [apply Hblank; exact Hpre|apply coded_page_decodes; exact Himg|exact Htext].
  - intros images s Hall. apply Hnone, Hblank, Hall.
  - intros p ps others Hnum.
    destruct (corners_of_numbers (p :: ps) Hnum) as (pts & Hpts & Hall).
    exists pts. split; [|exact Hall]. unfold box_of. rewrite Hpts. reflexivity.
Qed.

(** The loop of the text extractor on pages that can be read. *)
Lemma read_pages_run model images :
  forall texts acc s,
    Forall2 (fun img t => predict model img = Returns t) images texts ->
    read_pages model images acc s
      = (Returns (acc ++ List.filter nonempty texts),
         mkState (world s) (trace s ++ map EvPredict images) (_model s)).
Proof.
  induction images as [|img rest IH]; intros texts acc s Hall.
  - inversion Hall; subst. cbn. rewrite !app_nil_r. destruct s; reflexivity.
  - inversion Hall as [|? t ? ts Ht Hrest]; subst.
    cbn [read_pages]. unfold bind, emit, lift. rewrite Ht.
    rewrite (IH ts _ _ Hrest). cbn [world trace _model List.filter map].
    unfold nonempty at 2.
    destruct (t =? ""); cbn [negb]; rewrite <- !app_assoc; reflexivity.
Qed.

Lemma append_empty (a b : string) : (a ++ b)%string = "" -> a = "" /\ b = "".
Proof. destruct a; [auto|discriminate]. Qed.

Lemma join_texts_empty texts :
  Forall (fun t => nonempty t = true) texts -> (join_texts texts = "" <-> texts = []).
Proof.
  intros Hall. split; [|intros ->; reflexivity].
  destruct texts as [|t ts]; [reflexivity|]. intros Hj. exfalso.
  inversion Hall as [|? ? Ht _]; subst.
  unfold nonempty in Ht. apply negb_true_iff, String.eqb_neq in Ht.
  unfold join_texts in Hj. destruct ts as [|t' ts]; cbn [String.concat] in Hj; [congruence|].
  apply append_empty in Hj as [Hj _]. congruence.
Qed.

(** X20. The text extractor reads every page with the one model, in
    order, and answers the texts that are not empty, joined by line
    feeds; the answered text is empty exactly when every page read as
    the empty string. *)
Theorem extracted_text_joins_the_pages :
  forall model images texts s,
    Forall2 (fun img t => predict model img = Returns t) images texts ->
    (let* read := read_pages model images [] in ret (extracted read)) s
      = (Returns (extracted (List.filter nonempty texts)),
         mkState (world s) (trace s ++ map EvPredict images) (_model s)) /\
    (join_texts (List.filter nonempty texts) = "" <-> Forall (fun t => t = "") texts).
Proof.
  intros model images texts s Hall. split.
  - unfold bind. rewrite (read_pages_run model images texts [] s Hall). reflexivity.
  - rewrite join_texts_empty.
    + clear Hall. induction texts as [|t ts IH]; [split; auto|].
      cbn [List.filter]. unfold nonempty at 1.
      destruct (t =? "") eqn:Et; cbn [negb].
      * apply String.eqb_eq in Et. rewrite IH. split.
        -- intros Hts. constructor; assumption.
        -- intros Hts. inversion Hts; assumption.
      * apply String.eqb_neq in Et. split; [discriminate|].
        intros Hts. inversion Hts; congruence.
    + apply List.Forall_forall. intros t Ht. apply filter_In in Ht as [_ Ht]. exact Ht.
Qed.

(** What the two functions can answer. *)
Lemma first_code_answers images :
  forall s resp s',
    first_code images s = (Returns resp, s') ->
    resp = no_code \/ exists text box, text <> "" /\ resp = code text box.
Proof.
  induction images as [|img rest IH]; intros s resp s'; cbn [first_code].
  - unfold ret. intros Eq. injection Eq as <- _. left. reflexivity.
  - unfold bind. destruct (_try_decode_qr img s) as [[[[text box]|]|e] s1];
      [| |discriminate]; [|apply IH].
    destruct (text =? "") eqn:Et; cbn [negb]; [apply IH|].
    unfold ret. intros Eq. injection Eq as <- _. right. exists text, box.
    split; [apply String.eqb_neq; exact Et|reflexivity].
Qed.

Lemma finally_returns {A} (body : M state A) path s (a : A) s' :
  try_finally body (remove_quietly path) s = (Returns a, s') ->
  exists s1, body s = (Returns a, s1).
Proof.
  unfold try_finally. destruct (body s) as [r s1].
  destruct (remove_quietly_run path s1) as (w & ->). intros Eq. injection Eq as -> _.
  eauto.
Qed.

Lemma qr_handler_answers event s resp s' :
  qr_handler event s = (Returns resp, s') ->
  resp = missing_bucket_key \/ resp = no_code \/
  exists text box, text <> "" /\ resp = code text box.
Proof.
  unfold qr_handler, bind at 1, lift at 1.
  destruct (event_field event "bucket") as [bucket|e]; [|discriminate].
  unfold bind at 1, lift at 1.
  destruct (event_field event "key") as [key|e]; [|discriminate].
  destruct (negb (truthy bucket) || negb (truthy key)).
  { unfold ret. intros Eq. injection Eq as <- _. left. reflexivity. }
  unfold bind at 1.
  destruct (_download_s3_object bucket key s) as [[path|e] s1]; [|discriminate].
  intros Hrun. apply finally_returns in Hrun as (s2 & Hbody).
  unfold bind in Hbody.
  destruct (_images_from_document path s1) as [[images|e] s3]; [|discriminate].
  right. exact (first_code_answers _ _ _ _ Hbody).
Qed.

Lemma read_pages_nonempty model images :
  forall acc s out s',
    read_pages model images acc s = (Returns out, s') ->
    Forall (fun t => nonempty t = true) acc ->
    Forall (fun t => nonempty t = true) out.
Proof.
  induction images as [|img rest IH]; intros acc s out s'; cbn [read_pages].
  - unfold ret. intros Eq. injection Eq as <- _. auto.
  - unfold bind, emit, lift. destruct (predict model img) as [t|e]; [|discriminate].
    intros Hrun Hacc. apply (IH _ _ _ _ Hrun).
    destruct (t =? "") eqn:Et; [exact Hacc|].
    apply Forall_app. split; [exact Hacc|]. repeat constructor.
    unfold nonempty. rewrite Et. reflexivity.
Qed.

Lemma ocr_handler_answers event s resp s' :
  ocr_handler event s = (Returns resp, s') ->
  resp = missing_bucket_key \/
  exists texts, resp = extracted texts /\ Forall (fun t => nonempty t = true) texts.
Proof.
  unfold ocr_handler, bind at 1, lift at 1.
  destruct (event_field event "bucket") as [bucket|e]; [|discriminate].
  unfold bind at 1, lift at 1.
  destruct (event_field event "key") as [key|e]; [|discriminate].
  destruct (negb (truthy bucket) || negb (truthy key)).
  { unfold ret. intros Eq. injection Eq as <- _. left. reflexivity. }
  unfold bind at 1.
  destruct (_download_s3_object bucket key s) as [[path|e] s1]; [|discriminate].
  intros Hrun. apply finally_returns in Hrun as (s2 & Hbody).
  unfold bind in Hbody.
  destruct (_images_from_document path s1) as [[images|e] s3]; [|discriminate].
  destruct (_get_model s3) as [[model|e] s4]; [|discriminate].
  destruct (read_pages model images [] s4) as [[texts|e] s5] eqn:Hread; [|discriminate].
  unfold ret in Hbody. injection Hbody as <- _. right. exists texts.
  split; [reflexivity|]. apply (read_pages_nonempty _ _ _ _ _ _ Hread). constructor.
Qed.

Lemma images_as_one path s :
  endswith (lower path) ".pdf" = false ->
  _images_from_document path s =
    (match (image_open path (world s)).1 with
     | Returns img => Returns [img]
     | Raises e => Raises e
     end,
     mkState (image_open path (world s)).2 (trace s ++ [EvImageOpen path]) (_model s)).
Proof.
  intros Hname. unfold _images_from_document. rewrite Hname.
  unfold bind, emit, call, ret. cbn [world trace _model].
  destruct (image_open path (world s)) as [[img|e] w]; reflexivity.
Qed.

(** X21. Which reader a document gets is decided by the name of the
    temporary file, not by the key: when that name does not end in
    [.pdf], the document is opened as one image whatever its key says, a
    PDF included. If it cannot be opened the function fails with that
    error, after removing the file; otherwise the one page is decoded
    and answers. *)
Theorem temporary_name_decides_the_reader :
  forall event bucket key s path w1 w2,
    event_field event "bucket" = Returns bucket ->
    event_field event "key" = Returns key ->
    truthy bucket = true -> truthy key = true ->
    mkstemp (world s) = (Returns path, w1) ->
    download_file bucket key path w1 = (Returns tt, w2) ->
    endswith (lower path) ".pdf" = false ->
    let fetched := [EvMkstemp path; EvDownload bucket key path; EvImageOpen path] in
    (forall e w3,
       image_open path w2 = (Raises e, w3) ->
       exists w4,
         qr_handler event s
           = (Raises e, mkState w4 (trace s ++ fetched ++ [EvUnlink path]) (_model s))) /\
    (forall img w3 res,
       image_open path w2 = (Returns img, w3) ->
       decodes_to img res ->
       exists w4,
         qr_handler event s
           = (Returns (answer_of res),
              mkState w4 (trace s ++ fetched ++ [EvDecode img; EvUnlink path]) (_model s))).
Proof.
  intros event bucket key s path w1 w2 Hb Hk Tb Tk Hmk Hdl Hname fetched.
  pose proof (download_run bucket key s path w1 Hmk) as Hrun.
  rewrite Hdl in Hrun. cbn [fst snd] in Hrun.
  rewrite (qr_handler_fetch _ _ _ _ Hb Hk Tb Tk).
  split.
  - intros e w3 Hopen. unfold bind at 1. rewrite Hrun.
    unfold try_finally, bind at 1. rewrite (images_as_one _ _ Hname). cbn [world trace _model].
    rewrite Hopen. cbn [fst snd].
    match goal with
    | |- context [remove_quietly path ?st] =>
        destruct (remove_quietly_run path st) as (w4 & ->)
    end.
    exists w4. cbn [trace _model]. rewrite <- !app_assoc. reflexivity.
  - intros img w3 res Hopen Hres. unfold bind at 1. rewrite Hrun.
    unfold try_finally, bind at 1. rewrite (images_as_one _ _ Hname). cbn [world trace _model].
    rewrite Hopen. cbn [fst snd].
    cbn [first_code]. unfold bind at 1. rewrite Hres.
    cbn [world trace _model].
    destruct res as [[text box]|]; unfold answer_of, nonempty;
      [destruct (negb (text =? ""))|]; cbn [first_code]; unfold ret, code, no_code;
      match goal with
      | |- context [remove_quietly path ?st] =>
          destruct (remove_quietly_run path st) as (w4 & ->)
      end;
      exists w4; cbn [trace _model]; rewrite <- !app_assoc; reflexivity.
Qed.

(** *** The model of the text extractor *)

Lemma warm_ret m {A} (a : A) : warm m (ret a).
Proof. intros s Hs. exists []. cbn. rewrite app_nil_r. auto. Qed.

Lemma warm_raise m {A} e : warm m (@raise state A e).
Proof. intros s Hs. exists []. cbn. rewrite app_nil_r. auto. Qed.

Lemma warm_lift m {A} (o : outcome A) : warm m (lift o).
Proof. intros s Hs. exists []. cbn. rewrite app_nil_r. auto. Qed.

Lemma warm_emit m e : ~ loads_model e -> warm m (emit e).
Proof. intros He s Hs. exists [e]. cbn. auto. Qed.

Lemma warm_call m {A} (f : World -> outcome A * World) : warm m (call f).
Proof.
  intros s Hs. exists []. unfold call. destruct (f (world s)). cbn.
  rewrite app_nil_r. auto.
Qed.

Lemma warm_bind m {A B} (c : M state A) (k : A -> M state B) :
  warm m c -> (forall a, warm m (k a)) -> warm m (bind c k).
Proof.
  intros Hc Hk s Hs. unfold bind. destruct (Hc s Hs) as (r1 & H1 & F1 & M1).
  destruct (c s) as [[a|e] s1]; cbn [snd] in *.
  - destruct (Hk a s1 M1) as (r2 & H2 & F2 & M2). exists (r1 ++ r2).
    rewrite H2, H1, app_assoc. split; [reflexivity|].
    split; [apply Forall_app; auto|exact M2].
  - exists r1. auto.
Qed.

Lemma warm_try m {A} (c : M state A) (h : exn -> M state A) :
  warm m c -> (forall e, warm m (h e)) -> warm m (try_except c h).
Proof.
  intros Hc Hh s Hs. unfold try_except. destruct (Hc s Hs) as (r1 & H1 & F1 & M1).
  destruct (c s) as [[a|e] s1]; cbn [snd] in *.
  - exists r1. auto.
  - destruct (Hh e s1 M1) as (r2 & H2 & F2 & M2). exists (r1 ++ r2).
    rewrite H2, H1, app_assoc. split; [reflexivity|].
    split; [apply Forall_app; auto|exact M2].
Qed.

Lemma warm_finally m {A} (c : M state A) (f : M state unit) :
  warm m c -> warm m f -> warm m (try_finally c f).
Proof.
  intros Hc Hf s Hs. unfold try_finally. destruct (Hc s Hs) as (r1 & H1 & F1 & M1).
  destruct (c s) as [r s1]; cbn [snd] in *.
  destruct (Hf s1 M1) as (r2 & H2 & F2 & M2).
  destruct (f s1) as [[[]|e] s2]; cbn [snd] in *;
    exists (r1 ++ r2); rewrite H2, H1, app_assoc;
    (split; [reflexivity|]); (split; [apply Forall_app; auto|exact M2]).
Qed.

Lemma warm_get_model m : warm m _get_model.
Proof.
  intros s Hs. unfold _get_model. rewrite Hs. exists []. cbn.
  rewrite app_nil_r. auto.
Qed.

Create HintDb warm.
#[local] Hint Resolve warm_ret warm_raise warm_lift warm_call warm_bind warm_try
  warm_finally warm_get_model : warm.

Ltac warm_steps :=
  repeat first
    [ apply warm_bind; [|intros ?]
    | apply warm_try; [|intros ?]
    | apply warm_finally
    | apply warm_emit; intros []
    | solve [auto with warm]
    | match goal with |- warm _ (if ?c then _ else _) => destruct c end
    | match goal with |- warm _ (match ?c with _ => _ end) => destruct c end
    | match goal with |- warm _ (let '(_, _) := ?c in _) => destruct c end ].

Lemma warm_first_code m images : warm m (first_code images).
Proof.
  induction images as [|img rest IH]; cbn [first_code]; [auto with warm|].
  apply warm_bind.
  - unfold _try_decode_qr. warm_steps.
  - intros [[text box]|]; [|exact IH].
    destruct (negb (text =? "")); [auto with warm|exact IH].
Qed.

Lemma warm_read_pages m model images :
  forall texts, warm m (read_pages model images texts).
Proof.
  induction images as [|img rest IH]; intros texts; cbn [read_pages]; [auto with warm|].
  apply warm_bind; [apply warm_emit; intros []|intros _].
  apply warm_bind; [auto with warm|intros text]. apply IH.
Qed.

(** X22. An invocation that finds the model loaded (a warm start) reads
    its pages with that model: the text extractor constructs no
    predictor and leaves the model in place, whatever else happens, and
    the code detector never touches it. *)
Theorem loaded_model_is_reused :
  forall m event s,
    _model s = Some m ->
    (exists evs,
       trace (ocr_handler event s).2 = trace s ++ evs /\
       Forall (fun e => ~ loads_model e) evs /\
       _model (ocr_handler event s).2 = Some m) /\
    (exists evs,
       trace (qr_handler event s).2 = trace s ++ evs /\
       Forall (fun e => ~ loads_model e) evs /\
       _model (qr_handler event s).2 = Some m).
Proof.
  intros m event s Hs. split.
  - assert (Hw : warm m (ocr_handler event)); [|exact (Hw s Hs)].
    unfold ocr_handler, _download_s3_object, _images_from_document, remove_quietly.
    warm_steps. apply warm_read_pages.
  - assert (Hw : warm m (qr_handler event)); [|exact (Hw s Hs)].
    unfold qr_handler, _download_s3_object, _images_from_document, remove_quietly.
    warm_steps. apply warm_first_code.
Qed.

(** X23. A cold start of the text extractor on a document of one page:
    the document is fetched and opened, the predictor is constructed once,
    on the CPU and without beam search, the page is read with it, the
    local copy is removed, and the model stays loaded for the next
    invocation. The answer is the text of the page, or the empty text
    when the page read as the empty string. *)
Theorem cold_start_reads_with_a_new_model :
  forall event bucket key s path w1 w2 img w3 cfg w4 m w5 t,
    event_field event "bucket" = Returns bucket ->
    event_field event "key" = Returns key ->
    truthy bucket = true -> truthy key = true ->
    mkstemp (world s) = (Returns path, w1) ->
    download_file bucket key path w1 = (Returns tt, w2) ->
    endswith (lower path) ".pdf" = false ->
    image_open path w2 = (Returns img, w3) ->
    _model s = None ->
    load_config_from_name "vgg_transformer" w3 = (Returns cfg, w4) ->
    Predictor cfg (mkSettings "cpu" false) w4 = (Returns m, w5) ->
    predict m img = Returns t ->
    exists w6,
      ocr_handler event s
        = (Returns (extracted (if nonempty t then [t] else [])),
           mkState w6
             (trace s ++ [EvMkstemp path; EvDownload bucket key path; EvImageOpen path;
                          EvLoadModel (mkSettings "cpu" false); EvPredict img;
                          EvUnlink path])
             (Some m)).
Proof.
  intros event bucket key s path w1 w2 img w3 cfg w4 m w5 t
    Hb Hk Tb Tk Hmk Hdl Hname Hopen Hcold Hcfg Hnew Hread.
  pose proof (download_run bucket key s path w1 Hmk) as Hrun.
  rewrite Hdl in Hrun. cbn [fst snd] in Hrun.
  rewrite (ocr_handler_fetch _ _ _ _ Hb Hk Tb Tk). unfold bind at 1. rewrite Hrun.
  unfold try_finally, bind at 1. rewrite (images_as_one _ _ Hname). cbn [world trace _model].
  rewrite Hopen. cbn [fst snd].
  unfold bind at 1, _get_model at 1. cbn [world trace _model]. rewrite Hcold.
  unfold bind at 1, call at 1. cbn [world trace _model]. rewrite Hcfg.
  unfold bind at 1, emit at 1. cbn [world trace _model].
  unfold bind at 1, call at 1, get_model_settings. cbn [world trace _model]. rewrite Hnew.
  cbn [world trace _model read_pages].
  unfold bind at 1 2, emit at 1. cbn [world trace _model].
  unfold bind at 1, lift at 1. rewrite Hread. unfold ret at 1 2.
  match goal with
  | |- context [remove_quietly path ?st] =>
      destruct (remove_quietly_run path st) as (w6 & ->)
  end.
  exists w6. cbn [trace _model]. rewrite <- !app_assoc. unfold nonempty, extracted.
  destruct (t =? ""); reflexivity.
Qed.

End LambdaFacts.

(** *** The answers, as the router reads them *)

Section LambdaRouterFacts.

Import TriggerUpload DocumentLambdas LambdaSpec.
Context `{Runtime} `{Services}.

#[local] Open Scope string_scope.
#[local] Open Scope list_scope.

(** The [body] of an answer, read back by the router. *)
Lemma unwrap_answer resp j :
  (forall j', body resp = json_dumps j' -> json_loads (body resp) = Some j') ->
  body resp = json_dumps j ->
  unwrap_body (payload_of resp) = Returns j.
Proof.
  intros Hrt Hbody. unfold unwrap_body, payload_of, loads. cbn.
  rewrite (Hrt j Hbody). reflexivity.
Qed.

(** X24. The answer of the code detector, read by the router, whose
    parser gives back what the detector serialised: [hasQR] and
    [decodedText] are truthy together, and they are exactly when a page
    was decoded to a non-empty text. The second half of the router's test
    [hasQR and decodedText] never decides with this detector, and a 400
    answer reads as a document without code. *)
Theorem detector_answer_read_by_the_router :
  forall event s resp s',
    qr_handler event s = (Returns resp, s') ->
    (forall j, body resp = json_dumps j -> json_loads (body resp) = Some j) ->
    exists qr_result has_qr decoded_text,
      unwrap_body (payload_of resp) = Returns qr_result /\
      dict_get qr_result "hasQR" JNull = Returns has_qr /\
      dict_get qr_result "decodedText" JNull = Returns decoded_text /\
      truthy has_qr = truthy decoded_text /\
      (truthy has_qr = true <-> exists text box, text <> "" /\ resp = code text box).
Proof.
  intros event s resp s' Hrun Hrt.
  assert (Hother : forall j text box,
            body resp = json_dumps j -> resp = code text box ->
            j = JObj [("hasQR", JBool true); ("decodedText", JStr text); ("box", box)]).
  { intros j text box Hj Heq.
    assert (Hc : body resp = json_dumps (JObj [("hasQR", JBool true);
                                               ("decodedText", JStr text); ("box", box)]))
      by (rewrite Heq; reflexivity).
    pose proof (Hrt _ Hj) as H1. pose proof (Hrt _ Hc) as H2. congruence. }
  destruct (qr_handler_answers _ _ _ _ Hrun) as [E|[E|(text & box & Htext & E)]].
  - eexists _, JNull, JNull.
    split; [apply (unwrap_answer _ _ Hrt); rewrite E; reflexivity|].
    repeat split; try reflexivity; try discriminate.
    intros (text & box & Htext & Heq). exfalso.
    assert (Hj : body resp = json_dumps (JObj [("error", JStr "Missing bucket/key")]))
      by (rewrite E; reflexivity).
    discriminate (Hother _ _ _ Hj Heq).
  - eexists _, (JBool false), JNull.
    split; [apply (unwrap_answer _ _ Hrt); rewrite E; reflexivity|].
    repeat split; try reflexivity; try discriminate.
    intros (text & box & Htext & Heq). exfalso.
    assert (Hj : body resp = json_dumps (JObj [("hasQR", JBool false)]))
      by (rewrite E; reflexivity).
    discriminate (Hother _ _ _ Hj Heq).
  - eexists _, (JBool true), (JStr text).
    split; [apply (unwrap_answer _ _ Hrt); rewrite E; reflexivity|].
    repeat split; try reflexivity; eauto.
    cbn. symmetry. apply negb_true_iff, String.eqb_neq. exact Htext.
Qed.

(** X25. The answer of the text extractor, read by the router, whose
    parser gives back what the extractor serialised: the router finds no
    [text], and raises, exactly when the extractor refused the event or
    every page read as the empty string. *)
Theorem extractor_answer_read_by_the_router :
  forall event s resp s',
    ocr_handler event s = (Returns resp, s') ->
    (forall j, body resp = json_dumps j -> json_loads (body resp) = Some j) ->
    exists ocr_result txt,
      unwrap_body (payload_of resp) = Returns ocr_result /\
      dict_get ocr_result "text" JNull = Returns txt /\
      (truthy txt = false <-> resp = missing_bucket_key \/ resp = extracted []).
Proof.
  intros event s resp s' Hrun Hrt.
  destruct (ocr_handler_answers _ _ _ _ Hrun) as [E|(texts & E & Hne)].
  - eexists _, JNull.
    split; [apply (unwrap_answer _ _ Hrt); rewrite E; reflexivity|].
    split; [reflexivity|]. split; auto.
  - eexists _, (JStr (join_texts texts)).
    split; [apply (unwrap_answer _ _ Hrt); rewrite E; reflexivity|].
    split; [reflexivity|]. cbn [truthy]. rewrite negb_false_iff, String.eqb_eq.
    rewrite (join_texts_empty texts Hne).
    assert (Hj : body resp = json_dumps (JObj [("text", JStr (join_texts texts))]))
      by (rewrite E; reflexivity).
    split.
    + intros ->. right. exact E.
    + intros [Heq|Heq].
      * exfalso.
        assert (Hm : body resp = json_dumps (JObj [("error", JStr "Missing bucket/key")]))
          by (rewrite Heq; reflexivity).
        pose proof (Hrt _ Hj) as H1. pose proof (Hrt _ Hm) as H2. congruence.
      * assert (Hm : body resp = json_dumps (JObj [("text", JStr (join_texts []))]))
          by (rewrite Heq; reflexivity).
        pose proof (Hrt _ Hj) as H1. pose proof (Hrt _ Hm) as H2.
        apply (join_texts_empty texts Hne). rewrite H1 in H2. injection H2 as H2. exact H2.
Qed.

End LambdaRouterFacts.

(** *** The functions of the examples *)

Section LambdaInstances.

Import TriggerUpload DocumentLambdas LambdaSpec LambdaFixtures.

#[local] Open Scope string_scope.
#[local] Open Scope list_scope.

Lemma missing_bucket_or_key_is_refused_witness :
  @qr_handler runtime (JObj [("bucket", JStr "docs")]) cold
    = (Returns (@missing_bucket_key runtime), cold) /\
  @ocr_handler runtime (JObj [("bucket", JStr "docs")]) cold
    = (Returns (@missing_bucket_key runtime), cold).
Proof.
  apply (@missing_bucket_or_key_is_refused runtime (JObj [("bucket", JStr "docs")])
           (JStr "docs") JNull cold eq_refl eq_refl).
  right. reflexivity.
Defined.

Lemma local_copy_is_removed_after_a_download_witness :
  let fetched := [@EvMkstemp runtime "/tmp/tmpk3x9";
                  @EvDownload runtime (JStr "docs") (JStr "deed.png") "/tmp/tmpk3x9"] in
  (forall e w2,
     @download_file runtime (JStr "docs") (JStr "deed.png") "/tmp/tmpk3x9" 1%nat
       = (Raises e, w2) ->
     @qr_handler runtime deed cold
       = (Raises e, @mkState runtime w2 (trace cold ++ fetched) (_model cold)) /\
     @ocr_handler runtime deed cold
       = (Raises e, @mkState runtime w2 (trace cold ++ fetched) (_model cold))) /\
  (forall w2,
     @download_file runtime (JStr "docs") (JStr "deed.png") "/tmp/tmpk3x9" 1%nat
       = (Returns tt, w2) ->
     (exists r s' evs,
        @qr_handler runtime deed cold = (r, s') /\
        trace s' = trace cold ++ fetched ++ evs ++ [@EvUnlink runtime "/tmp/tmpk3x9"] /\
        Forall reads_only evs) /\
     (exists r s' evs,
        @ocr_handler runtime deed cold = (r, s') /\
        trace s' = trace cold ++ fetched ++ evs ++ [@EvUnlink runtime "/tmp/tmpk3x9"] /\
        Forall reads_only evs)).
Proof.
  apply (@local_copy_is_removed_after_a_download runtime deed (JStr "docs") (JStr "deed.png")
           cold "/tmp/tmpk3x9" 1%nat); reflexivity.
Defined.

(** Three pages before a fourth: nothing on the first, a first code
    that reads as nothing on the second, the code of the third. *)
Lemma first_decoded_page_answers_witness :
  @first_code runtime [0; 2; 4; 1]%nat cold
    = (Returns (@code runtime "CT-2024"
                  (JObj [("points", JArr [pt 40 40; pt 160 40; pt 160 160; pt 40 160])])),
       @mkState runtime 0%nat
         [@EvDecode runtime 0%nat; @EvDecode runtime 2%nat; @EvDecode runtime 4%nat] None).
Proof.
  apply (proj1 (proj2 (proj2 (proj2 (proj2 (@first_decoded_page_answers runtime)))))
           [0; 2]%nat 4%nat [1%nat] "CT-2024"
           (JObj [("points", JArr [pt 40 40; pt 160 40; pt 160 160; pt 40 160])]) cold).
  - constructor; [|constructor; [|constructor]].
    + exists false, [], None. split; [reflexivity|left; reflexivity].
    + exists true, [""; "CT-999"], (Some [square 40 40 120; square 300 40 120]).
      split; [reflexivity|]. right; right.
      exists ["CT-999"], (JObj [("points", JArr [pt 40 40; pt 160 40; pt 160 160; pt 40 160])]).
      split; [reflexivity|vm_compute; reflexivity].
  - exists [], (Some [square 40 40 120]). split; [reflexivity|vm_compute; reflexivity].
  - discriminate.
Defined.

Lemma extracted_text_joins_the_pages_witness :
  (let* read := @read_pages runtime tt [0; 1; 2]%nat [] in ret (@extracted runtime read)) cold
    = (Returns (@extracted runtime ["GIAY CHUNG NHAN"; "So 123"]),
       @mkState runtime 0%nat
         [@EvPredict runtime 0%nat; @EvPredict runtime 1%nat; @EvPredict runtime 2%nat] None) /\
  (join_texts ["GIAY CHUNG NHAN"; "So 123"] = ""
   <-> Forall (fun t => t = "") [""; "GIAY CHUNG NHAN"; "So 123"]).
Proof.
  apply (@extracted_text_joins_the_pages runtime tt [0; 1; 2]%nat
           [""; "GIAY CHUNG NHAN"; "So 123"] cold).
  repeat constructor.
Defined.

Lemma temporary_name_decides_the_reader_witness :
  exists w4,
    @qr_handler runtime deed_pdf cold
      = (Returns (@answer_of runtime (Some ("CT-123456", JNull))),
         @mkState runtime w4
           (trace cold ++
            [@EvMkstemp runtime "/tmp/tmpk3x9";
             @EvDownload runtime (JStr "docs") (JStr "deed.pdf") "/tmp/tmpk3x9";
             @EvImageOpen runtime "/tmp/tmpk3x9"] ++
            [@EvDecode runtime 1%nat; @EvUnlink runtime "/tmp/tmpk3x9"]) (_model cold)).
Proof.
  apply (proj2 (@temporary_name_decides_the_reader runtime deed_pdf (JStr "docs")
                  (JStr "deed.pdf") cold "/tmp/tmpk3x9" 1%nat 2%nat
                  eq_refl eq_refl eq_refl eq_refl eq_refl eq_refl eq_refl)
           1%nat 3%nat (Some ("CT-123456", JNull))).
  - reflexivity.
  - intros s. reflexivity.
Defined.

Lemma cold_start_reads_with_a_new_model_witness :
  exists w6,
    @ocr_handler runtime deed cold
      = (Returns (@extracted runtime
                    (if nonempty "GIAY CHUNG NHAN" then ["GIAY CHUNG NHAN"] else [])),
         @mkState runtime w6
           (trace cold ++
            [@EvMkstemp runtime "/tmp/tmpk3x9";
             @EvDownload runtime (JStr "docs") (JStr "deed.png") "/tmp/tmpk3x9";
             @EvImageOpen runtime "/tmp/tmpk3x9";
             @EvLoadModel runtime (mkSettings "cpu" false);
             @EvPredict runtime 1%nat; @EvUnlink runtime "/tmp/tmpk3x9"])
           (Some tt)).
Proof.
  apply (@cold_start_reads_with_a_new_model runtime deed (JStr "docs") (JStr "deed.png")
           cold "/tmp/tmpk3x9" 1%nat 2%nat 1%nat 3%nat tt 3%nat tt 4%nat
           "GIAY CHUNG NHAN"); reflexivity.
Defined.

Lemma loaded_model_is_reused_witness :
  (exists evs,
     trace (@ocr_handler runtime deed warmed).2 = trace warmed ++ evs /\
     Forall (fun e => ~ loads_model e) evs /\
     _model (@ocr_handler runtime deed warmed).2 = Some tt) /\
  (exists evs,
     trace (@qr_handler runtime deed warmed).2 = trace warmed ++ evs /\
     Forall (fun e => ~ loads_model e) evs /\
     _model (@qr_handler runtime deed warmed).2 = Some tt).
Proof.
  exact (@loaded_model_is_reused runtime tt deed warmed eq_refl).
Defined.

(** The serialiser of the examples is read back by their parser. *)
Lemma dumps_code j :
  "code" = dumps j ->
  j = JObj [("hasQR", JBool true); ("decodedText", JStr "CT-123456"); ("box", JNull)].
Proof.
  unfold dumps. intros Hj.
  repeat case_match; try discriminate; subst.
  repeat match goal with
         | H : _ && _ = true |- _ => apply andb_true_iff in H as [? ?]
         | H : (_ =? _) = true |- _ => apply String.eqb_eq in H; subst
         end.
  reflexivity.
Qed.

Lemma dumps_text j v :
  ("text=" ++ v)%string = dumps j -> j = JObj [("text", JStr v)].
Proof.
  unfold dumps. intros Hj.
  repeat case_match; try discriminate; subst.
  repeat match goal with
         | H : (_ =? _) = true |- _ => apply String.eqb_eq in H; subst
         end.
  cbn in Hj. injection Hj as ->. reflexivity.
Qed.

Lemma detector_answer_read_by_the_router_witness :
  exists qr_result has_qr decoded_text,
    @unwrap_body reader (@payload_of (@code runtime "CT-123456" JNull)) = Returns qr_result /\
    dict_get qr_result "hasQR" JNull = Returns has_qr /\
    dict_get qr_result "decodedText" JNull = Returns decoded_text /\
    truthy has_qr = truthy decoded_text /\
    (truthy has_qr = true
     <-> exists text box, text <> "" /\
           @code runtime "CT-123456" JNull = @code runtime text box).
Proof.
  apply (@detector_answer_read_by_the_router runtime reader deed cold
           (@code runtime "CT-123456" JNull)
           (@mkState runtime 4%nat
              [@EvMkstemp runtime "/tmp/tmpk3x9";
               @EvDownload runtime (JStr "docs") (JStr "deed.png") "/tmp/tmpk3x9";
               @EvImageOpen runtime "/tmp/tmpk3x9"; @EvDecode runtime 1%nat;
               @EvUnlink runtime "/tmp/tmpk3x9"] None)).
  - reflexivity.
  - intros j Hj. rewrite (dumps_code j Hj). reflexivity.
Defined.

Lemma extractor_answer_read_by_the_router_witness :
  exists ocr_result txt,
    @unwrap_body reader (@payload_of (@extracted runtime ["GIAY CHUNG NHAN"]))
      = Returns ocr_result /\
    dict_get ocr_result "text" JNull = Returns txt /\
    (truthy txt = false
     <-> @extracted runtime ["GIAY CHUNG NHAN"] = @missing_bucket_key runtime \/
         @extracted runtime ["GIAY CHUNG NHAN"] = @extracted runtime []).
Proof.
  apply (@extractor_answer_read_by_the_router runtime reader deed cold
           (@extracted runtime ["GIAY CHUNG NHAN"])
           (@mkState runtime 5%nat
              [@EvMkstemp runtime "/tmp/tmpk3x9";
               @EvDownload runtime (JStr "docs") (JStr "deed.png") "/tmp/tmpk3x9";
               @EvImageOpen runtime "/tmp/tmpk3x9"; @EvLoadModel runtime get_model_settings;
               @EvPredict runtime 1%nat; @EvUnlink runtime "/tmp/tmpk3x9"] (Some tt))).
  - reflexivity.
  - intros j Hj. rewrite (dumps_text j "GIAY CHUNG NHAN" Hj). reflexivity.
Defined.

End LambdaInstances.
